(** * Sitemap visualization tool: extractor, categorizer, renderer

    A shallow embedding of the three scripts of the repository
    ([extract_urls.py], [categorize_urls.py], [visualize_urls.py]) and the
    properties of them that the specification states.

    Python values are modelled as follows: [str] is [string] (a character
    is a byte, and strings compare byte by byte as Python compares code
    points), [int] is [Z], a list is a [list], an exception is the [Raise]
    case of [result].
    The pandas, graphviz, requests and BeautifulSoup calls are modelled by
    what the libraries document; each such model says so where it is
    defined. *)

From Stdlib Require Import List String Ascii ZArith Lia Bool Arith.
From Stdlib Require DecimalString DecimalZ DecimalPos.
From Stdlib Require Import Permutation Sorted.
Import ListNotations.

Local Open Scope string_scope.
Local Open Scope list_scope.
Local Open Scope Z_scope.

Local Infix "+++" := String.append (right associativity, at level 60).

(* ================================================================== *)
(** * Python primitives *)
(* ================================================================== *)

Module Py.

(** The exceptions the scripts can meet. *)
Inductive exn : Set :=
| ValueError
| IndexError
| KeyError
| RequestException
| OSError.

Inductive result (A : Type) : Type :=
| Ok (a : A)
| Raise (e : exn).

Arguments Ok {A} a.
Arguments Raise {A} e.

Definition bind {A B : Type} (m : result A) (k : A -> result B) : result B :=
  match m with
  | Ok a => k a
  | Raise e => Raise e
  end.

(** [try: m  except: handler] with a bare [except]. *)
Definition try_except {A : Type} (m : result A) (handler : A) : A :=
  match m with
  | Ok a => a
  | Raise _ => handler
  end.

Fixpoint mapM {A B : Type} (f : A -> result B) (l : list A) : result (list B) :=
  match l with
  | [] => Ok []
  | x :: xs =>
      bind (f x) (fun y => bind (mapM f xs) (fun ys => Ok (y :: ys)))
  end.

(** [sub in s] on strings. *)
Fixpoint contains (sub s : string) : bool :=
  String.prefix sub s ||
  match s with
  | EmptyString => false
  | String _ s' => contains sub s'
  end.

(** The pieces of [s.split(sep)] for a non-empty [sep]: occurrences are
    found left to right and do not overlap.  [skip] counts the characters
    of a separator still to be passed over. *)
Fixpoint split_pieces (sep : string) (skip : nat) (s : string) : list string :=
  match s with
  | EmptyString => [EmptyString]
  | String c s' =>
      match skip with
      | S k => split_pieces sep k s'
      | O =>
          if String.prefix sep s
          then EmptyString :: split_pieces sep (String.length sep - 1) s'
          else match split_pieces sep 0 s' with
               | p :: ps => String c p :: ps
               | [] => [String c EmptyString]
               end
      end
  end.

(** [s.split(sep)]: an empty separator raises [ValueError]. *)
Definition split (s sep : string) : result (list string) :=
  match sep with
  | EmptyString => Raise ValueError
  | _ => Ok (split_pieces sep 0 s)
  end.

(** [l[i]] with Python's negative indices. *)
Definition index {A : Type} (l : list A) (i : Z) : result A :=
  let n := Z.of_nat (List.length l) in
  let j := if i <? 0 then n + i else i in
  if (0 <=? j) && (j <? n)
  then match nth_error l (Z.to_nat j) with
       | Some a => Ok a
       | None => Raise IndexError
       end
  else Raise IndexError.

(** [range(lo, hi)]. *)
Definition range (lo hi : Z) : list Z :=
  map (fun k => lo + Z.of_nat k) (seq 0 (Z.to_nat (hi - lo))).

(** [l[:n]] with Python's negative bound. *)
Definition slice_to {A : Type} (l : list A) (n : Z) : list A :=
  if n <? 0
  then firstn (Nat.sub (List.length l) (Z.to_nat (- n))) l
  else firstn (Z.to_nat n) l.

(** [s[-3:]]: the last three characters, or all of a shorter string. *)
Definition last3 (s : string) : string :=
  String.substring (Nat.sub (String.length s) 3) 3 s.

(** [sep.join(l)]. *)
Definition join (sep : string) (l : list string) : string :=
  String.concat sep l.

End Py.

Import Py.

Notation "x <- m ;; k" := (Py.bind m (fun x => k))
  (at level 61, m at next level, right associativity).

(* ================================================================== *)
(** * pandas: grouping and sorting *)
(* ================================================================== *)

Module Pandas.

(** ** Sorting

    [DataFrame.sort_values] sorts on one column through numpy's [argsort]
    with [kind='quicksort'], and on several columns through a
    lexicographic sort that keeps tied rows in their order.  The pandas
    documentation promises stability only for the kinds [mergesort] and
    [stable]; the single-column routine is therefore a parameter, of which
    only the sorting contract [sorts] is known.  It is given a strict
    "comes before" test on rows. *)
Definition sorter : Type := forall A : Type, (A -> A -> bool) -> list A -> list A.

Definition ascending_by {A : Type} (lt : A -> A -> bool) : list A -> Prop :=
  StronglySorted (fun a b => lt b a = false).

Definition descending_by {A : Type} (lt : A -> A -> bool) : list A -> Prop :=
  StronglySorted (fun a b => lt a b = false).

(** [lt] compares keys: asymmetric, and "not after" is transitive. *)
Record key_order {A : Type} (lt : A -> A -> bool) : Prop := {
  lt_asym : forall a b, lt a b = true -> lt b a = false;
  le_trans : forall a b c, lt b a = false -> lt c b = false -> lt c a = false
}.

Record sorts (srt : sorter) : Prop := {
  sorts_perm : forall (A : Type) (lt : A -> A -> bool) (l : list A),
    Permutation l (srt A lt l);
  sorts_ascending : forall (A : Type) (lt : A -> A -> bool) (l : list A),
    key_order lt -> ascending_by lt (srt A lt l)
}.

(** [nargsort]: a descending sort reverses the rows, sorts them ascending
    and reverses the outcome. *)
Definition nargsort (srt : sorter) {A : Type} (lt : A -> A -> bool)
    (ascending : bool) (l : list A) : list A :=
  if ascending then srt A lt l else rev (srt A lt (rev l)).

(** Ascending on [lt], and in the order [R] among ties. *)
Definition ties_in_order {A : Type} (lt : A -> A -> bool) (R : A -> A -> Prop)
    (a b : A) : Prop :=
  lt b a = false /\ (lt a b = false -> R a b).

(** The stable sort behind the several-column case (and [kind='stable']).
    numpy's quicksort kind is this insertion sort on up to 17 rows, which
    is why the small tables below are evaluated with it. *)
Fixpoint insert {A : Type} (lt : A -> A -> bool) (x : A) (l : list A) : list A :=
  match l with
  | [] => [x]
  | y :: l' => if lt y x then y :: insert lt x l' else x :: l
  end.

Definition stable_sort : sorter :=
  fun A lt l => fold_right (insert lt) [] l.

(** A routine that sorts and turns ties around: it meets the sorting
    contract as well. *)
Definition reversing_sort : sorter :=
  fun A lt l => stable_sort A lt (rev l).

(** ** Grouping

    [groupby(keys)] with the default [sort=True]: one entry per distinct
    key, in ascending key order, here with the sum of the values of its
    rows. *)
Fixpoint group_add {K : Type} (cmp : K -> K -> comparison) (k : K) (v : Z)
    (acc : list (K * Z)) : list (K * Z) :=
  match acc with
  | [] => [(k, v)]
  | (k', n) :: rest =>
      match cmp k k' with
      | Eq => (k', n + v) :: rest
      | Lt => (k, v) :: acc
      | Gt => (k', n) :: group_add cmp k v rest
      end
  end.

Definition groupby_sum {K : Type} (cmp : K -> K -> comparison)
    (kvs : list (K * Z)) : list (K * Z) :=
  fold_left (fun acc kv => group_add cmp (fst kv) (snd kv) acc) kvs [].

(** [groupby(keys)[col].count()] where no value of [col] is missing. *)
Definition groupby_count {K : Type} (cmp : K -> K -> comparison)
    (ks : list K) : list (K * Z) :=
  groupby_sum cmp (map (fun k => (k, 1)) ks).

(** What grouping needs of a comparison. *)
Record comparison_order {K : Type} (cmp : K -> K -> comparison) : Prop := {
  cmp_eq : forall x y, cmp x y = Eq <-> x = y;
  cmp_opp : forall x y, cmp y x = CompOpp (cmp x y);
  cmp_trans : forall x y z c, cmp x y = c -> cmp y z = c -> cmp x z = c
}.

(** Tuples of strings compare column by column. *)
Definition tuple_compare : list string -> list string -> comparison :=
  list_compare String.compare.

End Pandas.

(* ================================================================== *)
(** * categorize_urls.py *)
(* ================================================================== *)

Module Categorize.

Import Pandas.

(** A row of the aggregation table: the segment columns [0..layers] and
    the [counts] column. *)
Definition row : Type := (list string * Z)%type.

Definition segments (r : row) : list string := fst r.
Definition counts (r : row) : Z := snd r.

(** [url.split('//')[-1].split('/')[0]] *)
Definition base_of (url : string) : result string :=
  a <- Py.split url "//" ;;
  b <- Py.index a (-1) ;;
  c <- Py.split b "/" ;;
  Py.index c 0.

(** The body of the [try]: [url.split(base)[-1].split('/')[layer]]. *)
Definition layer_of (url base : string) (layer : Z) : result string :=
  a <- Py.split url base ;;
  b <- Py.index a (-1) ;;
  c <- Py.split b "/" ;;
  Py.index c layer.

(** One pass of the inner loop: the column [page_layer]. *)
Definition page_layer (urls bases : list string) (layer : Z) : list string :=
  map (fun ub => try_except (layer_of (fst ub) (snd ub) layer) "")
      (combine urls bases).

(** [sitemap_layers[layer] = page_layer] on a frame kept row by row. *)
Definition set_column (frame : list (list string)) (col : list string)
    : list (list string) :=
  map (fun rc => fst rc ++ [snd rc]) (combine frame col).

(** The frame before grouping: column 0 holds the bases, and the loop over
    [range(1, layers+1)] adds one column per layer. *)
Definition sitemap_frame (urls : list string) (layers : Z)
    : result (list (list string)) :=
  bases <- mapM base_of urls ;;
  Ok (fold_left (fun frame layer => set_column frame (page_layer urls bases layer))
                (Py.range 1 (layers + 1))
                (map (fun b => [b]) bases)).

Definition counts_lt (r1 r2 : row) : bool := counts r1 <? counts r2.

Definition leading (layers : Z) (r : row) : list string :=
  firstn (Z.to_nat layers) (segments r).

Definition leading_lt (layers : Z) (r1 r2 : row) : bool :=
  match tuple_compare (leading layers r1) (leading layers r2) with
  | Lt => true
  | _ => false
  end.

(** [.sort_values(list(range(0, layers)), ascending=True)]: no column
    leaves the frame as it is (pandas 1.3 and later; earlier releases
    raise [IndexError] on an empty list), one column goes through the
    single-column routine, several through the stable one. *)
Definition sort_leading (srt : sorter) (layers : Z) (t : list row) : list row :=
  match List.length (Py.range 0 layers) with
  | O => t
  | S O => nargsort srt (leading_lt layers) true t
  | _ => stable_sort row (leading_lt layers) t
  end.

(** [peel_layers(urls, layers)]; the CSV export is left out.  Grouping by
    an empty list of columns ([layers < 0]) raises [ValueError]. *)
Definition peel_layers (srt : sorter) (urls : list string) (layers : Z)
    : result (list row) :=
  sitemap_layers <- sitemap_frame urls layers ;;
  match Py.range 0 (layers + 1) with
  | [] => Raise ValueError
  | _ =>
      let grouped := groupby_count tuple_compare sitemap_layers in
      let by_counts := nargsort srt counts_lt false grouped in
      Ok (sort_leading srt layers by_counts)
  end.

End Categorize.

(* ================================================================== *)
(** * graphviz: the DOT lines of a [Digraph] *)
(* ================================================================== *)

Module Graphviz.

Definition dquote : ascii := ascii_of_nat 34.
Definition tab : ascii := ascii_of_nat 9.
Definition newline : ascii := ascii_of_nat 10.
Definition backslash : ascii := ascii_of_nat 92.

Definition quote_mark : string := String dquote EmptyString.

Definition between (lo hi : nat) (c : ascii) : bool :=
  (lo <=? nat_of_ascii c)%nat && (nat_of_ascii c <=? hi)%nat.

Definition is_digit (c : ascii) : bool := between 48 57 c.

Definition is_letter (c : ascii) : bool :=
  between 97 122 c || between 65 90 c || Ascii.eqb c "_".

Definition is_word (c : ascii) : bool := is_letter c || is_digit c.

(** A name: a letter or underscore, then letters, digits, underscores. *)
Definition is_name (s : string) : bool :=
  match s with
  | EmptyString => false
  | String c r => is_letter c && forallb is_word (list_ascii_of_string r)
  end.

Fixpoint drop_digits (cs : list ascii) : list ascii :=
  match cs with
  | c :: r => if is_digit c then drop_digits r else cs
  | [] => []
  end.

(** Digits after a dot, or digits with an optional dot and further
    digits. *)
Definition is_unsigned (cs : list ascii) : bool :=
  match cs with
  | [] => false
  | c :: r =>
      if Ascii.eqb c "."
      then negb (Nat.eqb (List.length r) 0) && forallb is_digit r
      else is_digit c &&
           match drop_digits r with
           | [] => true
           | d :: fr => Ascii.eqb d "." && forallb is_digit fr
           end
  end.

(** A numeral: an optional minus sign before the above. *)
Definition is_numeral (s : string) : bool :=
  match s with
  | String c r =>
      if Ascii.eqb c "-" then is_unsigned (list_ascii_of_string r)
      else is_unsigned (list_ascii_of_string s)
  | EmptyString => false
  end.

(** A pattern closed by [$] also matches just before a final newline. *)
Definition chop_newline (s : string) : option string :=
  match rev (list_ascii_of_string s) with
  | c :: r => if Ascii.eqb c newline
              then Some (string_of_list_ascii (rev r)) else None
  | [] => None
  end.

Definition up_to_end (p : string -> bool) (s : string) : bool :=
  p s || match chop_newline s with Some s' => p s' | None => false end.

Definition is_valid_id : string -> bool :=
  up_to_end (fun s => is_name s || is_numeral s).

(** An HTML string opens with [<] and closes with [>]. *)
Definition is_html_string : string -> bool :=
  up_to_end (fun s =>
    match list_ascii_of_string s with
    | c :: r => Ascii.eqb c "<" &&
                match rev r with d :: _ => Ascii.eqb d ">" | [] => false end
    | [] => false
    end).

Definition lower_char (c : ascii) : ascii :=
  if between 65 90 c then ascii_of_nat (nat_of_ascii c + 32) else c.

Fixpoint lower (s : string) : string :=
  match s with
  | EmptyString => EmptyString
  | String c r => String (lower_char c) (lower r)
  end.

Definition keywords : list string :=
  ["node"; "edge"; "graph"; "digraph"; "subgraph"; "strict"].

(** A quote gets a backslash unless an odd run of backslashes is already in
    front of it; [odd] is the parity of the run read so far. *)
Fixpoint escape_quotes (odd : bool) (s : string) : string :=
  match s with
  | EmptyString => EmptyString
  | String c r =>
      if Ascii.eqb c dquote
      then (if odd then String c (escape_quotes false r)
            else String backslash (String c (escape_quotes false r)))
      else if Ascii.eqb c backslash
      then String c (escape_quotes (negb odd) r)
      else String c (escape_quotes false r)
  end.

(** [quote]: a plain identifier, a numeral or an HTML string stands as it
    is; anything else goes between double quotes. *)
Definition quote (identifier : string) : string :=
  if is_html_string identifier then identifier
  else if negb (is_valid_id identifier)
          || existsb (String.eqb (lower identifier)) keywords
  then quote_mark +++ escape_quotes false identifier +++ quote_mark
  else identifier.

(** [s.partition(':')]: the text before the first colon and whether and
    what follows it. *)
Fixpoint partition_colon (s : string) : string * string :=
  match s with
  | EmptyString => (EmptyString, EmptyString)
  | String c r =>
      if Ascii.eqb c ":" then (EmptyString, r)
      else let (a, b) := partition_colon r in (String c a, b)
  end.

(** [quote_edge]: the end of an edge is read as [node:port:compass]. *)
Definition quote_edge (identifier : string) : string :=
  let (node, rest) := partition_colon identifier in
  match rest with
  | EmptyString => quote node
  | _ =>
      let (port, compass) := partition_colon rest in
      match compass with
      | EmptyString => quote node +++ ":" +++ quote port
      | _ => quote node +++ ":" +++ quote port +++ ":" +++ compass
      end
  end.

Record Digraph : Type := {
  name : string;
  filename : string;
  body : list string
}.

Definition extend (f : Digraph) (lines : list string) : Digraph :=
  {| name := name f; filename := filename f; body := body f ++ lines |}.

Definition label_attr (label : string) : string :=
  " [label=" +++ quote label +++ "]".

(** The line of a node statement. *)
Definition node_line (n l : string) : string :=
  String tab (quote n +++ label_attr l).

(** The line of an edge statement of a directed graph. *)
Definition edge_line (tail head l : string) : string :=
  String tab (quote_edge tail +++ " -> " +++ quote_edge head +++ label_attr l).

(** [f.node(name=n, label=l)] *)
Definition node (f : Digraph) (n l : string) : Digraph :=
  extend f [node_line n l].

(** [f.edge(tail, head, label=l)] *)
Definition edge (f : Digraph) (tail head l : string) : Digraph :=
  extend f [edge_line tail head l].

(** [f.attr('node', shape=s)] *)
Definition attr_node_shape (f : Digraph) (s : string) : Digraph :=
  extend f [String tab ("node [shape=" +++ quote s +++ "]")].

End Graphviz.

(* ================================================================== *)
(** * visualize_urls.py *)
(* ================================================================== *)

Module Visualize.

Import Pandas Graphviz.

(** A cell of the table read back from the CSV file: a string, or NaN
    ([None]) where the field was empty. *)
Definition cell : Type := option string.

(** The table: the segment columns ['0'], ['1'], ... and [counts]. *)
Record DataFrame : Type := {
  columns : nat;
  rows : list (list cell * Z)
}.

(** [len(df)] is the number of rows. *)
Definition len (df : DataFrame) : Z := Z.of_nat (List.length (rows df)).

(** What is printed, and the value or the exception. *)
Definition io (A : Type) : Type := (list string * result A)%type.

Definition ret {A : Type} (a : A) : io A := ([], Ok a).
Definition lift {A : Type} (r : result A) : io A := ([], r).

Definition io_bind {A B : Type} (m : io A) (k : A -> io B) : io B :=
  match m with
  | (out, Ok a) => let (out', r) := k a in (out ++ out', r)
  | (out, Raise e) => (out, Raise e)
  end.

Notation "x <<- m ;; k" := (io_bind m (fun x => k))
  (at level 61, m at next level, right associativity).

Definition print (s : string) (ending : ascii) : io unit :=
  ([s +++ String ending EmptyString], Ok tt).

Fixpoint for_each {A S : Type} (l : list A) (step : S -> A -> io S) (s : S)
    : io S :=
  match l with
  | [] => ret s
  | x :: xs => s' <<- step s x ;; for_each xs step s'
  end.

(** ['%d' % z] *)
Definition str (z : Z) : string :=
  DecimalString.NilZero.string_of_int (Z.to_int z).

(** The digits, lowest first, with a comma after every third. *)
Fixpoint commas (ds : list ascii) : list ascii :=
  match ds with
  | a :: b :: c :: ((_ :: _) as more) =>
      a :: b :: c :: ","%char :: commas more
  | _ => ds
  end.

(** ['{:,}'.format(z)] *)
Definition format_commas (z : Z) : string :=
  let digits := List.rev (list_ascii_of_string (str (Z.abs z))) in
  let grouped := string_of_list_ascii (List.rev (commas digits)) in
  if z <? 0 then String "-" grouped else grouped.

(** [s.ljust(n)] *)
Definition ljust (n : nat) (s : string) : string :=
  s +++ string_of_list_ascii (repeat " "%char (n - String.length s)).

(** ['%s' % c]: NaN prints as [nan]. *)
Definition str_cell (c : cell) : string :=
  match c with
  | Some s => s
  | None => "nan"
  end.

(** [series == value], element by element: NaN equals nothing. *)
Definition cell_equal (a b : cell) : bool :=
  match a, b with
  | Some x, Some y => String.eqb x y
  | _, _ => false
  end.

Definition cell_same (a b : cell) : bool :=
  match a, b with
  | Some x, Some y => String.eqb x y
  | None, None => true
  | _, _ => false
  end.

Fixpoint tuple_same (k1 k2 : list cell) : bool :=
  match k1, k2 with
  | [], [] => true
  | a :: r1, b :: r2 => cell_same a b && tuple_same r1 r2
  | _, _ => false
  end.

(** [drop_duplicates()]: the first of equal tuples stays; two NaN count as
    equal here. *)
Fixpoint drop_duplicates (seen : list (list cell)) (l : list (list cell))
    : list (list cell) :=
  match l with
  | [] => []
  | k :: r =>
      if existsb (tuple_same k) seen then drop_duplicates seen r
      else k :: drop_duplicates (k :: seen) r
  end.

Definition enumerate {A : Type} (l : list A) : list (Z * A) :=
  combine (map Z.of_nat (seq 0 (List.length l))) l.

(** The mask built over [enumerate(k)]: a row stays when each of its
    leading cells equals the cell of [k]. *)
Definition mask (k : list cell) (r : list cell * Z) : bool :=
  forallb (fun jk => cell_equal (nth (Z.to_nat (fst jk)) (fst r) None) (snd jk))
          (enumerate k).

Definition count_lt (a b : string * Z) : bool := snd a <? snd b.

(** [frame.groupby([str(i)])['counts'].sum().reset_index()
      .sort_values(['counts'], ascending=False)]: rows whose key is NaN
    drop out of the groups; an absent column raises [KeyError].  The sums
    are taken in [Z]: they are the 64-bit sums of pandas as long as these
    do not wrap around. *)
Definition branch_sizes (srt : sorter) (df : DataFrame) (i : nat)
    (frame : list (list cell * Z)) : result (list (string * Z)) :=
  if (i <? columns df)%nat
  then
    let keyed :=
      flat_map (fun r => match nth i (fst r) None with
                         | Some s => [(s, snd r)]
                         | None => []
                         end) frame in
    Ok (nargsort srt count_lt false (groupby_sum String.compare keyed))
  else Raise KeyError.

(** [df[cols].drop_duplicates().values] for [cols = ['0', ..., str(i-1)]]. *)
Definition parent_tuples (df : DataFrame) (i : nat) : result (list (list cell)) :=
  if (i <=? columns df)%nat
  then Ok (drop_duplicates [] (map (fun r => firstn i (fst r)) (rows df)))
  else Raise KeyError.

(** The names read back from the lines of [f.body] that hold [label]:
    [item.split(quote)[1]]. *)
Definition node_names (f : Digraph) : result (list string) :=
  mapM (fun item => a <- Py.split item quote_mark ;; Py.index a 1)
       (filter (Py.contains "label") (body f)).

Definition child_name (connect_to name : string) : string :=
  connect_to +++ "-" +++ name.

Definition add_branch (f : Digraph) (names : list string) (vals : list Z)
    (limit : Z) (connect_to : string) : result Digraph :=
  node_names <- node_names f ;;
  match connect_to with
  | EmptyString => Ok f
  | _ =>
      if existsb (String.eqb connect_to) node_names
      then
        Ok (fold_left
              (fun f nv =>
                 let f := node f (child_name connect_to (fst nv)) (fst nv) in
                 edge f connect_to (child_name connect_to (fst nv))
                      (format_commas (snd nv)))
              (Py.slice_to (combine names vals) limit) f)
      else Ok f
  end.

Definition clamp_message (layers : Z) : string :=
  "There are only " +++ str layers
  +++ " layers available to plot, setting layers=" +++ str layers.

Definition progress_message (j n i : Z) : string :=
  ljust 50 ("Built graph up to node " +++ str j +++ " / " +++ str n
            +++ " in layer " +++ str i).

(** [connect_to='-'.join(['%s']*i) % tuple(k)] *)
Definition connect_name (k : list cell) : string :=
  Py.join "-" (map str_cell k).

Definition make_sitemap_graph (srt : sorter) (df : DataFrame)
    (layers limit : Z) (size : string) : io Digraph :=
  layers <<- (if layers >? len df - 1
              then _ <<- print (clamp_message (len df - 1)) newline ;;
                   ret (len df - 1)
              else ret layers) ;;
  let f := {| name := "sitemap";
              filename := "sitemap_graph_" +++ str layers +++ "_layer";
              body := [] |} in
  let f := extend f ["rankdir=LR"; "size=" +++ quote_mark +++ size +++ quote_mark] in
  let f := attr_node_shape f "rectangle" in
  hosts <<- lift (branch_sizes srt df 0 (rows df)) ;;
  let f := fold_left
             (fun f nc => node f (fst nc)
                            (fst nc +++ " (" +++ format_commas (snd nc) +++ ")"))
             hosts f in
  if layers =? 0 then ret f
  else
    let f := attr_node_shape f "oval" in
    for_each (Py.range 1 (layers + 1))
      (fun f i =>
         nodes <<- lift (parent_tuples df (Z.to_nat i)) ;;
         for_each (enumerate nodes)
           (fun f jk =>
              data <<- lift (branch_sizes srt df (Z.to_nat i)
                               (filter (mask (snd jk)) (rows df))) ;;
              f <<- lift (add_branch f (map fst data) (map snd data) limit
                            (connect_name (snd jk))) ;;
              _ <<- print (progress_message (fst jk)
                             (Z.of_nat (List.length nodes)) i)
                          (ascii_of_nat 13) ;;
              ret f)
           f)
      f.

End Visualize.

(* ================================================================== *)
(** * extract_urls.py *)
(* ================================================================== *)

Module Extract.

Section World.

(** The bytes of a document. *)
Variable content : Type.

(** [requests.get(url).content]; a request that cannot be completed
    raises. *)
Variable requests_get : string -> result content.

(** [[e.text for e in BeautifulSoup(page, 'html.parser').findAll('loc')]];
    the parser takes any input. *)
Variable loc_texts : content -> list string.

(** [gzip.open(f).read()]; data that is no gzip stream raises. *)
Variable gunzip : content -> result content.

(** The directory [gzip-sitemaps]: file names and their bytes, in the
    order the directory lists them. *)
Definition directory : Type := list (string * content).

Definition get_urls (url : string) : result (list string) :=
  page <- requests_get url ;;
  Ok (loc_texts page).

Definition is_gz (u : string) : bool := String.eqb (Py.last3 u) ".gz".

(** [for x in l: links = get(x); sitemap_urls += links] *)
Fixpoint gather {A : Type} (get : A -> result (list string)) (l : list A)
    (sitemap_urls : list string) : result (list string) :=
  match l with
  | [] => Ok sitemap_urls
  | x :: rest =>
      links <- get x ;;
      gather get rest (sitemap_urls ++ links)
  end.

(** [get_all_urls]; the warning lines are not modelled. *)
Definition get_all_urls (sitemap_url : string) : result (list string) :=
  urls <- get_urls sitemap_url ;;
  let urls_not_gz := filter (fun u => negb (is_gz u)) urls in
  gather get_urls urls_not_gz [].

(** [open(path, 'wb')] and [f.write(data)]: an existing file is
    replaced. *)
Fixpoint write_file (dir : directory) (filename : string) (data : content)
    : directory :=
  match dir with
  | [] => [(filename, data)]
  | (n, d) :: rest =>
      if String.eqb n filename then (n, data) :: rest
      else (n, d) :: write_file rest filename data
  end.

(** [glob.glob('gzip-sitemaps/*.gz')]: the star matches no leading dot. *)
Definition glob_gz (dir : directory) : list (string * content) :=
  filter (fun nd => is_gz (fst nd) && negb (String.prefix "." (fst nd))) dir.

Definition get_gzip_urls (f_ : string * content) : result (list string) :=
  page <- gunzip (snd f_) ;;
  Ok (loc_texts page).

(** The download loop. *)
Fixpoint download (urls : list string) (dir : directory) : result directory :=
  match urls with
  | [] => Ok dir
  | url :: rest =>
      parts <- Py.split url "/" ;;
      filename <- Py.index parts (-1) ;;
      page <- requests_get url ;;
      download rest (write_file dir filename page)
  end.

(** [get_all_gzip_urls]: the directory is threaded through; the warning
    lines are not modelled. *)
Definition get_all_gzip_urls (sitemap_url : string) (dir : directory)
    : result (list string * directory) :=
  urls <- get_urls sitemap_url ;;
  let urls_gz := filter is_gz urls in
  dir <- download urls_gz dir ;;
  sitemap_urls <- gather get_gzip_urls (glob_gz dir) [] ;;
  Ok (sitemap_urls, dir).

End World.

End Extract.

(* ================================================================== *)
(** * numpy: the quicksort kind of [argsort] *)
(* ================================================================== *)

(** numpy sorts a range of more than 17 rows by a median-of-three
    partition and shorter ranges by insertion; past a recursion depth of
    twice the binary logarithm of the length it turns to heap sort.  The
    rows stand for the index array that numpy permutes; the heap sort is
    not transcribed, the insertion sort stands in for it. *)
Module Numpy.

Section Quicksort.

Context {A : Type} (lt : A -> A -> bool).

Fixpoint put (i : nat) (x : A) (a : list A) : list A :=
  match a, i with
  | [], _ => []
  | _ :: r, O => x :: r
  | y :: r, S i' => y :: put i' x r
  end.

Definition swap (i j : nat) (a : list A) : list A :=
  match nth_error a i, nth_error a j with
  | Some x, Some y => put j x (put i y a)
  | _, _ => a
  end.

Definition lt_at (a : list A) (i j : nat) : bool :=
  match nth_error a i, nth_error a j with
  | Some x, Some y => lt x y
  | _, _ => false
  end.

Definition median3 (a : list A) (pl pm pr : nat) : list A :=
  let a := if lt_at a pm pl then swap pm pl a else a in
  let a := if lt_at a pr pm then swap pr pm a else a in
  if lt_at a pm pl then swap pm pl a else a.

(** [do ++pi; while (v[pi] < vp)] *)
Fixpoint scan_up (n : nat) (a : list A) (vp : A) (pi : nat) : nat :=
  match n with
  | O => S pi
  | S n' =>
      match nth_error a (S pi) with
      | Some x => if lt x vp then scan_up n' a vp (S pi) else S pi
      | None => S pi
      end
  end.

(** [do --pj; while (vp < v[pj])] *)
Fixpoint scan_down (n : nat) (a : list A) (vp : A) (pj : nat) : nat :=
  match n with
  | O => Nat.pred pj
  | S n' =>
      match nth_error a (Nat.pred pj) with
      | Some x => if lt vp x then scan_down n' a vp (Nat.pred pj)
                  else Nat.pred pj
      | None => Nat.pred pj
      end
  end.

Fixpoint exchange (n : nat) (a : list A) (vp : A) (pi pj : nat)
    : list A * nat :=
  match n with
  | O => (a, pi)
  | S n' =>
      let pi := scan_up (List.length a) a vp pi in
      let pj := scan_down (List.length a) a vp pj in
      if (pj <=? pi)%nat then (a, pi)
      else exchange n' (swap pi pj a) vp pi pj
  end.

Definition partition (a : list A) (pl pr : nat) : list A * nat :=
  let pm := (pl + Nat.div2 (pr - pl))%nat in
  let a := median3 a pl pm pr in
  match nth_error a pm with
  | Some vp =>
      let a := swap pm (Nat.pred pr) a in
      let (a, pi) := exchange (List.length a) a vp pl (Nat.pred pr) in
      (swap pi (Nat.pred pr) a, pi)
  | None => (a, pl)
  end.

(** Insertion sort of the rows [pl..pr]: it keeps ties in order. *)
Definition insertion (a : list A) (pl pr : nat) : list A :=
  firstn pl a
  ++ Pandas.stable_sort A lt (firstn (S pr - pl) (skipn pl a))
  ++ skipn (S pr) a.

Fixpoint sort_range (fuel : nat) (a : list A) (pl pr : nat) (cdepth : Z)
    (popped : bool) : list A :=
  match fuel with
  | O => insertion a pl pr
  | S fuel' =>
      if popped && (cdepth <? 0) then insertion a pl pr
      else if (16 <? pr - pl)%nat
      then
        let (a, pi) := partition a pl pr in
        if (pi - pl <? pr - pi)%nat
        then
          let a := sort_range fuel' a pl (Nat.pred pi) (cdepth - 1) false in
          sort_range fuel' a (S pi) pr (cdepth - 1) true
        else
          let a := sort_range fuel' a (S pi) pr (cdepth - 1) false in
          sort_range fuel' a pl (Nat.pred pi) (cdepth - 1) true
      else insertion a pl pr
  end.

End Quicksort.

Definition aquicksort : Pandas.sorter :=
  fun A lt a =>
    sort_range lt (List.length a) a 0 (Nat.pred (List.length a))
               (2 * Z.of_nat (Nat.log2 (List.length a))) true.

End Numpy.

(* ================================================================== *)
(** * Reference definitions for the statements below *)
(* ================================================================== *)

Module Spec.

Import Pandas Categorize.

(** The text before the first slash. *)
Fixpoint until_slash (s : string) : string :=
  match s with
  | EmptyString => EmptyString
  | String c r => if Ascii.eqb c "/" then EmptyString else String c (until_slash r)
  end.

(** The host as a total function: the first slash-separated piece of what
    follows the last double slash. *)
Definition host_of (url : string) : string :=
  hd EmptyString
     (Py.split_pieces "/" 0 (last (Py.split_pieces "//" 0 url) EmptyString)).

(** The last piece of [url] split on [base]. *)
Definition after_last (base url : string) : string :=
  last (Py.split_pieces base 0 url) EmptyString.

(** The cell of layer [p] of a URL, as the code computes it. *)
Definition segment_at (url base : string) (p : nat) : string :=
  match base with
  | EmptyString => EmptyString
  | _ => nth p (Py.split_pieces "/" 0 (after_last base url)) EmptyString
  end.

Definition row_of (layers : Z) (url : string) : list string :=
  host_of url
  :: map (segment_at url (host_of url)) (seq 1 (Z.to_nat layers)).

(** The portion of [url] that follows the first occurrence of [base], in
    the words of the specification. *)
Fixpoint after_first (base url : string) : string :=
  if String.prefix base url
  then String.substring (String.length base)
                        (String.length url - String.length base) url
  else match url with
       | EmptyString => EmptyString
       | String _ r => after_first base r
       end.

(** The cell of layer [p] in the words of the specification. *)
Definition claimed_segment (url base : string) (p : nat) : string :=
  nth p (Py.split_pieces "/" 0 (after_first base url)) EmptyString.

(** The sum of the value column. *)
Definition sum_values {K : Type} (kvs : list (K * Z)) : Z :=
  fold_right Z.add 0 (map snd kvs).

Definition total_counts (t : list row) : Z := sum_values t.

Definition same_key {K : Type} (cmp : K -> K -> comparison) (k : K)
    (kv : K * Z) : bool :=
  match cmp (fst kv) k with
  | Eq => true
  | _ => false
  end.

(** The sum of the values that stand under the key [k]. *)
Definition weight {K : Type} (cmp : K -> K -> comparison) (k : K)
    (kvs : list (K * Z)) : Z :=
  sum_values (filter (same_key cmp k) kvs).

(** Keys in strictly ascending order. *)
Definition keys_sorted {K : Type} (cmp : K -> K -> comparison)
    : list (K * Z) -> Prop :=
  StronglySorted (fun a b => cmp (fst a) (fst b) = Lt).


(** The order of the table: rows ascend on the leading columns, and of two
    rows that agree on them the earlier has no smaller count. *)
Definition leading_ascending (layers : Z) (t : list row) : Prop :=
  ascending_by (leading_lt layers) t.

(** Of two rows with the same leading columns the earlier has no smaller
    count. *)
Definition ranked_after (layers : Z) (r r' : row) : bool :=
  match tuple_compare (leading layers r) (leading layers r') with
  | Eq => counts r' <=? counts r
  | _ => true
  end.

Fixpoint counts_ranked (layers : Z) (t : list row) : bool :=
  match t with
  | [] => true
  | r :: rest => forallb (ranked_after layers r) rest && counts_ranked layers rest
  end.

(** The two lines that [add_branch] writes for a child. *)
Definition child_lines (connect_to : string) (nv : string * Z) : list string :=
  [Graphviz.node_line (Visualize.child_name connect_to (fst nv)) (fst nv);
   Graphviz.edge_line connect_to (Visualize.child_name connect_to (fst nv))
     (Visualize.format_commas (snd nv))].

(** A table of depth 1 (columns 0 and 1) with five rows. *)
Definition shallow_table : Visualize.DataFrame :=
  {| Visualize.columns := 2;
     Visualize.rows :=
       [([Some "a.com"; Some "x"], 5); ([Some "a.com"; Some "y"], 4);
        ([Some "a.com"; Some "z"], 3); ([Some "b.org"; Some "p"], 2);
        ([Some "b.org"; Some "q"], 1)] |}.

(** A table of depth 3 (columns 0 to 3) with two rows. *)
Definition deep_table : Visualize.DataFrame :=
  {| Visualize.columns := 4;
     Visualize.rows :=
       [([Some "a.com"; Some "x"; Some "y"; Some "z"], 2);
        ([Some "a.com"; Some "x"; Some "y"; Some "w"], 1)] |}.

(** One parent with three children of counts 5, 3 and 1. *)
Definition three_children : Visualize.DataFrame :=
  {| Visualize.columns := 2;
     Visualize.rows :=
       [([Some "a.com"; Some "x"], 5); ([Some "a.com"; Some "y"], 3);
        ([Some "a.com"; Some "z"], 1)] |}.

(** A segment with a double quote in it, and one that ends in a
    backslash. *)
Definition quoted_segment : string :=
  "x" +++ Graphviz.quote_mark +++ "y".

Definition slashed_segment : string :=
  String "x" (String Graphviz.backslash EmptyString).

Definition quote_table : Visualize.DataFrame :=
  {| Visualize.columns := 3;
     Visualize.rows :=
       [([Some "a.com"; Some quoted_segment; Some "u"], 3);
        ([Some "a.com"; Some quoted_segment; Some "v"], 2);
        ([Some "a.com"; Some slashed_segment; Some "z"], 1)] |}.

(** Two hosts, one of which continues the other after a dash. *)
Definition dash_table : Visualize.DataFrame :=
  {| Visualize.columns := 2;
     Visualize.rows :=
       [([Some "h.x"; Some "b-c"], 1); ([Some "h.x-b"; Some "c"], 1)] |}.

(** A line that opens like the node statement of [n]. *)
Definition declares (n line : string) : bool :=
  String.prefix (String Graphviz.tab (Graphviz.quote n +++ " [label=")) line.

(** A graph that holds the node of one host. *)
Definition host_graph : Graphviz.Digraph :=
  Graphviz.node
    {| Graphviz.name := "sitemap"; Graphviz.filename := "sitemap_graph";
       Graphviz.body := [] |}
    "a.com" "a.com (9)".

(** A network where the index lists two child sitemaps, the first of which
    cannot be fetched; a document is given by its [loc] texts. *)
Definition broken_net (url : string) : Py.result (list string) :=
  if String.eqb url "http://s/index.xml"
  then Py.Ok ["http://s/1.xml"; "http://s/2.xml"]
  else if String.eqb url "http://s/2.xml"
  then Py.Ok ["http://s/page"]
  else Py.Raise Py.RequestException.

(** The same with compressed children. *)
Definition broken_gz_net (url : string) : Py.result (list string) :=
  if String.eqb url "http://s/index.xml"
  then Py.Ok ["http://s/1.xml.gz"; "http://s/2.xml.gz"]
  else if String.eqb url "http://s/2.xml.gz"
  then Py.Ok ["http://s/page"]
  else Py.Raise Py.RequestException.

(** Eighteen sections of one site, the first with 18 pages, the next with
    17, and so on down to one page. *)
Definition section_url (k : nat) : string :=
  "http://a.com/" +++ String (ascii_of_nat (97 + k)) EmptyString.

Definition ranked_urls : list string :=
  flat_map (fun k => repeat (section_url k) (18 - k)) (seq 0 18).

End Spec.

(* ================================================================== *)
(** * Further reference definitions: the aggregation table *)
(* ================================================================== *)

Module TableSpec.

Import Pandas Categorize Spec.

Definition same_tuple (k1 k2 : list string) : bool :=
  match tuple_compare k1 k2 with
  | Eq => true
  | _ => false
  end.

(** The number of URLs whose row of cells is [k]. *)
Definition urls_with_tuple (layers : Z) (k : list string) (urls : list string) : Z :=
  Z.of_nat (List.length (filter (fun u => same_tuple (row_of layers u) k) urls)).

(** The last character of [s] is a slash. *)
Fixpoint ends_with_slash (s : string) : bool :=
  match s with
  | EmptyString => false
  | String c EmptyString => Ascii.eqb c "/"
  | String _ r => ends_with_slash r
  end.

End TableSpec.

(* ================================================================== *)
(** * Text files *)
(* ================================================================== *)

Module Text.

Definition lf : ascii := ascii_of_nat 10.
Definition cr : ascii := ascii_of_nat 13.

(** [f.read()] of a file opened in text mode: a carriage return, with
    the line feed that may follow it, is read as one line feed.
    [skip_lf] tells that the character before was a carriage return. *)
Fixpoint read_text (skip_lf : bool) (s : string) : string :=
  match s with
  | EmptyString => EmptyString
  | String c r =>
      if skip_lf && Ascii.eqb c lf then read_text false r
      else if Ascii.eqb c cr then String lf (read_text true r)
      else String c (read_text false r)
  end.

(** The text that is modelled is ASCII text: a character below 128 is one
    code point and one byte, whatever the encoding the file is opened
    with.  Text with other characters is not covered: there the line
    breaks of [splitlines] are code points (next line, line separator,
    paragraph separator) that take several bytes in the file. *)
Definition is_ascii (c : ascii) : bool := (nat_of_ascii c <? 128)%nat.

Definition ascii_text (s : string) : bool :=
  forallb is_ascii (list_ascii_of_string s).

(** The ASCII characters at which [splitlines] cuts: line feed, vertical
    tab, form feed, carriage return and the three separators. *)
Definition is_linebreak (c : ascii) : bool :=
  existsb (Nat.eqb (nat_of_ascii c)) [10; 11; 12; 13; 28; 29; 30]%nat.

(** The lines of ASCII text: the line breaks are left out, a carriage
    return and a line feed together are one break, and nothing follows a
    final break. *)
Fixpoint splitlines_from (skip_lf : bool) (s : string) : list string :=
  match s with
  | EmptyString => []
  | String c r =>
      if skip_lf && Ascii.eqb c lf then splitlines_from false r
      else if is_linebreak c
      then EmptyString :: splitlines_from (Ascii.eqb c cr) r
      else match splitlines_from false r with
           | [] => [String c EmptyString]
           | l :: ls => String c l :: ls
           end
  end.

(** [s.splitlines()] for ASCII text; [None] for text that is not covered. *)
Definition splitlines (s : string) : option (list string) :=
  if ascii_text s then Some (splitlines_from false s) else None.

(** [for url in urls: f.write(url + '\n')] on a fresh file. *)
Fixpoint write_lines (urls : list string) : string :=
  match urls with
  | [] => EmptyString
  | url :: rest => url +++ String lf (write_lines rest)
  end.

(** No character of [s] is a line break. *)
Definition one_line (s : string) : bool :=
  forallb (fun c => negb (is_linebreak c)) (list_ascii_of_string s).

(** A URL that can stand on a line of an ASCII file. *)
Definition ascii_line (s : string) : bool := ascii_text s && one_line s.

End Text.

(* ================================================================== *)
(** * extract_urls.py: [main] *)
(* ================================================================== *)

Module ExtractMain.

Section World.

Variable content : Type.
Variable requests_get : string -> result content.
Variable loc_texts : content -> list string.
Variable gunzip : content -> result content.

(** [url.split('/')[-1]] *)
Definition filename_of (url : string) : result string :=
  parts <- Py.split url "/" ;;
  Py.index parts (-1).

(** [open('gzip-sitemaps/' + filename, 'wb')] and the write: the path of
    the directory itself, or of its parent, cannot be opened. *)
Definition open_write (dir : Extract.directory content) (filename : string)
    (data : content) : result (Extract.directory content) :=
  if existsb (String.eqb filename) [EmptyString; "."; ".."]
  then Raise OSError
  else Ok (Extract.write_file content dir filename data).

(** Opening a file of the directory for reading. *)
Fixpoint read_file (dir : Extract.directory content) (filename : string)
    : result content :=
  match dir with
  | [] => Raise OSError
  | (n, d) :: rest =>
      if String.eqb n filename then Ok d else read_file rest filename
  end.

(** What a run leaves behind: the text of [sitemap_urls.dat], the last
    line printed, and the directory [gzip-sitemaps] if there is one. *)
Record outcome : Type := {
  sitemap_urls_dat : string;
  summary : string;
  gzip_sitemaps : option (Extract.directory content)
}.

Definition found_message (n : nat) : string :=
  "Found " +++ Visualize.format_commas (Z.of_nat n)
  +++ " URLs in the sitemap and saved them to sitemap_urls.dat".

(** The branches of [main] that collect [sitemap_urls]; [os.makedirs]
    creates the directory when it is not there. *)
Definition collect (sitemap_url : string) (sitemap_is_index sitemap_is_gzip : bool)
    (gzip_dir : option (Extract.directory content))
    : result (list string * option (Extract.directory content)) :=
  if negb sitemap_is_gzip
  then
    sitemap_urls <- (if sitemap_is_index
                     then Extract.get_all_urls content requests_get loc_texts sitemap_url
                     else Extract.get_urls content requests_get loc_texts sitemap_url) ;;
    Ok (sitemap_urls, gzip_dir)
  else
    let dir := match gzip_dir with Some d => d | None => [] end in
    if sitemap_is_index
    then
      r <- Extract.get_all_gzip_urls content requests_get loc_texts gunzip
             sitemap_url dir ;;
      Ok (fst r, Some (snd r))
    else
      filename <- filename_of sitemap_url ;;
      page <- requests_get sitemap_url ;;
      dir <- open_write dir filename page ;;
      data <- read_file dir filename ;;
      sitemap_urls <- Extract.get_gzip_urls content loc_texts gunzip (filename, data) ;;
      Ok (sitemap_urls, Some dir).

(** [main()], from the flags and the directory found at the start. *)
Definition main (sitemap_url : string) (sitemap_is_index sitemap_is_gzip : bool)
    (gzip_dir : option (Extract.directory content)) : result outcome :=
  r <- collect sitemap_url sitemap_is_index sitemap_is_gzip gzip_dir ;;
  Ok {| sitemap_urls_dat := Text.write_lines (fst r);
        summary := found_message (List.length (fst r));
        gzip_sitemaps := snd r |}.

End World.

End ExtractMain.

(* ================================================================== *)
(** * categorize_urls.py: [main] *)
(* ================================================================== *)

Module CategorizeMain.

Import Visualize.

Definition loaded_message (n : nat) : string :=
  "Loaded " +++ format_commas (Z.of_nat n) +++ " URLs".

Definition depth_message (depth : Z) : string :=
  "Categorizing up to a depth of " +++ str depth.

Definition printed_message (n : nat) : string :=
  "Printed " +++ format_commas (Z.of_nat n) +++ " rows of data to sitemap_layers.csv".

(** [main()] once the lines of [sitemap_urls.dat] have been read. *)
Definition categorize (srt : Pandas.sorter) (sitemap_urls : list string)
    (categorization_depth : Z) : io (list Categorize.row) :=
  _ <<- print (loaded_message (List.length sitemap_urls)) Text.lf ;;
  _ <<- print (depth_message categorization_depth) Text.lf ;;
  sitemap_layers <<- lift (Categorize.peel_layers srt sitemap_urls
                             categorization_depth) ;;
  _ <<- print (printed_message (List.length sitemap_layers)) Text.lf ;;
  ret sitemap_layers.

(** [main()], from the text of [sitemap_urls.dat] (no text when the file
    is not there); the table stands for the CSV file it leaves.  The
    result is [None] for a file that holds other than ASCII text, which
    the model of the text does not cover. *)
Definition main (srt : Pandas.sorter) (sitemap_urls_dat : option string)
    (categorization_depth : Z) : option (io (list Categorize.row)) :=
  match sitemap_urls_dat with
  | None => Some (lift (Raise OSError))
  | Some text =>
      match Text.splitlines (Text.read_text false text) with
      | Some sitemap_urls =>
          Some (categorize srt sitemap_urls categorization_depth)
      | None => None
      end
  end.

End CategorizeMain.

(* ================================================================== *)
(** * Further reference definitions: the extractor *)
(* ================================================================== *)

Module ExtractSpec.

(** The name under which a child is stored: the text after its last
    slash. *)
Definition file_name (url : string) : string :=
  last (Py.split_pieces "/" 0 url) EmptyString.

(** An index with two plain children and one compressed child; a document
    is given by its [loc] texts. *)
Definition mixed_net (gz_page : Py.result (list string)) (url : string)
    : Py.result (list string) :=
  if String.eqb url "http://s/index.xml"
  then Py.Ok ["http://s/1.xml"; "http://s/old.xml.gz"; "http://s/2.xml"]
  else if String.eqb url "http://s/1.xml" then Py.Ok ["http://s/a"]
  else if String.eqb url "http://s/2.xml" then Py.Ok ["http://s/b"]
  else if String.eqb url "http://s/old.xml.gz" then gz_page
  else Py.Raise Py.RequestException.

(** An index with one compressed child. *)
Definition gz_net (url : string) : Py.result (list string) :=
  if String.eqb url "http://s/index.xml" then Py.Ok ["http://s/new.xml.gz"]
  else if String.eqb url "http://s/new.xml.gz" then Py.Ok ["http://s/page"]
  else Py.Raise Py.RequestException.

(** A download directory left by an earlier run. *)
Definition stale_dir : Extract.directory (list string) :=
  [("old.xml.gz", ["http://s/gone"])].

End ExtractSpec.

(* ================================================================== *)
(** * visualize_urls.py: [apply_style] and [main] *)
(* ================================================================== *)

Module Style.

Import Graphviz.

(** An attribute dictionary, in the order of its keys. *)
Definition attrs : Type := list (string * string).

(** The graph with the three attribute dictionaries that [apply_style]
    sets; [make_sitemap_graph] leaves them empty. *)
Record StyledGraph : Type := {
  digraph : Digraph;
  graph_attr : attrs;
  node_attr : attrs;
  edge_attr : attrs
}.

Record palette : Type := {
  graph : attrs;
  nodes : attrs;
  edges : attrs
}.

Definition dark_style (title : string) : palette :=
  {| graph := [("label", title); ("bgcolor", "#3a3a3a");
               ("fontname", "Helvetica"); ("fontsize", "18");
               ("fontcolor", "white")];
     nodes := [("style", "filled"); ("color", "white"); ("fillcolor", "black");
               ("fontname", "Helvetica"); ("fontsize", "14");
               ("fontcolor", "white")];
     edges := [("color", "white"); ("arrowhead", "open");
               ("fontname", "Helvetica"); ("fontsize", "12");
               ("fontcolor", "white")] |}.

Definition light_style (title : string) : palette :=
  {| graph := [("label", title); ("fontname", "Helvetica"); ("fontsize", "18");
               ("fontcolor", "black")];
     nodes := [("style", "filled"); ("color", "black"); ("fillcolor", "#dbdddd");
               ("fontname", "Helvetica"); ("fontsize", "14");
               ("fontcolor", "black")];
     edges := [("color", "black"); ("arrowhead", "open");
               ("fontname", "Helvetica"); ("fontsize", "12");
               ("fontcolor", "black")] |}.

(** What [f.render] can raise: the [dot] program is not found, [dot]
    rejects the source or fails, or a file cannot be written. *)
Inductive render_error : Type :=
| ExecutableNotFound
| CalledProcessError
| RenderOSError.

(** What a call can end in: a value, an exception of the scripts so far,
    the [UnboundLocalError] of a local variable read before it was
    assigned, or an exception of the rendering. *)
Inductive outcome (A : Type) : Type :=
| Returned (a : A)
| Raised (e : Py.exn)
| UnboundLocalError
| RenderFailed (e : render_error).

Arguments Returned {A} a.
Arguments Raised {A} e.
Arguments UnboundLocalError {A}.
Arguments RenderFailed {A} e.

(** [d[key]] *)
Fixpoint lookup (key : string) (d : attrs) : option string :=
  match d with
  | [] => None
  | (k, v) :: rest => if String.eqb k key then Some v else lookup key rest
  end.

(** [apply_style(f, style, title)]: the local variable [apply_style] is
    assigned under [if style == 'light'] and [elif style == 'dark'] only,
    and is read right after. *)
Definition apply_style (f : Digraph) (style title : string)
    : outcome StyledGraph :=
  let apply_style :=
    if String.eqb style "light" then Some (light_style title)
    else if String.eqb style "dark" then Some (dark_style title)
    else None in
  match apply_style with
  | Some chosen =>
      Returned {| digraph := f;
                  graph_attr := graph chosen;
                  node_attr := nodes chosen;
                  edge_attr := edges chosen |}
  | None => UnboundLocalError
  end.

End Style.

Module VisualizeMain.

Import Graphviz Visualize Style.

Definition loaded_message (df : DataFrame) : string :=
  "Loaded " +++ format_commas (len df)
  +++ " rows of categorized data from sitemap_layers.csv".

Definition building_message (graph_depth : Z) : string :=
  "Building " +++ str graph_depth +++ " layer deep sitemap graph".

(** The file the last message names. *)
Definition exported_name (graph_depth : Z) : string :=
  "sitemap_graph_" +++ str graph_depth +++ "_layer.pdf".

Definition exported_message (graph_depth : Z) : string :=
  "Exported graph to " +++ exported_name graph_depth.

(** [f.render(cleanup=True)] writes the PDF next to the source file, under
    the file name of the graph with [.pdf] added. *)
Definition rendered_name (f : Digraph) : string := filename f +++ ".pdf".

Definition line (s : string) : string := s +++ String newline EmptyString.

Section World.

(** [f.render(cleanup=True)]: the source of the styled graph is written
    and handed to the [dot] program of the machine, which may be missing
    or may reject the source; [None] when the PDF has been written. *)
Variable render : StyledGraph -> option render_error.

(** [main()], from the table that [read_csv] returned with its counts
    turned into integers: what is printed, and the name of the file
    rendered with the styled graph, or the exception. *)
Definition main (srt : Pandas.sorter) (sitemap_layers : DataFrame)
    (graph_depth limit : Z) (title style size : string)
    : list string * outcome (string * StyledGraph) :=
  let printed := [line (loaded_message sitemap_layers);
                  line (building_message graph_depth)] in
  match make_sitemap_graph srt sitemap_layers graph_depth limit size with
  | (out, Raise e) => (printed ++ out, Raised e)
  | (out, Ok f) =>
      match apply_style f style title with
      | Returned g =>
          match render g with
          | None =>
              (printed ++ out ++ [line (exported_message graph_depth)],
               Returned (rendered_name (digraph g), g))
          | Some e => (printed ++ out, RenderFailed e)
          end
      | Raised e => (printed ++ out, Raised e)
      | UnboundLocalError => (printed ++ out, UnboundLocalError)
      | RenderFailed e => (printed ++ out, RenderFailed e)
      end
  end.

End World.

End VisualizeMain.

(* ================================================================== *)
(** * Further reference definitions: the renderer *)
(* ================================================================== *)

Module RenderSpec.

Import Graphviz Visualize.

(** The sum of the counts of the rows whose host is [h]. *)
Definition host_total (h : string) (df : DataFrame) : Z :=
  Spec.sum_values
    (filter (fun r => cell_equal (nth 0 (fst r) None) (Some h)) (rows df)).

(** The lines every graph starts with. *)
Definition header (size : string) : list string :=
  ["rankdir=LR";
   "size=" +++ quote_mark +++ size +++ quote_mark;
   String tab "node [shape=rectangle]"].

(** The node statement of a host with its count. *)
Definition host_line (nc : string * Z) : string :=
  node_line (fst nc) (fst nc +++ " (" +++ format_commas (snd nc) +++ ")").

(** [f'] is [f] with lines added at the end. *)
Definition grows (f f' : Digraph) : Prop :=
  name f' = name f /\ filename f' = filename f
  /\ exists added : list string, body f' = body f ++ added.

(** The sum of the counts of the rows of [frame] whose cell [i] is [s]. *)
Definition segment_total (i : nat) (s : string)
    (frame : list (list cell * Z)) : Z :=
  Spec.sum_values
    (filter (fun r => cell_equal (nth i (fst r) None) (Some s)) frame).

(** Whether a row has a value in column [i]. *)
Definition has_segment (i : nat) (r : list cell * Z) : bool :=
  match nth i (fst r) None with
  | Some _ => true
  | None => false
  end.

(** The line that switches the node shape for the layers below the hosts. *)
Definition oval_line : string := String tab "node [shape=oval]".

(** A table with [n] segment columns and no row. *)
Definition empty_frame (n : nat) : DataFrame := {| columns := n; rows := [] |}.

(** The counts of a table are 64-bit integers, and pandas adds them up
    in 64 bits, where a sum past the range wraps around.  The sums of this
    development are in [Z]; they are the sums of pandas for a table whose
    counts are not negative and stay together below 2^63, which is what
    the statements about the value of a sum assume. *)
Definition counts_fit (df : DataFrame) : bool :=
  forallb (fun r => 0 <=? snd r) (rows df)
  && (Spec.sum_values (rows df) <? 2 ^ 63).

(** The graph of a run that returned one, the empty graph otherwise. *)
Definition built (r : io Digraph) : Digraph :=
  match snd r with
  | Ok f => f
  | Raise _ => {| name := ""; filename := ""; body := [] |}
  end.

(** A table of depth 2 in which one URL ends at its host: the cells past
    the end of a path are NaN when the table is read back. *)
Definition short_url_table : DataFrame :=
  {| columns := 3;
     rows := [([Some "a.com"; Some "x"; Some "y"], 2);
              ([Some "a.com"; None; None], 1)] |}.

(** A character that is neither a double quote nor a backslash, and a
    text of such characters. *)
Definition plain_char (c : ascii) : bool :=
  negb (Ascii.eqb c dquote) && negb (Ascii.eqb c backslash).

Definition plain_text (s : string) : bool :=
  forallb plain_char (list_ascii_of_string s).

(** A table whose only host is a plain identifier. *)
Definition plain_host_table : DataFrame :=
  {| columns := 2;
     rows := [([Some "localhost"; Some "x"], 2);
              ([Some "localhost"; Some "y"], 1)] |}.

(** What [main] prints before it builds the graph. *)
Definition preamble (df : DataFrame) (graph_depth : Z) : list string :=
  [VisualizeMain.line (VisualizeMain.loaded_message df);
   VisualizeMain.line (VisualizeMain.building_message graph_depth)].

End RenderSpec.

(* ================================================================== *)
(** * The host in the words of the specification *)
(* ================================================================== *)

Module HostSpec.

Import Spec.





End HostSpec.

(* ================================================================== *)
(** * Further reference definitions: the limit *)
(* ================================================================== *)

Module LimitSpec.

Import Graphviz Visualize.

(** The edge lines of [f] that leave the node [parent]. *)
Definition edges_from (parent : string) (f : Digraph) : list string :=
  filter (String.prefix (String tab (quote_edge parent +++ " -> "))) (body f).

(** Two parent tuples with one node name, [h.x-b-c], each with a child;
    the third row keeps a depth of 2 from being clamped. *)
Definition shared_parent_table : DataFrame :=
  {| columns := 3;
     rows := [([Some "h.x"; Some "b-c"; Some "u"], 1);
              ([Some "h.x-b"; Some "c"; Some "v"], 1);
              ([Some "z.z"; Some "q"; Some "r"], 1)] |}.

End LimitSpec.

(* ================================================================== *)
(** * Facts about the Python primitives *)
(* ================================================================== *)

Import Pandas Categorize Spec LimitSpec.

Example split_scheme :
  Py.split "http://a.com/x/y" "//" = Ok ["http:"; "a.com/x/y"].
Proof. reflexivity. Qed.

Example split_overlap : Py.split "a///b" "//" = Ok ["a"; "/b"].
Proof. reflexivity. Qed.

Example split_trailing : Py.split "a/b/" "/" = Ok ["a"; "b"; ""].
Proof. reflexivity. Qed.

Lemma split_pieces_nonempty (sep : string) (s : string) :
  forall skip, Py.split_pieces sep skip s <> [].
Proof.
  induction s as [|c r IH]; intros skip; cbn [Py.split_pieces].
  - discriminate.
  - destruct skip as [|k]; [|apply IH].
    destruct (String.prefix sep (String c r)); [discriminate|].
    destruct (Py.split_pieces sep 0 r); discriminate.
Qed.

(** Where the separator does not occur the string is the only piece. *)
Lemma split_pieces_absent (sep s : string) :
  Py.contains sep s = false -> Py.split_pieces sep 0 s = [s].
Proof.
  induction s as [|c r IH]; cbn [Py.split_pieces Py.contains]; intros H.
  - reflexivity.
  - apply orb_false_iff in H. destruct H as [Hp Hc].
    rewrite Hp, (IH Hc). reflexivity.
Qed.

Lemma nth_error_last {A : Type} (d : A) (l : list A) :
  l <> [] -> nth_error l (Nat.pred (List.length l)) = Some (last l d).
Proof.
  induction l as [|x l IH]; intros Hne; [congruence|].
  destruct l as [|y l]; [reflexivity|].
  change (nth_error (y :: l) (Nat.pred (List.length (y :: l)))
          = Some (last (y :: l) d)).
  apply IH. discriminate.
Qed.

(** [l[-1]] of a list that is not empty is its last element. *)
Lemma index_last {A : Type} (d : A) (l : list A) :
  l <> [] -> Py.index l (-1) = Ok (last l d).
Proof.
  intros Hne. unfold Py.index.
  assert (Hlen : (0 < List.length l)%nat)
    by (destruct l; [congruence | simpl; lia]).
  change (-1 <? 0) with true. cbv iota.
  replace ((0 <=? Z.of_nat (List.length l) + -1)
           && (Z.of_nat (List.length l) + -1 <? Z.of_nat (List.length l)))
    with true by (symmetry; apply andb_true_iff; split; lia).
  replace (Z.to_nat (Z.of_nat (List.length l) + -1))
    with (Nat.pred (List.length l)) by lia.
  rewrite (nth_error_last d l Hne). reflexivity.
Qed.

(** [l[i]] for [i >= 0] raises exactly when the position does not exist. *)
Lemma index_nonneg {A : Type} (l : list A) (i : Z) :
  0 <= i ->
  Py.index l i = match nth_error l (Z.to_nat i) with
                 | Some a => Ok a
                 | None => Raise IndexError
                 end.
Proof.
  intros Hi. unfold Py.index.
  replace (i <? 0) with false by (symmetry; apply Z.ltb_ge; lia).
  destruct (Z.ltb_spec i (Z.of_nat (List.length l))) as [Hlt|Hge].
  - replace (0 <=? i) with true by (symmetry; apply Z.leb_le; lia).
    reflexivity.
  - rewrite andb_false_r.
    assert (Hn : nth_error l (Z.to_nat i) = None)
      by (apply nth_error_None; lia).
    rewrite Hn. reflexivity.
Qed.

Lemma try_index_nth (l : list string) (i : Z) :
  0 <= i -> try_except (Py.index l i) EmptyString = nth (Z.to_nat i) l EmptyString.
Proof.
  intros Hi. rewrite (index_nonneg l i Hi).
  destruct (nth_error l (Z.to_nat i)) as [a|] eqn:E; simpl.
  - symmetry. apply nth_error_nth. exact E.
  - symmetry. apply nth_overflow. apply nth_error_None. exact E.
Qed.

Lemma range_from (lo : Z) (n : nat) :
  Py.range lo (lo + Z.of_nat n) = map (fun k => lo + Z.of_nat k) (seq 0 n).
Proof.
  unfold Py.range. replace (Z.to_nat (lo + Z.of_nat n - lo)) with n by lia.
  reflexivity.
Qed.

Lemma range_length (lo hi : Z) :
  List.length (Py.range lo hi) = Z.to_nat (hi - lo).
Proof. unfold Py.range. rewrite length_map, length_seq. reflexivity. Qed.

Lemma prefix_slash (c : ascii) (r : string) :
  String.prefix "/" (String c r) = Ascii.eqb c "/".
Proof.
  cbn [String.prefix]. destruct (ascii_dec "/" c) as [E|E].
  - subst. rewrite Ascii.eqb_refl. destruct r; reflexivity.
  - symmetry. apply Ascii.eqb_neq. congruence.
Qed.

Lemma hd_split_slash (s : string) :
  hd EmptyString (Py.split_pieces "/" 0 s) = until_slash s.
Proof.
  induction s as [|c r IH]; [reflexivity|].
  cbn [Py.split_pieces until_slash]. rewrite prefix_slash.
  destruct (Ascii.eqb c "/"); [reflexivity|].
  destruct (Py.split_pieces "/" 0 r) as [|p ps] eqn:E.
  - exfalso. exact (split_pieces_nonempty _ _ _ E).
  - simpl in *. congruence.
Qed.

(* ================================================================== *)
(** * The categorizer: hosts and path segments *)
(* ================================================================== *)

(** Host extraction never raises. *)
Lemma base_of_total (url : string) : base_of url = Ok (host_of url).
Proof.
  unfold base_of, host_of. cbn [Py.split Py.bind].
  rewrite (index_last EmptyString) by apply split_pieces_nonempty.
  cbn [Py.bind]. rewrite index_nonneg by lia.
  destruct (Py.split_pieces "/" 0 _) as [|p ps] eqn:E.
  - exfalso. exact (split_pieces_nonempty _ _ _ E).
  - reflexivity.
Qed.

Lemma bases_total (urls : list string) :
  mapM base_of urls = Ok (map host_of urls).
Proof.
  induction urls as [|u us IH]; [reflexivity|].
  cbn [mapM map]. rewrite base_of_total, IH. reflexivity.
Qed.

(** The [try] and its [except] together: the cell is empty when the base
    is empty or the position does not exist. *)
Lemma page_cell (url base : string) (layer : Z) :
  1 <= layer ->
  try_except (layer_of url base layer) EmptyString
  = segment_at url base (Z.to_nat layer).
Proof.
  intros Hl. unfold layer_of, segment_at, after_last.
  destruct base as [|c b]; [reflexivity|].
  cbn [Py.split Py.bind].
  rewrite (index_last EmptyString) by apply split_pieces_nonempty.
  cbn [Py.bind]. apply try_index_nth. lia.
Qed.

Lemma combine_map_r {U V : Type} (g : U -> V) (us : list U) :
  combine us (map g us) = map (fun u => (u, g u)) us.
Proof. induction us as [|u us IH]; simpl; congruence. Qed.

Lemma set_column_map {U : Type} (f : U -> list string) (g : U -> string)
    (us : list U) :
  set_column (map f us) (map g us) = map (fun u => f u ++ [g u]) us.
Proof.
  unfold set_column. induction us as [|u us IH]; simpl; congruence.
Qed.

Lemma page_layer_cells (urls : list string) (layer : Z) :
  1 <= layer ->
  page_layer urls (map host_of urls) layer
  = map (fun u => segment_at u (host_of u) (Z.to_nat layer)) urls.
Proof.
  intros Hl. unfold page_layer. rewrite combine_map_r, map_map.
  apply map_ext. intros u. apply page_cell. exact Hl.
Qed.

Lemma frame_after (urls : list string) (n : nat) :
  fold_left
    (fun frame layer => set_column frame (page_layer urls (map host_of urls) layer))
    (map (fun k => 1 + Z.of_nat k) (seq 0 n))
    (map (fun b => [b]) (map host_of urls))
  = map (fun u => host_of u :: map (segment_at u (host_of u)) (seq 1 n)) urls.
Proof.
  induction n as [|n IH].
  - simpl. rewrite map_map. reflexivity.
  - rewrite seq_S, map_app, fold_left_app, IH. cbn [map fold_left Nat.add].
    rewrite page_layer_cells by lia.
    rewrite (set_column_map
               (fun u => host_of u :: map (segment_at u (host_of u)) (seq 1 n))).
    apply map_ext. intros u. rewrite seq_S, map_app.
    replace (Z.to_nat (1 + Z.of_nat n)) with (1 + n)%nat by lia.
    reflexivity.
Qed.

Lemma sitemap_frame_ok (urls : list string) (layers : Z) :
  sitemap_frame urls layers = Ok (map (row_of layers) urls).
Proof.
  unfold sitemap_frame. rewrite bases_total. cbn [Py.bind].
  unfold Py.range. replace (Z.to_nat (layers + 1 - 1)) with (Z.to_nat layers) by lia.
  rewrite frame_after. reflexivity.
Qed.

(** C3, as amended.  For every list of URLs and every depth the frame is
    built without an exception, one row per URL: the host, then for each
    position 1..depth the piece at that position of the text after the
    LAST occurrence of the host, split on the slash; the cell is empty
    where that position does not exist, hence also at every deeper one,
    and in every position when the host is empty. *)
Theorem sitemap_frame_rows (urls : list string) (layers : Z) :
  sitemap_frame urls layers = Ok (map (row_of layers) urls).
Proof. apply sitemap_frame_ok. Qed.

(** C3 as stated fails: the text after the FIRST occurrence of the host
    gives [x] at position 1 of [http://a.com/x/a.com/y], the code gives
    [y]. *)
Lemma first_occurrence_counterexample :
  ~ (forall (url : string) (layers : Z),
       sitemap_frame [url] layers
       = Ok [host_of url
             :: map (claimed_segment url (host_of url)) (seq 1 (Z.to_nat layers))]).
Proof.
  intros H. specialize (H "http://a.com/x/a.com/y" 1).
  vm_compute in H. discriminate H.
Qed.

Example frame_repeated_host :
  sitemap_frame ["http://a.com/x/a.com/y"] 2 = Ok [["a.com"; "y"; ""]].
Proof. reflexivity. Qed.

Example frame_empty_host :
  sitemap_frame ["http:///x/y"] 2 = Ok [[""; ""; ""]].
Proof. reflexivity. Qed.

(** C6, as amended.  For a string without the double slash the host
    extraction returns, without an exception, the text before the first
    slash (the whole string when it has no slash), and the row of the
    string holds, as for any URL, the pieces that follow that host. *)
Theorem host_without_scheme (url : string) :
  Py.contains "//" url = false ->
  base_of url = Ok (until_slash url)
  /\ (forall layers : Z,
        sitemap_frame [url] layers
        = Ok [until_slash url
              :: map (segment_at url (until_slash url)) (seq 1 (Z.to_nat layers))]).
Proof.
  intros H.
  assert (Hh : host_of url = until_slash url).
  { unfold host_of. rewrite (split_pieces_absent _ _ H). cbn [last].
    apply hd_split_slash. }
  split.
  - rewrite base_of_total, Hh. reflexivity.
  - intros layers. rewrite sitemap_frame_ok. cbn [map]. unfold row_of.
    rewrite Hh. reflexivity.
Qed.

Lemma host_without_scheme_witness :
  Py.contains "//" "a.com/x/y" = false
  /\ base_of "a.com/x/y" = Ok "a.com"
  /\ sitemap_frame ["a.com/x/y"] 3 = Ok [["a.com"; "x"; "y"; ""]].
Proof.
  split; [reflexivity|].
  split.
  - exact (proj1 (host_without_scheme "a.com/x/y" eq_refl)).
  - exact (proj2 (host_without_scheme "a.com/x/y" eq_refl) 3).
Defined.

(** C6 as stated fails: for [a.com/x], which has no double slash, the
    host is neither the whole string nor empty, and [x] is categorized as
    its first segment. *)
Lemma host_rule_counterexample :
  ~ ((forall (url : string) (layers : Z),
        Py.contains "//" url = false ->
        sitemap_frame [url] layers
        = Ok [url :: repeat EmptyString (Z.to_nat layers)])
     \/ (forall url : string,
           Py.contains "//" url = false -> base_of url = Ok EmptyString)).
Proof.
  intros [H|H].
  - specialize (H "a.com/x" 1 eq_refl). vm_compute in H. discriminate H.
  - specialize (H "a.com/x" eq_refl). vm_compute in H. discriminate H.
Qed.

Example frame_without_scheme :
  sitemap_frame ["a.com/x"] 1 = Ok [["a.com"; "x"]].
Proof. reflexivity. Qed.

(* ================================================================== *)
(** * Sorting and grouping *)
(* ================================================================== *)

Section SortFacts.

Context {A : Type} (lt : A -> A -> bool).

Lemma insert_perm (x : A) (l : list A) :
  Permutation (x :: l) (insert lt x l).
Proof.
  induction l as [|y l IH]; simpl; [reflexivity|].
  destruct (lt y x); [|reflexivity].
  rewrite perm_swap. apply perm_skip. exact IH.
Qed.

Lemma stable_sort_perm (l : list A) : Permutation l (stable_sort A lt l).
Proof.
  induction l as [|x l IH]; simpl; [reflexivity|].
  rewrite <- insert_perm. apply perm_skip. exact IH.
Qed.

Hypothesis Hlt : key_order lt.

Lemma insert_ascending (x : A) (l : list A) :
  ascending_by lt l -> ascending_by lt (insert lt x l).
Proof.
  unfold ascending_by.
  induction l as [|y l IH]; intros Hs; simpl.
  - constructor; [constructor | constructor].
  - inversion Hs as [|? ? Hs' Hy]; subst.
    destruct (lt y x) eqn:Hyx.
    + constructor; [apply IH; exact Hs'|].
      apply (Permutation_Forall (insert_perm x l)).
      constructor; [apply (lt_asym _ Hlt); exact Hyx | exact Hy].
    + constructor; [exact Hs|].
      constructor; [exact Hyx|].
      apply Forall_forall. intros b Hb.
      apply (le_trans _ Hlt x y b Hyx).
      exact (proj1 (Forall_forall _ _) Hy b Hb).
Qed.

Lemma stable_sort_ascending (l : list A) : ascending_by lt (stable_sort A lt l).
Proof.
  induction l as [|x l IH]; simpl.
  - constructor.
  - apply insert_ascending. exact IH.
Qed.

End SortFacts.

Lemma stable_sort_sorts : sorts stable_sort.
Proof.
  split.
  - intros A lt l. apply stable_sort_perm.
  - intros A lt l H. apply stable_sort_ascending. exact H.
Qed.

Lemma reversing_sort_sorts : sorts reversing_sort.
Proof.
  split.
  - intros A lt l. unfold reversing_sort.
    rewrite <- stable_sort_perm. apply Permutation_rev.
  - intros A lt l H. apply stable_sort_ascending. exact H.
Qed.

Lemma strongly_sorted_app {A : Type} (R : A -> A -> Prop) (l1 l2 : list A) :
  StronglySorted R l1 -> StronglySorted R l2 ->
  (forall a b, In a l1 -> In b l2 -> R a b) ->
  StronglySorted R (l1 ++ l2).
Proof.
  induction l1 as [|x l1 IH]; intros H1 H2 H12; simpl; [exact H2|].
  inversion H1 as [|? ? Hs Hx]; subst.
  constructor.
  - apply IH; [exact Hs | exact H2 |].
    intros a b Ha Hb. apply H12; [right; exact Ha | exact Hb].
  - apply Forall_app. split; [exact Hx|].
    apply Forall_forall. intros b Hb. apply H12; [left; reflexivity | exact Hb].
Qed.

Lemma strongly_sorted_rev {A : Type} (R : A -> A -> Prop) (l : list A) :
  StronglySorted R l -> StronglySorted (fun a b => R b a) (rev l).
Proof.
  induction 1 as [|x l Hs IH Hx]; simpl; [constructor|].
  apply strongly_sorted_app; [exact IH | repeat constructor |].
  intros a b Ha [Hb|[]]. subst b.
  apply in_rev in Ha. exact (proj1 (Forall_forall _ _) Hx a Ha).
Qed.

Section NargsortFacts.

Variable srt : sorter.
Hypothesis Hsrt : sorts srt.
Context {A : Type} (lt : A -> A -> bool).

Lemma nargsort_perm (ascending : bool) (l : list A) :
  Permutation l (nargsort srt lt ascending l).
Proof.
  unfold nargsort. destruct ascending.
  - apply (sorts_perm _ Hsrt).
  - rewrite <- Permutation_rev, <- (sorts_perm _ Hsrt). apply Permutation_rev.
Qed.

Lemma nargsort_ascending (l : list A) :
  key_order lt -> ascending_by lt (nargsort srt lt true l).
Proof. intros H. apply (sorts_ascending _ Hsrt). exact H. Qed.

Lemma nargsort_descending (l : list A) :
  key_order lt -> descending_by lt (nargsort srt lt false l).
Proof.
  intros H. unfold nargsort, descending_by.
  apply (strongly_sorted_rev (fun a b => lt b a = false)).
  apply (sorts_ascending _ Hsrt). exact H.
Qed.

End NargsortFacts.

Lemma sum_values_perm {K : Type} (l l' : list (K * Z)) :
  Permutation l l' -> sum_values l = sum_values l'.
Proof.
  unfold sum_values.
  induction 1; simpl; lia.
Qed.

Section GroupFacts.

Context {K : Type} (cmp : K -> K -> comparison).

Lemma group_add_sum (k : K) (v : Z) (acc : list (K * Z)) :
  sum_values (group_add cmp k v acc) = sum_values acc + v.
Proof.
  unfold sum_values.
  induction acc as [|[k' n] acc IH]; simpl; [lia|].
  destruct (cmp k k'); simpl; lia.
Qed.

Lemma group_fold_sum (kvs acc : list (K * Z)) :
  sum_values (fold_left (fun a kv => group_add cmp (fst kv) (snd kv) a) kvs acc)
  = sum_values acc + sum_values kvs.
Proof.
  revert acc. induction kvs as [|[k v] kvs IH]; intros acc; simpl.
  - unfold sum_values at 3. simpl. lia.
  - rewrite IH, group_add_sum. unfold sum_values at 4. simpl.
    fold (sum_values kvs). lia.
Qed.

(** Grouping keeps the total of the values. *)
Lemma groupby_sum_total (kvs : list (K * Z)) :
  sum_values (groupby_sum cmp kvs) = sum_values kvs.
Proof. unfold groupby_sum. rewrite group_fold_sum. reflexivity. Qed.

Lemma groupby_count_total (ks : list K) :
  sum_values (groupby_count cmp ks) = Z.of_nat (List.length ks).
Proof.
  unfold groupby_count. rewrite groupby_sum_total. unfold sum_values.
  rewrite map_map. induction ks as [|k ks IH]; [reflexivity|].
  cbn [map fold_right snd] in *. rewrite IH.
  change (List.length (k :: ks)) with (S (List.length ks)). lia.
Qed.

End GroupFacts.

(* ================================================================== *)
(** * The categorizer: the aggregation table *)
(* ================================================================== *)

(** The table of a depth that is not negative. *)
Lemma peel_layers_table (srt : sorter) (urls : list string) (layers : Z) :
  0 <= layers ->
  peel_layers srt urls layers
  = Ok (sort_leading srt layers
          (nargsort srt counts_lt false
             (groupby_count tuple_compare (map (row_of layers) urls)))).
Proof.
  intros Hl. unfold peel_layers. rewrite sitemap_frame_ok. cbn [Py.bind].
  destruct (Py.range 0 (layers + 1)) as [|z zs] eqn:E; [|reflexivity].
  apply (f_equal (@List.length Z)) in E. rewrite range_length in E.
  simpl in E. lia.
Qed.

Lemma sort_leading_perm (srt : sorter) (layers : Z) (t : list row) :
  sorts srt -> Permutation t (sort_leading srt layers t).
Proof.
  intros Hsrt. unfold sort_leading.
  destruct (List.length (Py.range 0 layers)) as [|[|n]].
  - reflexivity.
  - apply nargsort_perm. exact Hsrt.
  - apply stable_sort_perm.
Qed.

Lemma table_perm (srt : sorter) (layers : Z) (rows : list (list string)) :
  sorts srt ->
  Permutation (groupby_count tuple_compare rows)
    (sort_leading srt layers
       (nargsort srt counts_lt false (groupby_count tuple_compare rows))).
Proof.
  intros Hsrt.
  rewrite <- (sort_leading_perm srt layers _ Hsrt).
  apply nargsort_perm. exact Hsrt.
Qed.

(** C1.  For every list of URLs and every depth >= 0 the categorizer
    returns a table, and the sum of its counts column is the number of
    input URLs; this holds for every single-column sorting routine that
    meets the sorting contract. *)
Theorem peel_layers_counts_sum (srt : sorter) (urls : list string) (layers : Z) :
  sorts srt ->
  0 <= layers ->
  exists t : list row,
    peel_layers srt urls layers = Ok t
    /\ total_counts t = Z.of_nat (List.length urls).
Proof.
  intros Hsrt Hl. eexists. split; [apply peel_layers_table; exact Hl|].
  unfold total_counts.
  rewrite <- (sum_values_perm _ _ (table_perm srt layers _ Hsrt)).
  rewrite groupby_count_total, length_map. reflexivity.
Qed.

Lemma peel_layers_counts_sum_witness :
  exists t : list row,
    peel_layers stable_sort
      ["http://a.com/x/y"; "http://a.com/x/z"; "http://a.com/x/y"] 2 = Ok t
    /\ total_counts t = 3.
Proof.
  apply (peel_layers_counts_sum stable_sort
           ["http://a.com/x/y"; "http://a.com/x/z"; "http://a.com/x/y"] 2).
  - exact stable_sort_sorts.
  - lia.
Defined.

Example peel_three :
  peel_layers stable_sort
    ["http://a.com/x/y"; "http://a.com/x/z"; "http://a.com/x/y"] 2
  = Ok [(["a.com"; "x"; "y"], 2); (["a.com"; "x"; "z"], 1)].
Proof. reflexivity. Qed.

Example peel_shallow :
  peel_layers stable_sort ["http://a.com"] 2 = Ok [(["a.com"; ""; ""], 1)].
Proof. reflexivity. Qed.

Example peel_depth0 :
  peel_layers stable_sort
    ["http://b.org/q"; "http://a.com/x/y"; "https://b.org"] 0
  = Ok [(["b.org"], 2); (["a.com"], 1)].
Proof. reflexivity. Qed.

Example peel_negative_depth :
  peel_layers stable_sort ["http://a.com/x"] (-1) = Raise ValueError.
Proof. reflexivity. Qed.

(* ================================================================== *)
(** * Comparison of strings and tuples *)
(* ================================================================== *)

Lemma ascii_compare_eq (a b : ascii) : Ascii.compare a b = Eq <-> a = b.
Proof.
  split; [apply Ascii.compare_eq_iff|].
  intros ->. unfold Ascii.compare. apply N.compare_refl.
Qed.

Lemma ascii_compare_trans (a b d : ascii) (c : comparison) :
  Ascii.compare a b = c -> Ascii.compare b d = c -> Ascii.compare a d = c.
Proof.
  unfold Ascii.compare. destruct c; intros H1 H2.
  - apply N.compare_eq_iff in H1. apply N.compare_eq_iff in H2.
    apply N.compare_eq_iff. congruence.
  - apply N.compare_lt_iff in H1. apply N.compare_lt_iff in H2.
    apply N.compare_lt_iff. exact (N.lt_trans _ _ _ H1 H2).
  - apply N.compare_gt_iff in H1. apply N.compare_gt_iff in H2.
    apply N.compare_gt_iff. exact (N.lt_trans _ _ _ H2 H1).
Qed.

Lemma string_compare_eq (x y : string) : String.compare x y = Eq <-> x = y.
Proof.
  split; [apply String.compare_eq_iff|].
  intros ->. induction y as [|c y IH]; simpl; [reflexivity|].
  rewrite (proj2 (ascii_compare_eq c c) eq_refl). exact IH.
Qed.

Lemma string_compare_trans (x y z : string) (c : comparison) :
  String.compare x y = c -> String.compare y z = c -> String.compare x z = c.
Proof.
  revert y z c. induction x as [|a x IH]; intros [|b y] [|d z] c; simpl;
    try congruence.
  intros H1 H2. destruct (Ascii.compare a b) eqn:Hab.
  - apply ascii_compare_eq in Hab. subst b.
    destruct (Ascii.compare a d); [eapply IH; eauto | exact H2 | exact H2].
  - subst c. destruct (Ascii.compare b d) eqn:Hbd.
    + apply ascii_compare_eq in Hbd. subst d. rewrite Hab. reflexivity.
    + rewrite (ascii_compare_trans _ _ _ _ Hab Hbd). reflexivity.
    + discriminate H2.
  - subst c. destruct (Ascii.compare b d) eqn:Hbd.
    + apply ascii_compare_eq in Hbd. subst d. rewrite Hab. reflexivity.
    + discriminate H2.
    + rewrite (ascii_compare_trans _ _ _ _ Hab Hbd). reflexivity.
Qed.

Lemma string_compare_opp (x y : string) :
  String.compare y x = CompOpp (String.compare x y).
Proof. apply String.compare_antisym. Qed.

Lemma string_order : comparison_order String.compare.
Proof.
  split.
  - apply string_compare_eq.
  - apply string_compare_opp.
  - apply string_compare_trans.
Qed.

Lemma tuple_order : comparison_order tuple_compare.
Proof.
  unfold tuple_compare. split.
  - apply list_compare_refl. apply string_compare_eq.
  - intros x y. apply list_compare_antisym;
      [apply string_compare_eq | apply string_compare_opp].
  - intros x y z c. apply list_compare_trans;
      [apply string_compare_eq | apply string_compare_trans
       | apply string_compare_opp].
Qed.

(** The strict order read off a comparison is a key order. *)
Lemma key_order_of {A K : Type} (cmp : K -> K -> comparison) (key : A -> K) :
  comparison_order cmp ->
  key_order (fun a b => match cmp (key a) (key b) with Lt => true | _ => false end).
Proof.
  intros H. split.
  - intros a b Hab. rewrite (cmp_opp _ H).
    destruct (cmp (key a) (key b)); simpl; congruence.
  - intros a b c Hba Hcb.
    destruct (cmp (key c) (key a)) eqn:Hca; try reflexivity.
    exfalso.
    destruct (cmp (key b) (key a)) eqn:E1; try discriminate.
    + apply (cmp_eq _ H) in E1.
      rewrite E1 in Hcb. rewrite Hca in Hcb. discriminate.
    + destruct (cmp (key c) (key b)) eqn:E2; try discriminate.
      * apply (cmp_eq _ H) in E2. rewrite E2 in Hca.
        rewrite Hca in E1. discriminate.
      * pose proof (cmp_trans _ H _ _ _ _ E2 E1) as T. congruence.
Qed.

Lemma counts_lt_order : key_order counts_lt.
Proof.
  unfold counts_lt. split.
  - intros a b H. apply Z.ltb_lt in H. apply Z.ltb_ge. lia.
  - intros a b c H1 H2. apply Z.ltb_ge in H1, H2. apply Z.ltb_ge. lia.
Qed.

Lemma filter_nothing {A : Type} (f : A -> bool) (l : list A) :
  (forall a, In a l -> f a = false) -> filter f l = [].
Proof.
  induction l as [|x l IH]; intros H; [reflexivity|]. simpl.
  rewrite (H x (or_introl eq_refl)). apply IH.
  intros a Ha. apply H. right. exact Ha.
Qed.

Section GroupKeys.

Context {K : Type} (cmp : K -> K -> comparison).
Hypothesis Hcmp : comparison_order cmp.

Lemma weight_cons (k : K) (kv : K * Z) (kvs : list (K * Z)) :
  weight cmp k (kv :: kvs)
  = (if same_key cmp k kv then snd kv else 0) + weight cmp k kvs.
Proof.
  unfold weight, sum_values. simpl.
  destruct (same_key cmp k kv); simpl; lia.
Qed.

Lemma group_add_weight (k k0 : K) (v : Z) (acc : list (K * Z)) :
  weight cmp k (group_add cmp k0 v acc)
  = weight cmp k acc + (if same_key cmp k (k0, v) then v else 0).
Proof.
  induction acc as [|[k' n] acc IH]; cbn [group_add].
  - rewrite weight_cons. unfold weight, sum_values. simpl. lia.
  - destruct (cmp k0 k') eqn:E.
    + apply (cmp_eq _ Hcmp) in E. subst k'.
      rewrite !weight_cons. unfold same_key. simpl.
      destruct (cmp k0 k); lia.
    + rewrite !weight_cons. cbn [snd]. lia.
    + rewrite !weight_cons, IH. lia.
Qed.

Lemma group_fold_weight (k : K) (kvs acc : list (K * Z)) :
  weight cmp k
    (fold_left (fun a kv => group_add cmp (fst kv) (snd kv) a) kvs acc)
  = weight cmp k acc + weight cmp k kvs.
Proof.
  revert acc. induction kvs as [|[k0 v] kvs IH]; intros acc; cbn [fold_left].
  - unfold weight at 3. unfold sum_values. simpl. lia.
  - rewrite IH, group_add_weight, (weight_cons k (k0, v)). cbn [fst snd]. lia.
Qed.

Lemma groupby_weight (k : K) (kvs : list (K * Z)) :
  weight cmp k (groupby_sum cmp kvs) = weight cmp k kvs.
Proof.
  unfold groupby_sum. rewrite group_fold_weight.
  unfold weight at 1. unfold sum_values. simpl. lia.
Qed.

Lemma group_add_keys (P : K -> Prop) (k : K) (v : Z) (acc : list (K * Z)) :
  P k -> Forall (fun kv => P (fst kv)) acc ->
  Forall (fun kv => P (fst kv)) (group_add cmp k v acc).
Proof.
  intros Hk. induction acc as [|[k' n] acc IH]; intros Hacc; cbn [group_add].
  - constructor; [exact Hk | constructor].
  - inversion Hacc as [|? ? Hh Ht]; subst.
    destruct (cmp k k').
    + constructor; [exact Hh | exact Ht].
    + constructor; [exact Hk | exact Hacc].
    + constructor; [exact Hh | apply IH; exact Ht].
Qed.

Lemma group_add_sorted (k : K) (v : Z) (acc : list (K * Z)) :
  keys_sorted cmp acc -> keys_sorted cmp (group_add cmp k v acc).
Proof.
  unfold keys_sorted.
  induction acc as [|[k' n] acc IH]; intros Hs; cbn [group_add].
  - repeat constructor.
  - inversion Hs as [|? ? Hs' Hh]; subst.
    destruct (cmp k k') eqn:E.
    + constructor; [exact Hs' | exact Hh].
    + constructor; [exact Hs|].
      constructor; [exact E|].
      apply Forall_forall. intros b Hb.
      apply (cmp_trans _ Hcmp k k' (fst b) Lt E).
      exact (proj1 (Forall_forall _ _) Hh b Hb).
    + constructor; [apply IH; exact Hs'|].
      apply (group_add_keys (fun x => cmp k' x = Lt)); [|exact Hh].
      rewrite (cmp_opp _ Hcmp), E. reflexivity.
Qed.

Lemma groupby_sorted (kvs : list (K * Z)) :
  keys_sorted cmp (groupby_sum cmp kvs).
Proof.
  unfold groupby_sum.
  assert (H : forall acc, keys_sorted cmp acc ->
              keys_sorted cmp
                (fold_left (fun a kv => group_add cmp (fst kv) (snd kv) a) kvs acc)).
  { induction kvs as [|kv kvs IH]; intros acc Hacc; cbn [fold_left].
    - exact Hacc.
    - apply IH. apply group_add_sorted. exact Hacc. }
  apply H. constructor.
Qed.

Lemma keys_sorted_nodup (acc : list (K * Z)) :
  keys_sorted cmp acc -> NoDup (map fst acc).
Proof.
  induction 1 as [|kv acc Hs IH Hh]; cbn [map]; constructor; [|exact IH].
  intros Hin. apply in_map_iff in Hin. destruct Hin as [b [Hb Hin]].
  pose proof (proj1 (Forall_forall _ _) Hh b Hin) as Hlt.
  cbv beta in Hlt. rewrite Hb in Hlt.
  rewrite (proj2 (cmp_eq _ Hcmp (fst kv) (fst kv)) eq_refl) in Hlt.
  discriminate Hlt.
Qed.

(** In a grouped list the value of an entry is the weight of its key. *)
Lemma weight_of_entry (k : K) (n : Z) (acc : list (K * Z)) :
  keys_sorted cmp acc -> In (k, n) acc -> weight cmp k acc = n.
Proof.
  induction 1 as [|kv acc Hs IH Hh]; intros Hin; [destruct Hin|].
  rewrite weight_cons. destruct Hin as [->|Hin].
  - unfold same_key. cbn [fst snd].
    rewrite (proj2 (cmp_eq _ Hcmp k k) eq_refl).
    assert (Hz : weight cmp k acc = 0).
    { unfold weight. rewrite filter_nothing; [reflexivity|].
      intros b Hb. unfold same_key.
      pose proof (proj1 (Forall_forall _ _) Hh b Hb) as Hlt. cbn [fst] in Hlt.
      rewrite (cmp_opp _ Hcmp), Hlt. reflexivity. }
    lia.
  - pose proof (proj1 (Forall_forall _ _) Hh (k, n) Hin) as Hlt.
    cbn [fst] in Hlt. unfold same_key. rewrite Hlt.
    rewrite (IH Hin). lia.
Qed.

Lemma group_add_in (k k0 : K) (v : Z) (acc : list (K * Z)) :
  In k (map fst (group_add cmp k0 v acc)) <-> k = k0 \/ In k (map fst acc).
Proof.
  induction acc as [|[k' n] acc IH]; cbn [group_add map fst In].
  - intuition.
  - destruct (cmp k0 k') eqn:E; cbn [map fst In].
    + apply (cmp_eq _ Hcmp) in E. subst k'. intuition.
    + intuition.
    + rewrite IH. intuition.
Qed.

Lemma groupby_in (k : K) (kvs : list (K * Z)) :
  In k (map fst (groupby_sum cmp kvs)) <-> In k (map fst kvs).
Proof.
  unfold groupby_sum.
  assert (H : forall acc,
             In k (map fst (fold_left
                              (fun a kv => group_add cmp (fst kv) (snd kv) a)
                              kvs acc))
             <-> In k (map fst acc) \/ In k (map fst kvs)).
  { induction kvs as [|kv kvs IH]; intros acc; cbn [fold_left map In].
    - intuition.
    - rewrite IH, group_add_in. intuition. }
  rewrite H. cbn [map In]. intuition.
Qed.

End GroupKeys.

(* ================================================================== *)
(** * The categorizer at depth 0 *)
(* ================================================================== *)



Lemma keys_of_counted {K : Type} (ks : list K) :
  map fst (map (fun k => (k, 1)) ks) = ks.
Proof. rewrite map_map. cbn [fst]. apply map_id. Qed.


(* ================================================================== *)
(** * The categorizer: the order of the rows *)
(* ================================================================== *)

Lemma leading_lt_order (layers : Z) : key_order (leading_lt layers).
Proof.
  exact (key_order_of tuple_compare (leading layers) tuple_order).
Qed.

(** The rows ascend on the leading columns, whatever routine sorts a
    single column. *)
Lemma sort_leading_ascending (srt : sorter) (layers : Z) (t : list row) :
  sorts srt -> 0 <= layers -> leading_ascending layers (sort_leading srt layers t).
Proof.
  intros Hsrt Hl. unfold leading_ascending, sort_leading.
  destruct (List.length (Py.range 0 layers)) as [|[|n]] eqn:E.
  - rewrite range_length in E.
    assert (H0 : layers = 0) by lia. subst layers.
    unfold ascending_by. induction t as [|r t IH]; constructor; [exact IH|].
    apply Forall_forall. intros r' _. reflexivity.
  - apply nargsort_ascending; [exact Hsrt | apply leading_lt_order].
  - apply stable_sort_ascending. apply leading_lt_order.
Qed.

Section Stability.

Context {A : Type} (lt : A -> A -> bool) (R : A -> A -> Prop).
Hypothesis Hlt : key_order lt.

Lemma insert_keeps_ties (x : A) (l : list A) :
  Forall (R x) l -> StronglySorted (ties_in_order lt R) l ->
  StronglySorted (ties_in_order lt R) (insert lt x l).
Proof.
  induction l as [|y l IH]; intros Hx Hs; cbn [insert].
  - repeat constructor.
  - inversion Hs as [|? ? Hs' Hy]; subst.
    inversion Hx as [|? ? Hxy Hxl]; subst.
    destruct (lt y x) eqn:Hyx.
    + constructor; [apply IH; assumption|].
      apply (Permutation_Forall (insert_perm lt x l)).
      constructor; [|exact Hy].
      split; [apply (lt_asym _ Hlt); exact Hyx | congruence].
    + constructor; [exact Hs|].
      constructor; [split; [exact Hyx | intros _; exact Hxy]|].
      apply Forall_forall. intros b Hb. split.
      * apply (le_trans _ Hlt x y b Hyx).
        exact (proj1 (proj1 (Forall_forall _ _) Hy b Hb)).
      * intros _. exact (proj1 (Forall_forall _ _) Hxl b Hb).
Qed.

(** The stable sort keeps tied rows in the order they came in. *)
Lemma stable_sort_keeps_ties (l : list A) :
  StronglySorted R l -> StronglySorted (ties_in_order lt R) (stable_sort A lt l).
Proof.
  induction 1 as [|x l Hs IH Hx]; cbn [stable_sort fold_right].
  - constructor.
  - apply insert_keeps_ties; [|exact IH].
    apply (Permutation_Forall (stable_sort_perm lt l)). exact Hx.
Qed.

End Stability.

Lemma counts_ranked_sorted (layers : Z) (t : list row) :
  StronglySorted (fun r r' => ranked_after layers r r' = true) t ->
  counts_ranked layers t = true.
Proof.
  induction 1 as [|r t Hs IH Hr]; [reflexivity|].
  cbn [counts_ranked]. rewrite IH, andb_true_r.
  apply forallb_forall. exact (proj1 (Forall_forall _ _) Hr).
Qed.

Lemma strongly_sorted_weaken {A : Type} (R1 R2 : A -> A -> Prop) (l : list A) :
  (forall a b, R1 a b -> R2 a b) -> StronglySorted R1 l -> StronglySorted R2 l.
Proof.
  intros H. induction 1 as [|x l Hs IH Hx]; constructor; [exact IH|].
  apply Forall_forall. intros b Hb. apply H.
  exact (proj1 (Forall_forall _ _) Hx b Hb).
Qed.

(** Rows in descending order of count are ranked, whatever the leading
    columns. *)
Lemma descending_ranked (layers : Z) (t : list row) :
  descending_by counts_lt t -> counts_ranked layers t = true.
Proof.
  intros H. apply counts_ranked_sorted.
  apply (strongly_sorted_weaken _ _ t) with (2 := H).
  intros a b Hab. unfold ranked_after, counts_lt in *.
  destruct (tuple_compare _ _); try reflexivity.
  apply Z.leb_le. apply Z.ltb_ge in Hab. lia.
Qed.

(** A stable sort on the leading columns keeps the ranking by count. *)
Lemma stable_leading_ranked (layers : Z) (t : list row) :
  descending_by counts_lt t ->
  counts_ranked layers (stable_sort row (leading_lt layers) t) = true.
Proof.
  intros H. apply counts_ranked_sorted.
  pose proof (stable_sort_keeps_ties (leading_lt layers)
                (fun a b => counts_lt a b = false)
                (leading_lt_order layers) t H) as Hs.
  apply (strongly_sorted_weaken _ _ _) with (2 := Hs).
  intros a b [Hba Hab]. unfold ranked_after.
  destruct (tuple_compare (leading layers a) (leading layers b)) eqn:E;
    try reflexivity.
  assert (Hlt : leading_lt layers a b = false)
    by (unfold leading_lt; rewrite E; reflexivity).
  specialize (Hab Hlt). unfold counts_lt in Hab.
  apply Z.leb_le. apply Z.ltb_ge in Hab. lia.
Qed.

(** The order of the table for every depth but 1: ascending on the
    leading columns, and by descending count among rows that agree on
    them.  At depth 0 no column leads and the rows simply descend by
    count; from depth 2 on the leading columns are sorted by the stable
    several-column routine. *)
Lemma peel_layers_order (srt : sorter) (urls : list string) (layers : Z) :
  sorts srt -> 0 <= layers -> layers <> 1 ->
  exists t : list row,
    peel_layers srt urls layers = Ok t
    /\ leading_ascending layers t
    /\ counts_ranked layers t = true.
Proof.
  intros Hsrt Hl H1. eexists. split; [apply peel_layers_table; exact Hl|].
  split; [apply sort_leading_ascending; assumption|].
  pose proof (nargsort_descending srt Hsrt counts_lt
                (groupby_count tuple_compare (map (row_of layers) urls))
                counts_lt_order) as Hd.
  unfold sort_leading.
  destruct (List.length (Py.range 0 layers)) as [|[|n]] eqn:E.
  - apply descending_ranked. exact Hd.
  - rewrite range_length in E. lia.
  - apply stable_leading_ranked. exact Hd.
Qed.

(** At depth 1 the rows still ascend on the host column. *)
Lemma peel_layers_leading_order (srt : sorter) (urls : list string) (layers : Z) :
  sorts srt -> 0 <= layers ->
  exists t : list row,
    peel_layers srt urls layers = Ok t /\ leading_ascending layers t.
Proof.
  intros Hsrt Hl. eexists. split; [apply peel_layers_table; exact Hl|].
  apply sort_leading_ascending; assumption.
Qed.

(** With a single-column routine that keeps ties in order the ranking by
    count holds at every depth. *)
Lemma peel_layers_order_stable (urls : list string) (layers : Z) :
  0 <= layers ->
  exists t : list row,
    peel_layers stable_sort urls layers = Ok t
    /\ leading_ascending layers t
    /\ counts_ranked layers t = true.
Proof.
  intros Hl. eexists. split; [apply peel_layers_table; exact Hl|].
  split; [apply sort_leading_ascending; [exact stable_sort_sorts | exact Hl]|].
  pose proof (nargsort_descending stable_sort stable_sort_sorts counts_lt
                (groupby_count tuple_compare (map (row_of layers) urls))
                counts_lt_order) as Hd.
  unfold sort_leading.
  destruct (List.length (Py.range 0 layers)) as [|[|n]].
  - apply descending_ranked. exact Hd.
  - apply stable_leading_ranked. exact Hd.
  - apply stable_leading_ranked. exact Hd.
Qed.

(** The sorting contract alone does not give the ranking at depth 1: a
    routine that meets it and turns ties around puts the section with one
    page before the section with two. *)
Lemma depth1_order_needs_stability :
  sorts reversing_sort
  /\ peel_layers reversing_sort
       ["http://a.com/x/1"; "http://a.com/x/2"; "http://a.com/y"] 1
     = Ok [(["a.com"; "y"], 1); (["a.com"; "x"], 2)].
Proof. split; [exact reversing_sort_sorts | reflexivity]. Qed.

(** C2 at depth 1, on a site of 18 sections with 18, 17, ..., 1 pages.
    All rows share the host, so the single-column quicksort that orders
    the host column works on 18 tied rows; its partition step exchanges
    them, and the counts of the table no longer descend. *)
Theorem peel_layers_depth1_quicksort :
  exists t : list row,
    peel_layers Numpy.aquicksort ranked_urls 1 = Ok t
    /\ map counts t = [18; 3; 4; 5; 6; 7; 8; 9; 10; 11; 12; 13; 14; 15; 16; 17; 2; 1]
    /\ Forall (fun r => leading 1 r = ["a.com"]) t
    /\ counts_ranked 1 t = false.
Proof.
  eexists. split; [vm_compute; reflexivity|].
  split; [reflexivity|]. split; [|reflexivity].
  repeat constructor.
Qed.

(* ================================================================== *)
(** * The renderer *)
(* ================================================================== *)

Import Graphviz Visualize.

Lemma append_assoc (a b c : string) : (a +++ b) +++ c = a +++ b +++ c.
Proof. induction a as [|x a IH]; simpl; congruence. Qed.

Lemma prefix_append (s t : string) : String.prefix s (s +++ t) = true.
Proof.
  induction s as [|a s IH]; cbn [String.append String.prefix].
  - destruct t; reflexivity.
  - destruct (ascii_dec a a) as [_|Hne]; [exact IH | congruence].
Qed.

(** Every node statement of [n] is a line that declares [n]. *)
Lemma node_line_declares (n l : string) : declares n (node_line n l) = true.
Proof.
  unfold declares, node_line, label_attr.
  cbn [String.prefix]. destruct (ascii_dec tab tab) as [_|Hne]; [|congruence].
  rewrite <- (append_assoc (quote n) " [label=" (quote l +++ "]")).
  apply prefix_append.
Qed.

Lemma not_declared (n : string) (lines : list string) :
  existsb (declares n) lines = false ->
  forall l, ~ In (node_line n l) lines.
Proof.
  intros H l Hin.
  assert (Ht : existsb (declares n) lines = true).
  { apply existsb_exists. exists (node_line n l).
    split; [exact Hin | apply node_line_declares]. }
  congruence.
Qed.

(** C4 fails on the code: the depth is checked against the number of
    rows.  A table with columns 0 and 1 and five rows, asked for depth 3,
    is not clamped, prints no warning and raises [KeyError] at layer 2;
    a table with columns 0 to 3 and two rows, asked for depth 3, is
    clamped to depth 1. *)
Theorem depth_check_counts_rows :
  (snd (make_sitemap_graph stable_sort shallow_table 3 50 "8,5") = Raise KeyError
   /\ existsb (Py.contains "There are only")
        (fst (make_sitemap_graph stable_sort shallow_table 3 50 "8,5")) = false)
  /\ (exists f : Digraph,
        snd (make_sitemap_graph stable_sort deep_table 3 50 "8,5") = Ok f
        /\ filename f = "sitemap_graph_1_layer"
        /\ In (clamp_message 1 +++ String newline EmptyString)
              (fst (make_sitemap_graph stable_sort deep_table 3 50 "8,5"))
        /\ body f
           = ["rankdir=LR";
              "size=" +++ quote_mark +++ "8,5" +++ quote_mark;
              String tab "node [shape=rectangle]";
              node_line "a.com" "a.com (3)";
              String tab "node [shape=oval]";
              node_line "a.com-x" "x";
              edge_line "a.com" "a.com-x" "3"]).
Proof.
  split; [split; vm_compute; reflexivity|].
  eexists. split; [vm_compute; reflexivity|].
  split; [reflexivity|]. split; [|reflexivity].
  vm_compute. left. reflexivity.
Qed.

(** C7 fails on the code: the names of the nodes are read back from the
    DOT lines by cutting them at double quotes.  The node of the segment
    [quoted_segment] (x, a double quote, y) is written with an escaped
    quote, and what is read back for it is the name that the truncated
    sibling [slashed_segment] (x, a backslash) would have had; the child
    of that sibling is then attached to a node that was never created. *)
Theorem edge_from_missing_parent :
  exists f : Digraph,
    snd (make_sitemap_graph stable_sort quote_table 2 1 "8,5") = Ok f
    /\ body f
       = ["rankdir=LR";
          "size=" +++ quote_mark +++ "8,5" +++ quote_mark;
          String tab "node [shape=rectangle]";
          node_line "a.com" "a.com (6)";
          String tab "node [shape=oval]";
          node_line (child_name "a.com" quoted_segment) quoted_segment;
          edge_line "a.com" (child_name "a.com" quoted_segment) "5";
          node_line (child_name (child_name "a.com" slashed_segment) "z") "z";
          edge_line (child_name "a.com" slashed_segment)
                    (child_name (child_name "a.com" slashed_segment) "z") "1"]
    /\ In (edge_line (child_name "a.com" slashed_segment)
                     (child_name (child_name "a.com" slashed_segment) "z") "1")
          (body f)
    /\ (forall l : string,
          ~ In (node_line (child_name "a.com" slashed_segment) l) (body f)).
Proof.
  eexists. split; [vm_compute; reflexivity|].
  split; [reflexivity|]. split.
  - vm_compute. do 8 right. left. reflexivity.
  - apply not_declared. vm_compute. reflexivity.
Qed.

Lemma combine_fst_snd {A B : Type} (l : list (A * B)) :
  combine (map fst l) (map snd l) = l.
Proof. induction l as [|[a b] l IH]; simpl; congruence. Qed.

Lemma slice_to_nonneg {A : Type} (l : list A) (n : Z) :
  0 <= n -> Py.slice_to l n = firstn (Z.to_nat n) l.
Proof.
  intros Hn. unfold Py.slice_to.
  replace (n <? 0) with false by (symmetry; apply Z.ltb_ge; lia).
  reflexivity.
Qed.

(** The loop of [add_branch] appends the two lines of each child. *)
Lemma branch_loop_body (connect_to : string) (l : list (string * Z)) :
  forall f : Digraph,
    body (fold_left
            (fun f nv =>
               let f := node f (child_name connect_to (fst nv)) (fst nv) in
               edge f connect_to (child_name connect_to (fst nv))
                    (format_commas (snd nv)))
            l f)
    = body f ++ flat_map (child_lines connect_to) l.
Proof.
  induction l as [|nv l IH]; intros f; cbn [fold_left flat_map].
  - rewrite app_nil_r. reflexivity.
  - rewrite IH. cbn [edge node extend body child_lines].
    rewrite <- !app_assoc. reflexivity.
Qed.

Lemma add_branch_body (f f' : Digraph) (names : list string) (vals : list Z)
    (limit : Z) (connect_to : string) :
  add_branch f names vals limit connect_to = Ok f' ->
  body f' = body f
  \/ body f' = body f
               ++ flat_map (child_lines connect_to)
                    (Py.slice_to (combine names vals) limit).
Proof.
  unfold add_branch. destruct (node_names f) as [seen|e]; cbn [Py.bind];
    [|discriminate].
  destruct connect_to as [|c rest]; [intros [= <-]; left; reflexivity|].
  destruct (existsb _ seen).
  - intros [= <-]. right. apply branch_loop_body.
  - intros [= <-]. left. reflexivity.
Qed.

Lemma snd_lt_order {K : Type} : key_order (fun a b : K * Z => snd a <? snd b).
Proof.
  split.
  - intros a b H. apply Z.ltb_lt in H. apply Z.ltb_ge. lia.
  - intros a b c H1 H2. apply Z.ltb_ge in H1, H2. apply Z.ltb_ge. lia.
Qed.

(** The children of a parent come in descending order of their summed
    counts. *)
Lemma branch_sizes_descending (srt : sorter) (df : DataFrame) (i : nat)
    (frame : list (list cell * Z)) (data : list (string * Z)) :
  sorts srt -> branch_sizes srt df i frame = Ok data ->
  descending_by count_lt data.
Proof.
  intros Hsrt. unfold branch_sizes. destruct (i <? columns df)%nat; [|discriminate].
  intros [= <-]. apply nargsort_descending; [exact Hsrt | exact snd_lt_order].
Qed.

Lemma strongly_sorted_across {A : Type} (R : A -> A -> Prop) (l1 l2 : list A) :
  StronglySorted R (l1 ++ l2) ->
  forall a b, In a l1 -> In b l2 -> R a b.
Proof.
  induction l1 as [|x l1 IH]; intros Hs a b Ha Hb; [destruct Ha|].
  inversion Hs as [|? ? Hs' Hx]; subst. destruct Ha as [->|Ha].
  - apply (proj1 (Forall_forall _ _) Hx). apply in_or_app. right. exact Hb.
  - exact (IH Hs' a b Ha Hb).
Qed.

(** What [add_branch] writes, for a limit >= 0: nothing when the parent
    name is empty or not among the names read back, and else the two
    lines of each of the first [limit] children. *)
Lemma add_branch_written (f f' : Digraph) (names : list string) (vals : list Z)
    (limit : Z) (connect_to : string) :
  0 <= limit ->
  add_branch f names vals limit connect_to = Ok f' ->
  exists seen : list string,
    node_names f = Ok seen
    /\ body f'
       = body f
         ++ (if negb (String.eqb connect_to EmptyString)
                && existsb (String.eqb connect_to) seen
             then flat_map (child_lines connect_to)
                    (firstn (Z.to_nat limit) (combine names vals))
             else []).
Proof.
  intros Hl. unfold add_branch.
  destruct (node_names f) as [seen|e]; cbn [Py.bind]; [|discriminate].
  intros H. exists seen. split; [reflexivity|].
  destruct connect_to as [|c rest].
  - injection H as <-. cbn [String.eqb negb andb]. rewrite app_nil_r. reflexivity.
  - change (String.eqb (String c rest) EmptyString) with false.
    cbn [negb andb].
    destruct (existsb (String.eqb (String c rest)) seen); injection H as <-.
    + rewrite branch_loop_body, slice_to_nonneg by exact Hl. reflexivity.
    + rewrite app_nil_r. reflexivity.
Qed.

(** C8, as amended.  For a limit >= 0 and the children of one parent
    tuple, [add_branch] writes the lines of exactly the first [limit]
    children in descending order of summed count (of all of them when
    there are fewer, and of none when the name of the parent is not among
    the names read back from the graph): no child left out has a larger
    count than a child kept.  With limit 1 and a parent with three
    children of counts 5, 3 and 1 the graph holds the node and the edge of
    the child of count 5 and of no other child. *)
Theorem add_branch_limit :
  (forall (srt : sorter) (df : DataFrame) (i : nat)
          (frame : list (list cell * Z)) (data : list (string * Z))
          (f f' : Digraph) (limit : Z) (connect_to : string),
      sorts srt ->
      0 <= limit ->
      branch_sizes srt df i frame = Ok data ->
      add_branch f (map fst data) (map snd data) limit connect_to = Ok f' ->
      exists seen : list string,
        node_names f = Ok seen
        /\ body f'
           = body f
             ++ (if negb (String.eqb connect_to EmptyString)
                    && existsb (String.eqb connect_to) seen
                 then flat_map (child_lines connect_to)
                        (firstn (Z.to_nat limit) data)
                 else [])
        /\ List.length (firstn (Z.to_nat limit) data)
           = Nat.min (Z.to_nat limit) (List.length data)
        /\ (forall a b,
              In a (firstn (Z.to_nat limit) data) ->
              In b (skipn (Z.to_nat limit) data) -> snd b <= snd a))
  /\ (exists f : Digraph,
        snd (make_sitemap_graph stable_sort three_children 1 1 "8,5") = Ok f
        /\ body f
           = ["rankdir=LR";
              "size=" +++ quote_mark +++ "8,5" +++ quote_mark;
              String tab "node [shape=rectangle]";
              node_line "a.com" "a.com (9)";
              String tab "node [shape=oval]";
              node_line "a.com-x" "x";
              edge_line "a.com" "a.com-x" "5"]).
Proof.
  split.
  - intros srt df i frame data f f' limit connect_to Hsrt Hl Hdata Hadd.
    destruct (add_branch_written _ _ _ _ _ _ Hl Hadd) as [seen [Hseen Hbody]].
    rewrite combine_fst_snd in Hbody.
    exists seen. split; [exact Hseen|]. split; [exact Hbody|].
    split; [apply length_firstn|].
    intros a b Ha Hb.
    pose proof (branch_sizes_descending _ _ _ _ _ Hsrt Hdata) as Hd.
    unfold descending_by in Hd.
    rewrite <- (firstn_skipn (Z.to_nat limit) data) in Hd.
    pose proof (strongly_sorted_across _ _ _ Hd a b Ha Hb) as Hab.
    unfold count_lt in Hab. apply Z.ltb_ge in Hab. lia.
  - eexists. split; [vm_compute; reflexivity | reflexivity].
Qed.

Lemma add_branch_limit_witness :
  exists seen : list string,
    node_names host_graph = Ok seen
    /\ body (extend host_graph (child_lines "a.com" ("x", 5)))
       = body host_graph
         ++ (if negb (String.eqb "a.com" EmptyString)
                && existsb (String.eqb "a.com") seen
             then flat_map (child_lines "a.com")
                    (firstn (Z.to_nat 1) [("x", 5); ("y", 3); ("z", 1)])
             else [])
    /\ List.length (firstn (Z.to_nat 1) [("x", 5); ("y", 3); ("z", 1)])
       = Nat.min (Z.to_nat 1) (List.length [("x", 5); ("y", 3); ("z", 1)])
    /\ (forall a b,
          In a (firstn (Z.to_nat 1) [("x", 5); ("y", 3); ("z", 1)]) ->
          In b (skipn (Z.to_nat 1) [("x", 5); ("y", 3); ("z", 1)]) ->
          snd b <= snd a).
Proof.
  apply (proj1 add_branch_limit stable_sort three_children 1%nat
           (rows three_children) [("x", 5); ("y", 3); ("z", 1)]
           host_graph (extend host_graph (child_lines "a.com" ("x", 5)))
           1 "a.com").
  - exact stable_sort_sorts.
  - lia.
  - reflexivity.
  - reflexivity.
Defined.

(** C8 as stated fails in two ways.  For a negative limit: with limit -1
    and three children the slice drops only the last child, and two
    children (four lines) are written.  For a parent node, also with a
    limit >= 0: the limit is applied to each parent tuple, and two tuples
    with one node name each give the node its children; with limit 1 the
    node [h.x-b-c] of the table below gets two. *)
Lemma child_limit_counterexample :
  ~ ((forall (f f' : Digraph) (names : list string) (vals : list Z)
             (limit : Z) (connect_to : string),
        add_branch f names vals limit connect_to = Ok f' ->
        Z.of_nat (List.length (body f')) - Z.of_nat (List.length (body f))
        <= 2 * limit)
     \/ (forall (srt : sorter) (df : DataFrame) (layers limit : Z)
                (size : string) (out : list string) (f : Digraph)
                (parent : string),
           sorts srt -> 0 <= limit ->
           make_sitemap_graph srt df layers limit size = (out, Ok f) ->
           Z.of_nat (List.length (edges_from parent f)) <= limit)).
Proof.
  intros [H|H].
  - specialize (H host_graph
                  (extend host_graph
                     (child_lines "a.com" ("x", 5) ++ child_lines "a.com" ("y", 3)))
                  ["x"; "y"; "z"] [5; 3; 1] (-1) "a.com" eq_refl).
    vm_compute in H. apply H. reflexivity.
  - specialize (H stable_sort shared_parent_table 2 1 "8,5").
    destruct (make_sitemap_graph stable_sort shared_parent_table 2 1 "8,5")
      as [out [f|e]] eqn:E; vm_compute in E; [|discriminate E].
    specialize (H out f "h.x-b-c" stable_sort_sorts Z.le_0_1 eq_refl).
    injection E as <- <-. vm_compute in H. apply H. reflexivity.
Qed.

Lemma concat_snoc (sep y : string) (l : list string) :
  forall x : string,
    String.concat sep (x :: l) +++ sep +++ y = String.concat sep ((x :: l) ++ [y]).
Proof.
  induction l as [|z l IH]; intros x; [reflexivity|].
  change (String.concat sep (x :: z :: l))
    with (x +++ sep +++ String.concat sep (z :: l)).
  change (String.concat sep ((x :: z :: l) ++ [y]))
    with (x +++ sep +++ String.concat sep ((z :: l) ++ [y])).
  rewrite <- IH, !append_assoc. reflexivity.
Qed.

Lemma join_child (c : cell) (k : list cell) (name : string) :
  child_name (connect_name (c :: k)) name = connect_name ((c :: k) ++ [Some name]).
Proof.
  unfold child_name, connect_name, Py.join.
  rewrite map_app. cbn [map str_cell]. apply concat_snoc.
Qed.

(** C10.  The name of a node is the join, with dashes, of the segments on
    its path: the name of a child is the name of its parent, a dash and
    the segment.  The names do not tell tuples apart: the tuples
    (h.x, b-c) and (h.x-b, c) differ and have one name, and the graph of
    a table that holds both declares that one node for each of them. *)
Theorem node_names_collide :
  (forall (c : cell) (k : list cell) (name : string),
      child_name (connect_name (c :: k)) name
      = connect_name ((c :: k) ++ [Some name]))
  /\ (exists k1 k2 : list cell,
        k1 <> k2
        /\ In k1 (map fst (rows dash_table))
        /\ In k2 (map fst (rows dash_table))
        /\ connect_name k1 = connect_name k2
        /\ exists f : Digraph,
             snd (make_sitemap_graph stable_sort dash_table 1 50 "8,5") = Ok f
             /\ In (node_line (connect_name k1) "b-c") (body f)
             /\ In (node_line (connect_name k2) "c") (body f)).
Proof.
  split; [exact join_child|].
  exists [Some "h.x"; Some "b-c"], [Some "h.x-b"; Some "c"].
  split; [discriminate|].
  split; [left; reflexivity|].
  split; [right; left; reflexivity|].
  split; [reflexivity|].
  eexists. split; [vm_compute; reflexivity|].
  split; vm_compute.
  - do 6 right. left. reflexivity.
  - do 8 right. left. reflexivity.
Qed.

(* ================================================================== *)
(** * The extractor *)
(* ================================================================== *)

Section ExtractFacts.

Import Extract.

Context {content : Type}.
Variable requests_get : string -> result content.
Variable loc_texts : content -> list string.
Variable gunzip : content -> result content.

Lemma gather_ok {A : Type} (get : A -> result (list string)) (l : list A)
  (pages : list (list string)) :
Forall2 (fun x links => get x = Ok links) l pages ->
forall acc, gather get l acc = Ok (acc ++ List.concat pages).
Proof.
induction 1 as [|x links l pages Hx Hl IH]; intros acc; cbn [gather List.concat].
- rewrite app_nil_r. reflexivity.
- rewrite Hx. cbn [Py.bind]. rewrite IH, app_assoc. reflexivity.
Qed.

Lemma gather_raise {A : Type} (get : A -> result (list string)) (l : list A)
  (x : A) (e : exn) :
In x l -> get x = Raise e ->
forall acc, exists e', gather get l acc = Raise e'.
Proof.
induction l as [|y l IH]; intros Hin Hx acc; [destruct Hin|].
cbn [gather]. destruct Hin as [->|Hin].
- rewrite Hx. exists e. reflexivity.
- destruct (get y) as [links|e0]; cbn [Py.bind].
  + apply IH; assumption.
  + exists e0. reflexivity.
Qed.

Lemma download_raise (urls : list string) (u : string) (e : exn) :
In u urls -> requests_get u = Raise e ->
forall dir, exists e', download content requests_get urls dir = Raise e'.
Proof.
induction urls as [|y urls IH]; intros Hin Hu dir; [destruct Hin|].
cbn [download Py.split Py.bind].
rewrite (index_last EmptyString) by apply split_pieces_nonempty.
cbn [Py.bind]. destruct Hin as [->|Hin].
- rewrite Hu. exists e. reflexivity.
- destruct (requests_get y) as [page|e0]; cbn [Py.bind].
  + apply IH; assumption.
  + exists e0. reflexivity.
Qed.

End ExtractFacts.

(** C5, as amended.  In index mode a failure on one child aborts the run.
    If the request for any child raises, [get_all_urls] raises and returns
    no URL; if every child is fetched, it returns their URLs in the order
    of the index.  In gzip mode [get_all_gzip_urls] raises if the download
    of any child raises, and if the decompression of any file found in the
    download directory raises. *)
Theorem child_failure_aborts :
  (forall (content : Type) (requests_get : string -> result content)
          (loc_texts : content -> list string)
          (sitemap_url : string) (children : list string),
      Extract.get_urls content requests_get loc_texts sitemap_url = Ok children ->
      (forall (child : string) (e : exn),
          In child children -> Extract.is_gz child = false ->
          Extract.get_urls content requests_get loc_texts child = Raise e ->
          exists e',
            Extract.get_all_urls content requests_get loc_texts sitemap_url
            = Raise e')
      /\ (forall pages : list (list string),
            Forall2
              (fun child links =>
                 Extract.get_urls content requests_get loc_texts child = Ok links)
              (filter (fun u => negb (Extract.is_gz u)) children) pages ->
            Extract.get_all_urls content requests_get loc_texts sitemap_url
            = Ok (List.concat pages)))
  /\ (forall (content : Type) (requests_get : string -> result content)
             (loc_texts : content -> list string)
             (gunzip : content -> result content)
             (sitemap_url : string) (children : list string)
             (dir : Extract.directory content),
        Extract.get_urls content requests_get loc_texts sitemap_url = Ok children ->
        (forall (child : string) (e : exn),
            In child children -> Extract.is_gz child = true ->
            requests_get child = Raise e ->
            exists e',
              Extract.get_all_gzip_urls content requests_get loc_texts gunzip
                sitemap_url dir = Raise e')
        /\ (forall (dir' : Extract.directory content)
                   (f_ : string * content) (e : exn),
              Extract.download content requests_get (filter Extract.is_gz children) dir
              = Ok dir' ->
              In f_ (Extract.glob_gz content dir') ->
              gunzip (snd f_) = Raise e ->
              exists e',
                Extract.get_all_gzip_urls content requests_get loc_texts gunzip
                  sitemap_url dir = Raise e')).
Proof.
  split.
  - intros content requests_get loc_texts sitemap_url children Hidx. split.
    + intros child e Hin Hgz Hchild. unfold Extract.get_all_urls.
      rewrite Hidx. cbn [Py.bind].
      apply (gather_raise _ _ child e); [|exact Hchild].
      apply filter_In. split; [exact Hin | rewrite Hgz; reflexivity].
    + intros pages Hall. unfold Extract.get_all_urls.
      rewrite Hidx. cbn [Py.bind].
      rewrite (gather_ok _ _ pages Hall). reflexivity.
  - intros content requests_get loc_texts gunzip sitemap_url children dir Hidx.
    split.
    + intros child e Hin Hgz Hchild. unfold Extract.get_all_gzip_urls.
      rewrite Hidx. cbn [Py.bind].
      destruct (download_raise requests_get (filter Extract.is_gz children)
                  child e) with (dir := dir) as [e' He'];
        [apply filter_In; split; assumption | exact Hchild |].
      rewrite He'. exists e'. reflexivity.
    + intros dir' f_ e Hdl Hin Hgun. unfold Extract.get_all_gzip_urls.
      rewrite Hidx. cbn [Py.bind]. rewrite Hdl. cbn [Py.bind].
      destruct (gather_raise (Extract.get_gzip_urls content loc_texts gunzip)
                  (Extract.glob_gz content dir') f_ e Hin) with (acc := @nil string)
        as [e' He'].
      * unfold Extract.get_gzip_urls. rewrite Hgun. reflexivity.
      * rewrite He'. exists e'. reflexivity.
Qed.

Lemma child_failure_aborts_witness :
  exists e' : exn,
    Extract.get_all_urls (list string) broken_net (fun page => page)
      "http://s/index.xml" = Raise e'.
Proof.
  apply (proj1 (proj1 child_failure_aborts (list string) broken_net
                  (fun page => page) "http://s/index.xml"
                  ["http://s/1.xml"; "http://s/2.xml"] eq_refl)
           "http://s/1.xml" RequestException).
  - left. reflexivity.
  - reflexivity.
  - reflexivity.
Defined.

(** C5 as stated fails: with an index of two children of which the first
    cannot be fetched, the run returns no URL list, although the second
    child can be fetched and holds a URL. *)
Lemma bad_child_counterexample :
  ~ (forall (content : Type) (requests_get : string -> result content)
            (loc_texts : content -> list string)
            (sitemap_url : string) (children : list string),
       Extract.get_urls content requests_get loc_texts sitemap_url = Ok children ->
       exists urls : list string,
         Extract.get_all_urls content requests_get loc_texts sitemap_url = Ok urls
         /\ (forall (child : string) (links : list string),
               In child children ->
               Extract.get_urls content requests_get loc_texts child = Ok links ->
               incl links urls)).
Proof.
  intros H.
  destruct (H (list string) broken_net (fun page => page)
              "http://s/index.xml" _ eq_refl) as [urls [Hu _]].
  vm_compute in Hu. discriminate Hu.
Qed.

Example broken_net_second_child :
  Extract.get_urls (list string) broken_net (fun page => page) "http://s/2.xml"
  = Ok ["http://s/page"].
Proof. reflexivity. Qed.

Example broken_net_all :
  Extract.get_all_urls (list string) broken_net (fun page => page)
    "http://s/index.xml" = Raise RequestException.
Proof. reflexivity. Qed.

Example broken_gz_net_all :
  Extract.get_all_gzip_urls (list string) broken_gz_net (fun page => page)
    (fun data => Ok data) "http://s/index.xml" [] = Raise RequestException.
Proof. reflexivity. Qed.

(* ================================================================== *)
(** * More on the aggregation table *)
(* ================================================================== *)

Import TableSpec.

Lemma same_tuple_eq (k1 k2 : list string) : same_tuple k1 k2 = true <-> k1 = k2.
Proof.
  unfold same_tuple. rewrite <- (cmp_eq _ tuple_order k1 k2).
  destruct (tuple_compare k1 k2); split; congruence.
Qed.

(** The table is the grouped frame, rearranged. *)
Lemma peel_layers_grouped (srt : sorter) (urls : list string) (layers : Z) :
  sorts srt -> 0 <= layers ->
  exists t : list row,
    peel_layers srt urls layers = Ok t
    /\ Permutation (groupby_count tuple_compare (map (row_of layers) urls)) t.
Proof.
  intros Hsrt Hl. eexists. split; [apply peel_layers_table; exact Hl|].
  apply table_perm. exact Hsrt.
Qed.

Lemma grouped_keys (layers : Z) (urls : list string) (k : list string) :
  In k (map fst (groupby_count tuple_compare (map (row_of layers) urls)))
  <-> In k (map (row_of layers) urls).
Proof.
  unfold groupby_count. rewrite (groupby_in tuple_compare tuple_order).
  rewrite keys_of_counted. reflexivity.
Qed.

Lemma tuple_weight (layers : Z) (k : list string) (urls : list string) :
  weight tuple_compare k (map (fun k => (k, 1)) (map (row_of layers) urls))
  = urls_with_tuple layers k urls.
Proof.
  unfold urls_with_tuple.
  induction urls as [|u us IH]; [reflexivity|].
  cbn [map filter]. rewrite weight_cons, IH.
  change (same_key tuple_compare k (row_of layers u, 1))
    with (same_tuple (row_of layers u) k).
  destruct (same_tuple (row_of layers u) k); cbn [snd List.length]; lia.
Qed.

Lemma grouped_count (layers : Z) (urls : list string) (k : list string) (n : Z) :
  In (k, n) (groupby_count tuple_compare (map (row_of layers) urls)) ->
  n = urls_with_tuple layers k urls.
Proof.
  intros Hin.
  rewrite <- (weight_of_entry tuple_compare tuple_order k n _
                (groupby_sorted tuple_compare tuple_order _) Hin).
  unfold groupby_count. rewrite (groupby_weight tuple_compare tuple_order).
  apply tuple_weight.
Qed.

Lemma urls_with_tuple_positive (layers : Z) (u : string) (urls : list string) :
  In u urls -> 1 <= urls_with_tuple layers (row_of layers u) urls.
Proof.
  intros Hin. unfold urls_with_tuple.
  assert (Hf : In u (filter (fun v => same_tuple (row_of layers v) (row_of layers u)) urls)).
  { apply filter_In. split; [exact Hin | apply same_tuple_eq; reflexivity]. }
  destruct (filter _ urls) as [|x xs]; [destruct Hf | cbn [List.length]; lia].
Qed.

Lemma row_of_length (layers : Z) (u : string) :
  List.length (row_of layers u) = S (Z.to_nat layers).
Proof. unfold row_of. cbn [List.length]. rewrite length_map, length_seq. reflexivity. Qed.

(** X1.  Every row of the table has exactly depth + 1 segment cells: the
    host and one cell per layer, also for URLs with fewer path pieces. *)
Theorem peel_layers_arity (srt : sorter) (urls : list string) (layers : Z) :
  sorts srt -> 0 <= layers ->
  exists t : list row,
    peel_layers srt urls layers = Ok t
    /\ forall r, In r t -> Z.of_nat (List.length (segments r)) = layers + 1.
Proof.
  intros Hsrt Hl.
  destruct (peel_layers_grouped srt urls layers Hsrt Hl) as [t [Ht Hp]].
  exists t. split; [exact Ht|]. intros r Hr.
  apply (Permutation_in _ (Permutation_sym Hp)) in Hr.
  apply (in_map fst) in Hr. apply grouped_keys in Hr.
  apply in_map_iff in Hr. destruct Hr as [u [Hu _]].
  unfold segments. rewrite <- Hu, row_of_length. lia.
Qed.

Lemma peel_layers_arity_witness :
  exists t : list row,
    peel_layers stable_sort ["http://a.com/x/y/z"; "http://a.com"] 2 = Ok t
    /\ forall r, In r t -> Z.of_nat (List.length (segments r)) = 2 + 1.
Proof.
  apply (peel_layers_arity stable_sort ["http://a.com/x/y/z"; "http://a.com"] 2).
  - exact stable_sort_sorts.
  - lia.
Defined.

(** X2.  No two rows of the table hold the same tuple of segments. *)
Theorem peel_layers_unique_rows (srt : sorter) (urls : list string) (layers : Z) :
  sorts srt -> 0 <= layers ->
  exists t : list row,
    peel_layers srt urls layers = Ok t /\ NoDup (map segments t).
Proof.
  intros Hsrt Hl.
  destruct (peel_layers_grouped srt urls layers Hsrt Hl) as [t [Ht Hp]].
  exists t. split; [exact Ht|].
  apply (Permutation_NoDup (Permutation_map fst Hp)).
  apply (keys_sorted_nodup tuple_compare tuple_order).
  apply groupby_sorted. exact tuple_order.
Qed.

Lemma peel_layers_unique_rows_witness :
  exists t : list row,
    peel_layers stable_sort
      ["http://a.com/x/y"; "http://a.com/x/z"; "http://a.com/x/y"] 2 = Ok t
    /\ NoDup (map segments t).
Proof.
  apply (peel_layers_unique_rows stable_sort
           ["http://a.com/x/y"; "http://a.com/x/z"; "http://a.com/x/y"] 2).
  - exact stable_sort_sorts.
  - lia.
Defined.

(** X3.  At every depth the rows are the tuples of the URLs: each URL's
    tuple (host and cells of the layers) is a row, each row is the tuple
    of some URL, and its count is the number of URLs with that tuple,
    which is at least 1. *)
Theorem peel_layers_counts_tuples (srt : sorter) (urls : list string) (layers : Z) :
  sorts srt -> 0 <= layers ->
  exists t : list row,
    peel_layers srt urls layers = Ok t
    /\ (forall u, In u urls -> In (row_of layers u) (map segments t))
    /\ (forall r, In r t ->
          (exists u, In u urls /\ segments r = row_of layers u)
          /\ counts r = urls_with_tuple layers (segments r) urls
          /\ 1 <= counts r).
Proof.
  intros Hsrt Hl.
  destruct (peel_layers_grouped srt urls layers Hsrt Hl) as [t [Ht Hp]].
  exists t. split; [exact Ht|]. split.
  - intros u Hu. apply (Permutation_in _ (Permutation_map fst Hp)).
    apply grouped_keys. apply in_map. exact Hu.
  - intros [k n] Hr. apply (Permutation_in _ (Permutation_sym Hp)) in Hr.
    pose proof (grouped_count _ _ _ _ Hr) as Hn.
    apply (in_map fst) in Hr. apply grouped_keys in Hr.
    apply in_map_iff in Hr. destruct Hr as [u [Hu Hin]].
    cbn [segments counts fst snd] in *. subst k n.
    split; [exists u; split; [exact Hin | reflexivity]|].
    split; [reflexivity | apply urls_with_tuple_positive; exact Hin].
Qed.

Lemma peel_layers_counts_tuples_witness :
  exists t : list row,
    peel_layers stable_sort
      ["http://a.com/x/y"; "http://a.com/x/z"; "http://a.com/x/y"] 2 = Ok t
    /\ (forall u,
          In u ["http://a.com/x/y"; "http://a.com/x/z"; "http://a.com/x/y"] ->
          In (row_of 2 u) (map segments t))
    /\ (forall r, In r t ->
          (exists u,
              In u ["http://a.com/x/y"; "http://a.com/x/z"; "http://a.com/x/y"]
              /\ segments r = row_of 2 u)
          /\ counts r
             = urls_with_tuple 2 (segments r)
                 ["http://a.com/x/y"; "http://a.com/x/z"; "http://a.com/x/y"]
          /\ 1 <= counts r).
Proof.
  apply (peel_layers_counts_tuples stable_sort
           ["http://a.com/x/y"; "http://a.com/x/z"; "http://a.com/x/y"] 2).
  - exact stable_sort_sorts.
  - lia.
Defined.

Lemma length_le_sum {K : Type} (l : list (K * Z)) :
  (forall kv, In kv l -> 1 <= snd kv) -> Z.of_nat (List.length l) <= sum_values l.
Proof.
  unfold sum_values. induction l as [|kv l IH]; intros H; [simpl; lia|].
  cbn [List.length map fold_right].
  pose proof (H kv (or_introl eq_refl)).
  assert (Z.of_nat (List.length l) <= fold_right Z.add 0 (map snd l))
    by (apply IH; intros x Hx; apply H; right; exact Hx).
  lia.
Qed.

(** X4.  The table never has more rows than there are URLs, and it has a
    row as soon as there is a URL. *)
Theorem peel_layers_row_count (srt : sorter) (urls : list string) (layers : Z) :
  sorts srt -> 0 <= layers ->
  exists t : list row,
    peel_layers srt urls layers = Ok t
    /\ (List.length t <= List.length urls)%nat
    /\ (urls <> [] -> t <> []).
Proof.
  intros Hsrt Hl.
  destruct (peel_layers_grouped srt urls layers Hsrt Hl) as [t [Ht Hp]].
  exists t. split; [exact Ht|].
  assert (Hpos : forall kv, In kv t -> 1 <= snd kv).
  { intros [k n] Hr. apply (Permutation_in _ (Permutation_sym Hp)) in Hr.
    pose proof (grouped_count _ _ _ _ Hr) as Hn.
    apply (in_map fst) in Hr. apply grouped_keys in Hr.
    apply in_map_iff in Hr. destruct Hr as [u [Hu Hin]].
    cbn [fst snd] in *. subst k n. apply urls_with_tuple_positive. exact Hin. }
  split.
  - pose proof (length_le_sum t Hpos) as Hle.
    rewrite <- (sum_values_perm _ _ Hp), groupby_count_total, length_map in Hle.
    apply Nat2Z.inj_le. exact Hle.
  - intros Hne Hnil. subst t. destruct urls as [|u us]; [congruence|].
    assert (Hin : In (row_of layers u)
                     (map fst (groupby_count tuple_compare
                                 (map (row_of layers) (u :: us)))))
      by (apply grouped_keys; left; reflexivity).
    apply Permutation_sym, Permutation_nil in Hp.
    rewrite Hp in Hin. destruct Hin.
Qed.

Lemma peel_layers_row_count_witness :
  exists t : list row,
    peel_layers stable_sort
      ["http://a.com/x/y"; "http://a.com/x/z"; "http://a.com/x/y"] 2 = Ok t
    /\ (List.length t <= 3)%nat
    /\ (["http://a.com/x/y"; "http://a.com/x/z"; "http://a.com/x/y"] <> [] -> t <> []).
Proof.
  apply (peel_layers_row_count stable_sort
           ["http://a.com/x/y"; "http://a.com/x/z"; "http://a.com/x/y"] 2).
  - exact stable_sort_sorts.
  - lia.
Defined.
Lemma prefix_double_slash (c : ascii) (r : string) :
  String.prefix "//" (String c r)
  = Ascii.eqb c "/"
    && match r with
       | String d _ => Ascii.eqb d "/"
       | EmptyString => false
       end.
Proof.
  cbn [String.prefix]. destruct (ascii_dec "/" c) as [E|E].
  - subst c. rewrite Ascii.eqb_refl. cbn [andb]. destruct r as [|d r']; [reflexivity|].
    apply prefix_slash.
  - replace (Ascii.eqb c "/") with false; [reflexivity|].
    symmetry. apply Ascii.eqb_neq. congruence.
Qed.

Lemma ends_with_slash_tail (c : ascii) (p : string) :
  ends_with_slash (String c p) = false -> ends_with_slash p = false.
Proof. destruct p as [|d p']; [reflexivity | intros H; exact H]. Qed.

(** Splitting on the double slash: when the text before a double slash
    does not end in a slash and the text after it holds no double slash,
    the text after it is the last piece. *)
Lemma split_after_last (rest : string) :
  Py.contains "//" rest = false ->
  forall (pre : string) (skip : nat),
    ends_with_slash pre = false ->
    skip = 0%nat \/ (skip = 1%nat /\ exists p, pre = String "/" p) ->
    exists init : list string,
      init <> []
      /\ Py.split_pieces "//" skip (pre +++ "//" +++ rest) = init ++ [rest].
Proof.
  intros Hrest. induction pre as [|c p IH]; intros skip Hend Hskip.
  - destruct Hskip as [->|[_ [p Hp]]]; [|discriminate Hp].
    exists [EmptyString]. split; [discriminate|].
    change (EmptyString +++ "//" +++ rest) with (String "/" (String "/" rest)).
    cbn [Py.split_pieces]. rewrite prefix_double_slash, Ascii.eqb_refl.
    cbn [andb String.length Nat.sub Py.split_pieces].
    rewrite (split_pieces_absent _ _ Hrest). reflexivity.
  - pose proof (ends_with_slash_tail _ _ Hend) as Hp.
    change (String c p +++ "//" +++ rest) with (String c (p +++ "//" +++ rest)).
    destruct Hskip as [->|[-> [p' Hc]]].
    + cbn [Py.split_pieces]. rewrite prefix_double_slash.
      destruct (Ascii.eqb c "/") eqn:Ec; cbn [andb].
      * apply Ascii.eqb_eq in Ec. subst c.
        destruct p as [|d p'].
        { cbn in Hend. discriminate Hend. }
        change (String d p' +++ "//" +++ rest)
          with (String d (p' +++ "//" +++ rest)).
        destruct (Ascii.eqb d "/") eqn:Ed.
        -- apply Ascii.eqb_eq in Ed. subst d.
           destruct (IH 1%nat Hp) as [init [Hne Hs]];
             [right; split; [reflexivity | exists p'; reflexivity]|].
           exists (EmptyString :: init). split; [discriminate|].
           cbn [String.length Nat.sub].
           change (String "/" (p' +++ "//" +++ rest))
             with (String "/" p' +++ "//" +++ rest).
           rewrite Hs. reflexivity.
        -- destruct (IH 0%nat Hp (or_introl eq_refl)) as [init [Hne Hs]].
           change (String d (p' +++ "//" +++ rest))
             with (String d p' +++ "//" +++ rest).
           rewrite Hs. destruct init as [|h t]; [congruence|].
           exists (String "/" h :: t). split; [discriminate | reflexivity].
      * destruct (IH 0%nat Hp (or_introl eq_refl)) as [init [Hne Hs]].
        rewrite Hs. destruct init as [|h t]; [congruence|].
        exists (String c h :: t). split; [discriminate | reflexivity].
    + injection Hc as -> ->. cbn [Py.split_pieces].
      destruct p' as [|d p''].
      { cbn in Hend. discriminate Hend. }
      apply (IH 0%nat Hp). left. reflexivity.
Qed.

(** X5.  The host is the text between the last double slash of the URL
    and the next slash: when the text before a double slash does not end
    in a slash and the text after it holds no further double slash, the
    host is what follows up to the first slash.  A double slash inside the
    path therefore moves the host. *)
Theorem host_after_last_double_slash (pre rest : string) :
  ends_with_slash pre = false ->
  Py.contains "//" rest = false ->
  base_of (pre +++ "//" +++ rest) = Ok (until_slash rest).
Proof.
  intros Hpre Hrest. rewrite base_of_total. unfold host_of.
  destruct (split_after_last rest Hrest pre 0%nat Hpre (or_introl eq_refl))
    as [init [_ Hs]].
  rewrite Hs, last_last. rewrite hd_split_slash. reflexivity.
Qed.

Lemma host_after_last_double_slash_witness :
  base_of "http://a.com/x//y/z" = Ok "y".
Proof.
  exact (host_after_last_double_slash "http://a.com/x" "y/z" eq_refl eq_refl).
Defined.

Example host_plain_url : base_of "https://www.site.org/a/b" = Ok "www.site.org".
Proof.
  exact (host_after_last_double_slash "https:" "www.site.org/a/b" eq_refl eq_refl).
Qed.

(* ================================================================== *)
(** * The file of URLs between the extractor and the categorizer *)
(* ================================================================== *)

Import Text.

Lemma one_line_cons (c : ascii) (u : string) :
  one_line (String c u) = true -> is_linebreak c = false /\ one_line u = true.
Proof.
  unfold one_line. cbn [list_ascii_of_string forallb]. intros H.
  apply andb_true_iff in H. destruct H as [Hc Hu].
  split; [apply negb_true_iff; exact Hc | exact Hu].
Qed.

Lemma not_linebreak_not_cr (c : ascii) :
  is_linebreak c = false -> Ascii.eqb c cr = false.
Proof.
  intros H. destruct (Ascii.eqb_spec c cr) as [->|Hne]; [|reflexivity].
  vm_compute in H. discriminate H.
Qed.

Lemma read_text_line (u t : string) :
  one_line u = true ->
  read_text false (u +++ String lf t) = u +++ String lf (read_text false t).
Proof.
  induction u as [|c u IH]; intros H.
  - reflexivity.
  - apply one_line_cons in H. destruct H as [Hc Hu].
    cbn [String.append read_text andb].
    rewrite (not_linebreak_not_cr c Hc), (IH Hu). reflexivity.
Qed.

Lemma splitlines_line (u t : string) :
  one_line u = true ->
  splitlines_from false (u +++ String lf t) = u :: splitlines_from false t.
Proof.
  induction u as [|c u IH]; intros H.
  - reflexivity.
  - apply one_line_cons in H. destruct H as [Hc Hu].
    cbn [String.append splitlines_from andb].
    rewrite Hc, (IH Hu). reflexivity.
Qed.

Lemma read_written (urls : list string) :
  forallb one_line urls = true ->
  read_text false (write_lines urls) = write_lines urls.
Proof.
  induction urls as [|u us IH]; intros H; [reflexivity|].
  cbn [forallb] in H. apply andb_true_iff in H. destruct H as [Hu Hus].
  cbn [write_lines]. rewrite (read_text_line u _ Hu), (IH Hus). reflexivity.
Qed.

Lemma split_written (urls : list string) :
  forallb one_line urls = true -> splitlines_from false (write_lines urls) = urls.
Proof.
  induction urls as [|u us IH]; intros H; [reflexivity|].
  cbn [forallb] in H. apply andb_true_iff in H. destruct H as [Hu Hus].
  cbn [write_lines]. rewrite (splitlines_line u _ Hu), (IH Hus). reflexivity.
Qed.

Lemma ascii_text_append (a b : string) :
  ascii_text (a +++ b) = ascii_text a && ascii_text b.
Proof.
  unfold ascii_text.
  induction a as [|c a IH]; [reflexivity|].
  cbn [String.append list_ascii_of_string forallb]. rewrite IH.
  apply andb_assoc.
Qed.

Lemma written_is_ascii (urls : list string) :
  forallb ascii_text urls = true -> ascii_text (write_lines urls) = true.
Proof.
  induction urls as [|u us IH]; intros H; [reflexivity|].
  cbn [forallb] in H. apply andb_true_iff in H. destruct H as [Hu Hus].
  cbn [write_lines]. rewrite ascii_text_append, Hu.
  change (String lf (write_lines us)) with (String lf EmptyString +++ write_lines us).
  rewrite ascii_text_append, (IH Hus). reflexivity.
Qed.

Lemma ascii_lines (urls : list string) :
  forallb ascii_line urls = true ->
  forallb ascii_text urls = true /\ forallb one_line urls = true.
Proof.
  induction urls as [|u us IH]; intros H; [split; reflexivity|].
  cbn [forallb] in H. apply andb_true_iff in H. destruct H as [Hu Hus].
  unfold ascii_line in Hu. apply andb_true_iff in Hu. destruct Hu as [Ha Ho].
  destruct (IH Hus) as [Has Hos]. cbn [forallb]. rewrite Ha, Ho, Has, Hos.
  split; reflexivity.
Qed.

(** What was written is read back line by line. *)
Lemma lines_read_back (urls : list string) :
  forallb ascii_line urls = true ->
  splitlines (read_text false (write_lines urls)) = Some urls.
Proof.
  intros H. destruct (ascii_lines urls H) as [Ha Ho].
  rewrite (read_written urls Ho). unfold splitlines.
  rewrite (written_is_ascii urls Ha), (split_written urls Ho). reflexivity.
Qed.

(** X6.  The file of URLs is a faithful hand-over for ASCII URLs that
    hold no line break: what the extractor's [main] has collected it
    writes to [sitemap_urls.dat], one URL per line, and the categorizer's
    [main] reads that text back as the same list, in the same order, and
    runs on it: its table is that of [peel_layers] on the collected
    URLs. *)
Theorem url_file_round_trip :
  forall (content : Type) (requests_get : string -> result content)
         (loc_texts : content -> list string)
         (gunzip : content -> result content)
         (sitemap_url : string) (sitemap_is_index sitemap_is_gzip : bool)
         (gzip_dir : option (Extract.directory content))
         (out : ExtractMain.outcome content) (srt : sorter) (depth : Z),
    ExtractMain.main content requests_get loc_texts gunzip sitemap_url
      sitemap_is_index sitemap_is_gzip gzip_dir = Ok out ->
    exists (sitemap_urls : list string)
           (dir : option (Extract.directory content)),
      ExtractMain.collect content requests_get loc_texts gunzip sitemap_url
        sitemap_is_index sitemap_is_gzip gzip_dir = Ok (sitemap_urls, dir)
      /\ ExtractMain.sitemap_urls_dat content out = write_lines sitemap_urls
      /\ (forallb ascii_line sitemap_urls = true ->
          splitlines (read_text false (ExtractMain.sitemap_urls_dat content out))
          = Some sitemap_urls
          /\ CategorizeMain.main srt
               (Some (ExtractMain.sitemap_urls_dat content out)) depth
             = Some (CategorizeMain.categorize srt sitemap_urls depth)
          /\ snd (CategorizeMain.categorize srt sitemap_urls depth)
             = peel_layers srt sitemap_urls depth).
Proof.
  intros content requests_get loc_texts gunzip sitemap_url is_index is_gzip
         gzip_dir out srt depth Hmain.
  unfold ExtractMain.main in Hmain.
  destruct (ExtractMain.collect content requests_get loc_texts gunzip
              sitemap_url is_index is_gzip gzip_dir) as [[urls dir]|e];
    cbn [Py.bind fst snd] in Hmain; [|discriminate Hmain].
  injection Hmain as <-. exists urls, dir.
  split; [reflexivity|]. split; [reflexivity|].
  intros Hlines. cbn [ExtractMain.sitemap_urls_dat].
  split; [exact (lines_read_back urls Hlines)|]. split.
  - unfold CategorizeMain.main. rewrite (lines_read_back urls Hlines).
    reflexivity.
  - unfold CategorizeMain.categorize.
    destruct (peel_layers srt urls depth); reflexivity.
Qed.

Lemma url_file_round_trip_witness :
  exists (sitemap_urls : list string)
         (dir : option (Extract.directory (list string))),
    ExtractMain.collect (list string) broken_net (fun page => page)
      (fun data => Ok data) "http://s/2.xml" false false None
    = Ok (sitemap_urls, dir)
    /\ write_lines ["http://s/page"] = write_lines sitemap_urls
    /\ (forallb ascii_line sitemap_urls = true ->
        splitlines (read_text false (write_lines ["http://s/page"]))
        = Some sitemap_urls
        /\ CategorizeMain.main stable_sort
             (Some (write_lines ["http://s/page"])) 1
           = Some (CategorizeMain.categorize stable_sort sitemap_urls 1)
        /\ snd (CategorizeMain.categorize stable_sort sitemap_urls 1)
           = peel_layers stable_sort sitemap_urls 1).
Proof.
  exact (url_file_round_trip (list string) broken_net (fun page => page)
           (fun data => Ok data) "http://s/2.xml" false false None
           {| ExtractMain.sitemap_urls_dat := write_lines ["http://s/page"];
              ExtractMain.summary := ExtractMain.found_message 1;
              ExtractMain.gzip_sitemaps := None |}
           stable_sort 1 eq_refl).
Defined.

(** A URL that holds a line feed comes back as two lines. *)
Example url_with_line_feed :
  splitlines (read_text false (write_lines [String "a" (String lf "b")]))
  = Some ["a"; "b"].
Proof. reflexivity. Qed.

(* ================================================================== *)
(** * More on the extractor *)
(* ================================================================== *)

Import ExtractSpec.

Lemma gather_ext {A : Type} (get1 get2 : A -> result (list string)) (l : list A) :
  (forall x, In x l -> get1 x = get2 x) ->
  forall acc, Extract.gather get1 l acc = Extract.gather get2 l acc.
Proof.
  induction l as [|x l IH]; intros H acc; [reflexivity|].
  cbn [Extract.gather]. rewrite (H x (or_introl eq_refl)).
  destruct (get2 x) as [links|e]; cbn [Py.bind]; [|reflexivity].
  apply IH. intros y Hy. apply H. right. exact Hy.
Qed.

Lemma download_ext {content : Type} (g1 g2 : string -> result content)
    (urls : list string) :
  (forall u, In u urls -> g1 u = g2 u) ->
  forall dir, Extract.download content g1 urls dir
              = Extract.download content g2 urls dir.
Proof.
  induction urls as [|u urls IH]; intros H dir; [reflexivity|].
  cbn [Extract.download]. rewrite (H u (or_introl eq_refl)).
  destruct (Py.split u "/") as [parts|e]; cbn [Py.bind]; [|reflexivity].
  destruct (Py.index parts (-1)) as [filename|e]; cbn [Py.bind]; [|reflexivity].
  destruct (g2 u) as [page|e]; cbn [Py.bind]; [|reflexivity].
  apply IH. intros y Hy. apply H. right. exact Hy.
Qed.

(** X7.  Each index mode leaves the children of the other kind alone:
    what [get_all_urls] returns does not depend on what a request for a
    child ending in [.gz] would give, and what [get_all_gzip_urls] returns
    does not depend on the children that do not end in [.gz]. *)
Theorem other_children_ignored :
  forall (content : Type) (g1 g2 : string -> result content)
         (loc_texts : content -> list string)
         (gunzip : content -> result content) (sitemap_url : string),
    g1 sitemap_url = g2 sitemap_url ->
    ((forall u, Extract.is_gz u = false -> g1 u = g2 u) ->
     Extract.get_all_urls content g1 loc_texts sitemap_url
     = Extract.get_all_urls content g2 loc_texts sitemap_url)
    /\ ((forall u, Extract.is_gz u = true -> g1 u = g2 u) ->
        forall dir : Extract.directory content,
          Extract.get_all_gzip_urls content g1 loc_texts gunzip sitemap_url dir
          = Extract.get_all_gzip_urls content g2 loc_texts gunzip sitemap_url dir).
Proof.
  intros content g1 g2 loc_texts gunzip sitemap_url Hroot. split.
  - intros H. unfold Extract.get_all_urls, Extract.get_urls. rewrite Hroot.
    destruct (g2 sitemap_url) as [page|e]; cbn [Py.bind]; [|reflexivity].
    apply gather_ext. intros u Hu. apply filter_In in Hu. destruct Hu as [_ Hu].
    apply negb_true_iff in Hu. rewrite (H u Hu). reflexivity.
  - intros H dir. unfold Extract.get_all_gzip_urls, Extract.get_urls.
    rewrite Hroot.
    destruct (g2 sitemap_url) as [page|e]; cbn [Py.bind]; [|reflexivity].
    rewrite (download_ext g1 g2); [reflexivity|].
    intros u Hu. apply filter_In in Hu. destruct Hu as [_ Hu]. exact (H u Hu).
Qed.

Lemma mixed_net_plain (p q : result (list string)) (u : string) :
  Extract.is_gz u = false -> mixed_net p u = mixed_net q u.
Proof.
  intros H. unfold mixed_net.
  destruct (String.eqb u "http://s/index.xml"); [reflexivity|].
  destruct (String.eqb u "http://s/1.xml"); [reflexivity|].
  destruct (String.eqb u "http://s/2.xml"); [reflexivity|].
  destruct (String.eqb_spec u "http://s/old.xml.gz") as [->|_]; [|reflexivity].
  vm_compute in H. discriminate H.
Qed.

Lemma other_children_ignored_witness :
  Extract.get_all_urls (list string) (mixed_net (Raise RequestException))
    (fun page => page) "http://s/index.xml"
  = Extract.get_all_urls (list string) (mixed_net (Ok ["http://s/c"]))
      (fun page => page) "http://s/index.xml".
Proof.
  exact (proj1 (other_children_ignored (list string)
                  (mixed_net (Raise RequestException))
                  (mixed_net (Ok ["http://s/c"]))
                  (fun page => page) (fun data => Ok data)
                  "http://s/index.xml" eq_refl)
           (mixed_net_plain _ _)).
Defined.

Example mixed_net_urls :
  Extract.get_all_urls (list string) (mixed_net (Raise RequestException))
    (fun page => page) "http://s/index.xml" = Ok ["http://s/a"; "http://s/b"].
Proof. reflexivity. Qed.

Section StaleFiles.

Context {content : Type}.
Variable requests_get : string -> result content.
Variable loc_texts : content -> list string.
Variable gunzip : content -> result content.

Lemma write_file_keeps (dir : Extract.directory content) (n filename : string)
    (d data : content) :
  n <> filename -> In (n, d) dir ->
  In (n, d) (Extract.write_file content dir filename data).
Proof.
  intros Hne. induction dir as [|[m c] dir IH]; intros Hin; [destruct Hin|].
  cbn [Extract.write_file]. destruct (String.eqb_spec m filename) as [->|Hm].
  - destruct Hin as [[= -> ->]|Hin]; [congruence | right; exact Hin].
  - destruct Hin as [Hin|Hin]; [left; exact Hin | right; apply IH; exact Hin].
Qed.

Lemma download_keeps (urls : list string) (n : string) (d : content) :
  (forall u, In u urls -> file_name u <> n) ->
  forall dir dir' : Extract.directory content,
    In (n, d) dir ->
    Extract.download content requests_get urls dir = Ok dir' ->
    In (n, d) dir'.
Proof.
  induction urls as [|u urls IH]; intros Hnames dir dir' Hin Hd.
  - cbn in Hd. injection Hd as <-. exact Hin.
  - cbn [Extract.download Py.split Py.bind] in Hd.
    rewrite (index_last EmptyString) in Hd by apply split_pieces_nonempty.
    cbn [Py.bind] in Hd.
    destruct (requests_get u) as [page|e]; cbn [Py.bind] in Hd; [|discriminate Hd].
    apply (IH (fun v Hv => Hnames v (or_intror Hv)) _ _ (write_file_keeps _ _ _ _ _
             (fun E => Hnames u (or_introl eq_refl) (eq_sym E)) Hin) Hd).
Qed.

Lemma gather_incl {A : Type} (get : A -> result (list string)) (l : list A) :
  forall acc r,
    Extract.gather get l acc = Ok r ->
    incl acc r
    /\ forall x, In x l -> exists links, get x = Ok links /\ incl links r.
Proof.
  induction l as [|y l IH]; intros acc r Hg.
  - cbn in Hg. injection Hg as <-. split; [apply incl_refl | intros x []].
  - cbn [Extract.gather] in Hg.
    destruct (get y) as [links|e] eqn:Ey; cbn [Py.bind] in Hg; [|discriminate Hg].
    destruct (IH _ _ Hg) as [Hacc Hrest]. split.
    + intros a Ha. apply Hacc. apply in_or_app. left. exact Ha.
    + intros x [->|Hx].
      * exists links. split; [exact Ey|].
        intros a Ha. apply Hacc. apply in_or_app. right. exact Ha.
      * exact (Hrest x Hx).
Qed.

End StaleFiles.

(** X8.  In gzip index mode the URLs are read from every [.gz] file found
    in the download directory, not from the files of this run alone: a
    file that an earlier run left there, and that no child of the index
    overwrites, is decompressed as well and its URLs are part of the
    result. *)
Theorem stale_files_are_read :
  forall (content : Type) (requests_get : string -> result content)
         (loc_texts : content -> list string)
         (gunzip : content -> result content)
         (sitemap_url : string) (children urls : list string)
         (dir dir' : Extract.directory content) (n : string) (d : content),
    Extract.get_urls content requests_get loc_texts sitemap_url = Ok children ->
    Extract.get_all_gzip_urls content requests_get loc_texts gunzip sitemap_url dir
    = Ok (urls, dir') ->
    In (n, d) dir ->
    Extract.is_gz n = true ->
    String.prefix "." n = false ->
    (forall child, In child children -> file_name child <> n) ->
    exists page : content,
      gunzip d = Ok page /\ incl (loc_texts page) urls.
Proof.
  intros content requests_get loc_texts gunzip sitemap_url children urls
         dir dir' n d Hidx Hall Hin Hgz Hdot Hnames.
  unfold Extract.get_all_gzip_urls in Hall. rewrite Hidx in Hall.
  cbn [Py.bind] in Hall.
  destruct (Extract.download content requests_get
              (filter Extract.is_gz children) dir) as [dir1|e] eqn:Hd;
    cbn [Py.bind] in Hall; [|discriminate Hall].
  destruct (Extract.gather (Extract.get_gzip_urls content loc_texts gunzip)
              (Extract.glob_gz content dir1) []) as [r|e] eqn:Hg;
    cbn [Py.bind] in Hall; [|discriminate Hall].
  injection Hall as <- <-.
  assert (Hkept : In (n, d) dir1).
  { apply (download_keeps requests_get (filter Extract.is_gz children) n d)
      with (dir := dir); [|exact Hin | exact Hd].
    intros u Hu. apply filter_In in Hu. apply Hnames. exact (proj1 Hu). }
  assert (Hglob : In (n, d) (Extract.glob_gz content dir1)).
  { apply filter_In. split; [exact Hkept|]. cbn [fst]. rewrite Hgz, Hdot.
    reflexivity. }
  destruct (proj2 (gather_incl _ _ _ _ Hg) (n, d) Hglob) as [links [Hl Hincl]].
  unfold Extract.get_gzip_urls in Hl. cbn [snd] in Hl.
  destruct (gunzip d) as [page|e]; cbn [Py.bind] in Hl; [|discriminate Hl].
  injection Hl as <-. exists page. split; [reflexivity | exact Hincl].
Qed.

Lemma stale_files_are_read_witness :
  exists page : list string,
    Ok ["http://s/gone"] = Ok page
    /\ incl page ["http://s/gone"; "http://s/page"].
Proof.
  apply (stale_files_are_read (list string) gz_net (fun page => page)
           (fun data => Ok data) "http://s/index.xml" ["http://s/new.xml.gz"]
           ["http://s/gone"; "http://s/page"] stale_dir
           (stale_dir ++ [("new.xml.gz", ["http://s/page"])])
           "old.xml.gz" ["http://s/gone"]).
  - reflexivity.
  - reflexivity.
  - left. reflexivity.
  - reflexivity.
  - reflexivity.
  - intros child [<-|[]]. vm_compute. discriminate.
Defined.

(* ================================================================== *)
(** * The extractor's [main] *)
(* ================================================================== *)

Section MainFacts.

Context {content : Type}.
Variable requests_get : string -> result content.
Variable loc_texts : content -> list string.
Variable gunzip : content -> result content.

Lemma filename_of_total (url : string) :
  ExtractMain.filename_of url = Ok (file_name url).
Proof.
  unfold ExtractMain.filename_of, file_name. cbn [Py.split Py.bind].
  apply index_last. apply split_pieces_nonempty.
Qed.

(** A file just written is the file read. *)
Lemma read_after_write (dir : Extract.directory content) (filename : string)
    (data : content) :
  ExtractMain.read_file content
    (Extract.write_file content dir filename data) filename = Ok data.
Proof.
  induction dir as [|[n d] dir IH]; cbn [Extract.write_file ExtractMain.read_file].
  - rewrite String.eqb_refl. reflexivity.
  - destruct (String.eqb n filename) eqn:E; cbn [ExtractMain.read_file]; rewrite E.
    + reflexivity.
    + exact IH.
Qed.

End MainFacts.

(** X9.  With a single compressed sitemap (gzip, no index) [main]
    decompresses exactly the document it has just downloaded: whatever
    the directory [gzip-sitemaps] held before, or whether it existed, the
    file of URLs holds the [loc] texts of that document, one per line. *)
Theorem single_gzip_reads_its_download :
  forall (content : Type) (requests_get : string -> result content)
         (loc_texts : content -> list string)
         (gunzip : content -> result content)
         (sitemap_url : string)
         (gzip_dir : option (Extract.directory content))
         (page data : content),
    existsb (String.eqb (file_name sitemap_url)) [EmptyString; "."; ".."] = false ->
    requests_get sitemap_url = Ok page ->
    gunzip page = Ok data ->
    exists out : ExtractMain.outcome content,
      ExtractMain.main content requests_get loc_texts gunzip sitemap_url
        false true gzip_dir = Ok out
      /\ ExtractMain.sitemap_urls_dat content out = write_lines (loc_texts data)
      /\ ExtractMain.summary content out
         = ExtractMain.found_message (List.length (loc_texts data)).
Proof.
  intros content requests_get loc_texts gunzip sitemap_url gzip_dir page data
         Hname Hget Hgun.
  eexists. split.
  - unfold ExtractMain.main, ExtractMain.collect. cbn [negb].
    rewrite filename_of_total. cbn [Py.bind]. rewrite Hget. cbn [Py.bind].
    unfold ExtractMain.open_write. rewrite Hname. cbn [Py.bind].
    rewrite read_after_write. cbn [Py.bind].
    unfold Extract.get_gzip_urls. cbn [snd]. rewrite Hgun. cbn [Py.bind fst snd].
    reflexivity.
  - split; reflexivity.
Qed.

Lemma single_gzip_reads_its_download_witness :
  exists out : ExtractMain.outcome (list string),
    ExtractMain.main (list string) gz_net (fun page => page) (fun data => Ok data)
      "http://s/new.xml.gz" false true (Some stale_dir) = Ok out
    /\ ExtractMain.sitemap_urls_dat (list string) out
       = write_lines ["http://s/page"]
    /\ ExtractMain.summary (list string) out = ExtractMain.found_message 1.
Proof.
  exact (single_gzip_reads_its_download (list string) gz_net (fun page => page)
           (fun data => Ok data) "http://s/new.xml.gz" (Some stale_dir)
           ["http://s/page"] ["http://s/page"] eq_refl eq_refl eq_refl).
Defined.

(** X10.  A sitemap URL that cannot be fetched ends every mode of [main]:
    with or without index, compressed or not, the exception of the request
    for [sitemap_url] is the outcome of [main], and no file of URLs is
    produced. *)
Theorem root_failure_is_fatal :
  forall (content : Type) (requests_get : string -> result content)
         (loc_texts : content -> list string)
         (gunzip : content -> result content)
         (sitemap_url : string) (sitemap_is_index sitemap_is_gzip : bool)
         (gzip_dir : option (Extract.directory content)) (e : exn),
    requests_get sitemap_url = Raise e ->
    ExtractMain.main content requests_get loc_texts gunzip sitemap_url
      sitemap_is_index sitemap_is_gzip gzip_dir = Raise e.
Proof.
  intros content requests_get loc_texts gunzip sitemap_url is_index is_gzip
         gzip_dir e Hget.
  unfold ExtractMain.main, ExtractMain.collect, Extract.get_all_urls,
    Extract.get_all_gzip_urls, Extract.get_urls.
  rewrite filename_of_total.
  destruct is_gzip, is_index; cbn [negb Py.bind]; rewrite Hget; reflexivity.
Qed.

Lemma root_failure_is_fatal_witness :
  ExtractMain.main (list string) broken_net (fun page => page)
    (fun data => Ok data) "http://s/1.xml" true true None
  = Raise RequestException.
Proof.
  exact (root_failure_is_fatal (list string) broken_net (fun page => page)
           (fun data => Ok data) "http://s/1.xml" true true None
           RequestException eq_refl).
Defined.

(** A sitemap URL that ends in a slash names no file to download to. *)
Example single_gzip_directory_url :
  ExtractMain.main (list string) (fun _ => Ok ["http://s/page"])
    (fun page => page) (fun data => Ok data) "http://s/maps/" false true None
  = Raise OSError.
Proof. reflexivity. Qed.

(* ================================================================== *)
(** * More on the renderer: what a finished graph holds *)
(* ================================================================== *)

Import RenderSpec.

Lemma io_bind_ok {A B : Type} (m : io A) (k : A -> io B) (out : list string) (b : B) :
  io_bind m k = (out, Ok b) ->
  exists out1 a out2, m = (out1, Ok a) /\ k a = (out2, Ok b) /\ out = out1 ++ out2.
Proof.
  unfold io_bind. destruct m as [out1 [a|e]]; [|discriminate].
  destruct (k a) as [out2 r] eqn:E. intros [= <- ->].
  exists out1, a, out2. repeat split; assumption.
Qed.

Lemma lift_ok {A : Type} (r : result A) (out : list string) (a : A) :
  lift r = (out, Ok a) -> r = Ok a /\ out = [].
Proof. unfold lift. intros [= <- ->]. split; reflexivity. Qed.

Lemma grows_refl (f : Digraph) : grows f f.
Proof.
  repeat split. exists []. rewrite app_nil_r. reflexivity.
Qed.

Lemma grows_trans (f g h : Digraph) : grows f g -> grows g h -> grows f h.
Proof.
  intros [N1 [F1 [a1 B1]]] [N2 [F2 [a2 B2]]].
  split; [congruence|]. split; [congruence|].
  exists (a1 ++ a2). rewrite B2, B1, app_assoc. reflexivity.
Qed.

Lemma grows_extend (f : Digraph) (lines : list string) : grows f (extend f lines).
Proof. repeat split. exists lines. reflexivity. Qed.

(** A loop whose every step keeps a relation keeps it as a whole. *)
Lemma for_each_keeps {A S : Type} (R : S -> S -> Prop) (l : list A)
    (step : S -> A -> io S) :
  (forall s, R s s) ->
  (forall a b c, R a b -> R b c -> R a c) ->
  (forall s x out s', step s x = (out, Ok s') -> R s s') ->
  forall s out s', for_each l step s = (out, Ok s') -> R s s'.
Proof.
  intros Hrefl Htrans Hstep.
  induction l as [|x l IH]; intros s out s' H.
  - cbn in H. injection H as _ <-. apply Hrefl.
  - cbn [for_each] in H. apply io_bind_ok in H.
    destruct H as (out1 & s1 & out2 & H1 & H2 & _).
    exact (Htrans _ _ _ (Hstep _ _ _ _ H1) (IH _ _ _ H2)).
Qed.

Lemma branch_loop_grows (connect_to : string) (l : list (string * Z)) :
  forall f : Digraph,
    grows f
      (fold_left
         (fun f nv =>
            let f := node f (child_name connect_to (fst nv)) (fst nv) in
            edge f connect_to (child_name connect_to (fst nv))
                 (format_commas (snd nv)))
         l f).
Proof.
  induction l as [|nv l IH]; intros f; cbn [fold_left].
  - apply grows_refl.
  - eapply grows_trans; [|apply IH].
    eapply grows_trans; apply grows_extend.
Qed.

(** [add_branch] only adds lines at the end. *)
Lemma add_branch_grows (f f' : Digraph) (names : list string) (vals : list Z)
    (limit : Z) (connect_to : string) :
  add_branch f names vals limit connect_to = Ok f' -> grows f f'.
Proof.
  unfold add_branch. destruct (node_names f) as [seen|e]; cbn [Py.bind];
    [|discriminate].
  destruct connect_to as [|c rest]; [intros [= <-]; apply grows_refl|].
  destruct (existsb _ seen); intros [= <-];
    [apply branch_loop_grows | apply grows_refl].
Qed.

Lemma host_loop (hosts : list (string * Z)) :
  forall f : Digraph,
    let f' := fold_left
                (fun f nc => node f (fst nc)
                               (fst nc +++ " (" +++ format_commas (snd nc) +++ ")"))
                hosts f in
    name f' = name f /\ filename f' = filename f
    /\ body f' = body f ++ map host_line hosts.
Proof.
  induction hosts as [|nc hosts IH]; intros f; cbn [fold_left map].
  - rewrite app_nil_r. repeat split.
  - destruct (IH (node f (fst nc)
                    (fst nc +++ " (" +++ format_commas (snd nc) +++ ")")))
      as [N [F B]].
    cbn zeta in *. rewrite N, F, B. cbn [node extend name filename body].
    rewrite <- app_assoc. repeat split.
Qed.

Lemma clamped_depth (layers n : Z) :
  (if layers >? n then n else layers) = Z.min layers n.
Proof. destruct (Z.gtb_spec layers n); lia. Qed.

(** The shape of every graph that [make_sitemap_graph] returns: its name
    and file name, the header, the nodes of the hosts, and what the
    layers added. *)
Lemma make_sitemap_graph_shape (srt : sorter) (df : DataFrame)
    (layers limit : Z) (size : string) (out : list string) (f : Digraph) :
  make_sitemap_graph srt df layers limit size = (out, Ok f) ->
  exists (hosts : list (string * Z)) (added : list string),
    branch_sizes srt df 0 (rows df) = Ok hosts
    /\ name f = "sitemap"
    /\ filename f
       = "sitemap_graph_" +++ str (Z.min layers (len df - 1)) +++ "_layer"
    /\ body f = header size ++ map host_line hosts ++ added.
Proof.
  unfold make_sitemap_graph. intros H.
  apply io_bind_ok in H. destruct H as (out1 & a & out2 & Hm & Hk & _).
  assert (Ha : a = Z.min layers (len df - 1)).
  { rewrite <- clamped_depth. destruct (layers >? len df - 1).
    - cbn in Hm. injection Hm as _ <-. reflexivity.
    - cbn in Hm. injection Hm as _ <-. reflexivity. }
  clear Hm. cbv beta zeta in Hk.
  apply io_bind_ok in Hk. destruct Hk as (o1 & hosts & o2 & Hh & Hk & _).
  apply lift_ok in Hh. destruct Hh as [Hh _].
  exists hosts.
  match type of Hk with
  | context [fold_left ?step hosts ?f0] =>
      destruct (host_loop hosts f0) as [N [F B]];
      remember (fold_left step hosts f0) as f1 eqn:Ef1
  end.
  cbv zeta in N, F, B.
  cbn [attr_node_shape extend name filename body app] in N, F, B.
  destruct (a =? 0).
  - injection Hk as _ <-. exists []. rewrite app_nil_r.
    split; [exact Hh|]. split; [exact N|]. split; [rewrite F, Ha; reflexivity|].
    exact B.
  - assert (Hg : grows (attr_node_shape f1 "oval") f).
    { revert Hk. apply for_each_keeps; [apply grows_refl | apply grows_trans |].
      intros s i o s' Hs.
      apply io_bind_ok in Hs. destruct Hs as (p1 & nodes & p2 & _ & Hs & _).
      revert Hs. apply for_each_keeps; [apply grows_refl | apply grows_trans |].
      intros s0 jk q s0' Hj.
      apply io_bind_ok in Hj. destruct Hj as (q1 & data & q2 & _ & Hj & _).
      apply io_bind_ok in Hj. destruct Hj as (q3 & f3 & q4 & Hadd & Hj & _).
      apply lift_ok in Hadd. destruct Hadd as [Hadd _].
      apply io_bind_ok in Hj. destruct Hj as (q5 & u & q6 & _ & Hj & _).
      injection Hj as _ <-. exact (add_branch_grows _ _ _ _ _ _ Hadd). }
    destruct Hg as [N' [F' [added B']]].
    cbn [attr_node_shape extend name filename body] in N', F', B'.
    exists (String tab ("node [shape=" +++ quote "oval" +++ "]") :: added).
    split; [exact Hh|]. split; [congruence|].
    split; [rewrite F', F, Ha; reflexivity|].
    rewrite B', B, <- !app_assoc. reflexivity.
Qed.

Lemma keyed_weight (i : nat) (s : string) (frame : list (list cell * Z)) :
  weight String.compare s
    (flat_map (fun r => match nth i (fst r) None with
                        | Some x => [(x, snd r)]
                        | None => []
                        end) frame)
  = segment_total i s frame.
Proof.
  unfold segment_total.
  induction frame as [|r frame IH]; [reflexivity|].
  cbn [flat_map filter].
  match goal with
  | |- context [match ?c with Some _ => _ | None => _ end] =>
      destruct c as [x|]
  end; cbn [app cell_equal].
  - rewrite weight_cons, IH. unfold same_key. cbn [fst snd].
    destruct (String.eqb_spec x s) as [->|Hne].
    + rewrite (proj2 (cmp_eq _ string_order s s) eq_refl).
      unfold sum_values. cbn [map fold_right snd]. reflexivity.
    + destruct (String.compare x s) eqn:E; try reflexivity.
      apply (cmp_eq _ string_order) in E. contradiction.
  - exact IH.
Qed.

Lemma keyed_keys (i : nat) (s : string) (frame : list (list cell * Z)) :
  In s (map fst (flat_map (fun r => match nth i (fst r) None with
                                    | Some x => [(x, snd r)]
                                    | None => []
                                    end) frame))
  <-> exists r, In r frame /\ nth i (fst r) None = Some s.
Proof.
  rewrite in_map_iff. split.
  - intros [[x n] [Hx Hin]]. cbn [fst] in Hx. subst x.
    apply in_flat_map in Hin. destruct Hin as [r [Hr Hin]].
    exists r. split; [exact Hr|].
    destruct (nth i (fst r) None) as [y|] eqn:E; [|destruct Hin].
    destruct Hin as [[= -> _]|[]]. exact E.
  - intros [r [Hr Hs]]. exists (s, snd r). split; [reflexivity|].
    apply in_flat_map. exists r. split; [exact Hr|].
    unfold cell in *. rewrite Hs. left. reflexivity.
Qed.

Lemma keyed_sum (i : nat) (frame : list (list cell * Z)) :
  sum_values (flat_map (fun r => match nth i (fst r) None with
                                 | Some x => [(x, snd r)]
                                 | None => []
                                 end) frame)
  = sum_values (filter (has_segment i) frame).
Proof.
  unfold sum_values.
  induction frame as [|r frame IH]; [reflexivity|].
  cbn [flat_map filter]. unfold has_segment at 1. unfold cell in *.
  destruct (nth i (fst r) None) as [x|].
  - cbn [app map fold_right snd]. rewrite IH. reflexivity.
  - exact IH.
Qed.

(** What [branch_sizes] returns for the rows [frame] of a parent: one
    entry per value of column [i], with the sum of the counts under it. *)
Lemma branch_sizes_entries (srt : sorter) (df : DataFrame) (i : nat)
    (frame : list (list cell * Z)) (data : list (string * Z)) :
  sorts srt -> branch_sizes srt df i frame = Ok data ->
  NoDup (map fst data)
  /\ (forall s, In s (map fst data)
                <-> exists r, In r frame /\ nth i (fst r) None = Some s)
  /\ (forall s n, In (s, n) data -> n = segment_total i s frame)
  /\ sum_values data = sum_values (filter (has_segment i) frame).
Proof.
  intros Hsrt H. unfold branch_sizes in H.
  destruct (i <? columns df)%nat; [|discriminate]. cbv zeta in H.
  match type of H with
  | Ok (nargsort _ _ _ ?g) = _ =>
      pose proof (nargsort_perm _ Hsrt count_lt false g) as Hp;
      remember (nargsort srt count_lt false g) as d eqn:Ed
  end.
  clear Ed. injection H as ->.
  split; [|split; [|split]].
  - eapply Permutation_NoDup; [apply Permutation_map; exact Hp|].
    apply (keys_sorted_nodup _ string_order). apply (groupby_sorted _ string_order).
  - intros s. etransitivity; [|apply keyed_keys].
    etransitivity; [|apply (groupby_in String.compare string_order)].
    split; apply Permutation_in; [symmetry|]; apply Permutation_map; exact Hp.
  - intros s n Hin. apply (Permutation_in _ (Permutation_sym Hp)) in Hin.
    rewrite <- keyed_weight, <- (groupby_weight String.compare string_order).
    symmetry. apply (weight_of_entry _ string_order); [apply (groupby_sorted _ string_order)|exact Hin].
  - rewrite <- (sum_values_perm _ _ Hp), groupby_sum_total. apply keyed_sum.
Qed.

Lemma filtered_sum_bounds (p : list cell * Z -> bool)
    (l : list (list cell * Z)) :
  forallb (fun r => 0 <=? snd r) l = true ->
  0 <= sum_values (filter p l) <= sum_values l.
Proof.
  unfold sum_values. induction l as [|r l IH]; cbn [forallb filter map fold_right].
  - lia.
  - intros H. apply andb_true_iff in H. destruct H as [Hr Hl].
    apply Z.leb_le in Hr. specialize (IH Hl).
    destruct (p r); cbn [map fold_right]; lia.
Qed.

Lemma filter_keeps_counts (p : list cell * Z -> bool)
    (l : list (list cell * Z)) :
  forallb (fun r => 0 <=? snd r) l = true ->
  forallb (fun r => 0 <=? snd r) (filter p l) = true.
Proof.
  rewrite !forallb_forall. intros H r Hr. apply filter_In in Hr.
  apply H. tauto.
Qed.

(** In a table whose counts fit, every sum over rows of the table, or
    over the rows that a mask selects, is that of 64-bit addition. *)
Lemma segment_total_fits (df : DataFrame) (i : nat) (s : string)
    (m : list cell * Z -> bool) :
  counts_fit df = true ->
  0 <= segment_total i s (filter m (rows df)) < 2 ^ 63.
Proof.
  unfold counts_fit, segment_total. intros H.
  apply andb_true_iff in H. destruct H as [Hpos Hsum]. apply Z.ltb_lt in Hsum.
  pose proof (filtered_sum_bounds m (rows df) Hpos) as H1.
  pose proof (filtered_sum_bounds
                (fun r => cell_equal (nth i (fst r) None) (Some s))
                (filter m (rows df)) (filter_keeps_counts m _ Hpos)) as H2.
  destruct H1 as [_ H1], H2 as [H0 H2]. split; [exact H0|].
  eapply Z.le_lt_trans; [exact H2|]. eapply Z.le_lt_trans; [exact H1|exact Hsum].
Qed.

Lemma filter_all {A : Type} (l : list A) : filter (fun _ => true) l = l.
Proof. induction l as [|x l IH]; cbn [filter]; congruence. Qed.

(** X11.  The first layer of every graph that [make_sitemap_graph]
    returns: after the three header lines comes one node line per host of
    the table, no host twice, labelled with the host and the sum of the
    counts of its rows, in descending order of that sum; the deeper
    layers only add lines after these.  The table is one whose counts
    fit: no count is negative and together they stay below 2^63, so that
    the sums of 64-bit addition, which are within that range as well, are
    the sums. *)
Theorem host_nodes_of_graph (srt : sorter) (df : DataFrame)
    (layers limit : Z) (size : string) (out : list string) (f : Digraph) :
  sorts srt ->
  counts_fit df = true ->
  make_sitemap_graph srt df layers limit size = (out, Ok f) ->
  exists (hosts : list (string * Z)) (added : list string),
    body f = header size ++ map host_line hosts ++ added
    /\ NoDup (map fst hosts)
    /\ (forall h, In h (map fst hosts)
                  <-> exists r, In r (rows df) /\ nth 0 (fst r) None = Some h)
    /\ (forall h n, In (h, n) hosts ->
                    n = host_total h df /\ 0 <= n < 2 ^ 63)
    /\ descending_by count_lt hosts.
Proof.
  intros Hsrt Hfit H. apply make_sitemap_graph_shape in H.
  destruct H as (hosts & added & Hh & _ & _ & Hb).
  exists hosts, added.
  destruct (branch_sizes_entries _ _ _ _ _ Hsrt Hh) as (Hn & Hk & Hw & _).
  split; [exact Hb|]. split; [exact Hn|]. split; [exact Hk|].
  split; [|exact (branch_sizes_descending _ _ _ _ _ Hsrt Hh)].
  intros h n Hin. rewrite (Hw h n Hin). split; [reflexivity|].
  pose proof (segment_total_fits df 0 h (fun _ => true) Hfit) as Hr.
  rewrite filter_all in Hr. exact Hr.
Qed.

Lemma host_nodes_of_graph_witness :
  exists (hosts : list (string * Z)) (added : list string),
    body (built (make_sitemap_graph stable_sort shallow_table 0 50 "8,5"))
    = header "8,5" ++ map host_line hosts ++ added
    /\ NoDup (map fst hosts)
    /\ (forall h, In h (map fst hosts)
                  <-> exists r, In r (rows shallow_table)
                                /\ nth 0 (fst r) None = Some h)
    /\ (forall h n, In (h, n) hosts ->
                    n = host_total h shallow_table /\ 0 <= n < 2 ^ 63)
    /\ descending_by count_lt hosts.
Proof.
  apply (host_nodes_of_graph stable_sort shallow_table 0 50 "8,5"
           (fst (make_sitemap_graph stable_sort shallow_table 0 50 "8,5"))).
  - exact stable_sort_sorts.
  - reflexivity.
  - vm_compute. reflexivity.
Defined.

(** X12.  The children that a layer computes for a parent tuple [k]:
    one entry per segment that stands in column [i] of a row of the
    parent, no segment twice, each with the sum of the counts of the
    parent's rows under it, in descending order of that sum.  Rows of the
    parent that end before column [i] are in no entry, so the entries
    add up to the counts of the parent's rows that reach column [i].
    The table is one whose counts fit (none negative, together below
    2^63), so that these sums are those of 64-bit addition. *)
Theorem children_of_parent (srt : sorter) (df : DataFrame) (i : nat)
    (k : list cell) (data : list (string * Z)) :
  sorts srt ->
  counts_fit df = true ->
  branch_sizes srt df i (filter (mask k) (rows df)) = Ok data ->
  NoDup (map fst data)
  /\ (forall s, In s (map fst data)
                <-> exists r, In r (rows df) /\ mask k r = true
                              /\ nth i (fst r) None = Some s)
  /\ (forall s n, In (s, n) data
                  -> n = segment_total i s (filter (mask k) (rows df))
                     /\ 0 <= n < 2 ^ 63)
  /\ descending_by count_lt data
  /\ sum_values data
     = sum_values (filter (has_segment i) (filter (mask k) (rows df))).
Proof.
  intros Hsrt Hfit H.
  destruct (branch_sizes_entries _ _ _ _ _ Hsrt H) as (Hn & Hk & Hw & Hs).
  split; [exact Hn|]. split; [|split; [|split; [|exact Hs]]].
  2: { intros s n Hin. rewrite (Hw s n Hin). split; [reflexivity|].
       apply segment_total_fits. exact Hfit. }
  - intros s. rewrite Hk. split.
    + intros [r [Hr E]]. apply filter_In in Hr. exists r. tauto.
    + intros [r [Hr [Hm E]]]. exists r. split; [|exact E].
      apply filter_In. tauto.
  - exact (branch_sizes_descending _ _ _ _ _ Hsrt H).
Qed.

Lemma children_of_parent_witness :
  NoDup (map fst [("x", 5); ("y", 4); ("z", 3)])
  /\ (forall s, In s (map fst [("x", 5); ("y", 4); ("z", 3)])
                <-> exists r, In r (rows shallow_table)
                              /\ mask [Some "a.com"] r = true
                              /\ nth 1 (fst r) None = Some s)
  /\ (forall s n, In (s, n) [("x", 5); ("y", 4); ("z", 3)]
                  -> n = segment_total 1 s
                           (filter (mask [Some "a.com"]) (rows shallow_table))
                     /\ 0 <= n < 2 ^ 63)
  /\ descending_by count_lt [("x", 5); ("y", 4); ("z", 3)]
  /\ sum_values [("x", 5); ("y", 4); ("z", 3)]
     = sum_values (filter (has_segment 1)
                     (filter (mask [Some "a.com"]) (rows shallow_table))).
Proof.
  apply (children_of_parent stable_sort shallow_table 1 [Some "a.com"]).
  - exact stable_sort_sorts.
  - reflexivity.
  - vm_compute. reflexivity.
Defined.

Lemma cell_equal_nan (a : cell) : cell_equal a None = false.
Proof. destruct a; reflexivity. Qed.

Lemma in_combine_snd {A B : Type} (x : B) (l' : list B) :
  In x l' -> forall l : list A, List.length l = List.length l' ->
  exists a, In (a, x) (combine l l').
Proof.
  induction l' as [|y l' IH]; intros Hin l Hl; [destruct Hin|].
  destruct l as [|a l]; [discriminate|]. cbn [combine].
  destruct Hin as [->|Hin].
  - exists a. left. reflexivity.
  - injection Hl as Hl. destruct (IH Hin l Hl) as [b Hb].
    exists b. right. exact Hb.
Qed.

(** A tuple that holds NaN selects no row. *)
Lemma mask_nan (k : list cell) (r : list cell * Z) :
  In None k -> mask k r = false.
Proof.
  intros Hin. unfold mask.
  destruct (forallb _ (enumerate k)) eqn:E; [|reflexivity].
  rewrite forallb_forall in E.
  destruct (in_combine_snd None k Hin (map Z.of_nat (seq 0 (List.length k))))
    as [a Ha].
  { rewrite length_map, length_seq. reflexivity. }
  specialize (E (a, None) Ha). cbn [fst snd] in E.
  rewrite cell_equal_nan in E. discriminate E.
Qed.

(** X13.  A parent tuple that holds NaN (a path that ended above the
    layer) gets no children: its mask selects no row of the table, the
    branch sizes are empty and [add_branch] returns the graph as it
    was. *)
Theorem nan_parent_adds_nothing (srt : sorter) (df : DataFrame) (i : nat)
    (k : list cell) (data : list (string * Z)) (f f' : Digraph) (limit : Z) :
  sorts srt -> In None k ->
  branch_sizes srt df i (filter (mask k) (rows df)) = Ok data ->
  add_branch f (map fst data) (map snd data) limit (connect_name k) = Ok f' ->
  filter (mask k) (rows df) = [] /\ data = [] /\ f' = f.
Proof.
  intros Hsrt Hin Hb Ha.
  assert (Hf : filter (mask k) (rows df) = []).
  { apply filter_nothing. intros r _. apply mask_nan. exact Hin. }
  rewrite Hf in Hb.
  assert (Hd : data = []).
  { destruct (branch_sizes_entries _ _ _ _ _ Hsrt Hb) as (_ & Hk & _).
    destruct data as [|[s n] data]; [reflexivity|].
    destruct (proj1 (Hk s) (or_introl eq_refl)) as [r [[] _]]. }
  split; [exact Hf|]. split; [exact Hd|]. subst data.
  destruct (add_branch_grows _ _ _ _ _ _ Ha) as [N [F _]].
  apply add_branch_body in Ha. cbn [map combine] in Ha.
  assert (Hs : Py.slice_to (@nil (string * Z)) limit = []).
  { unfold Py.slice_to. destruct (limit <? 0); apply firstn_nil. }
  rewrite Hs in Ha. cbn [flat_map] in Ha. rewrite app_nil_r in Ha.
  assert (Hbody : body f' = body f) by (destruct Ha; assumption).
  destruct f as [n1 fn1 b1], f' as [n2 fn2 b2].
  cbn [name filename body] in N, F, Hbody. subst. reflexivity.
Qed.

Lemma nan_parent_adds_nothing_witness :
  filter (mask [Some "a.com"; None]) (rows short_url_table) = []
  /\ @nil (string * Z) = []
  /\ {| name := "sitemap"; filename := "sitemap_graph_2_layer"; body := [] |}
     = {| name := "sitemap"; filename := "sitemap_graph_2_layer"; body := [] |}.
Proof.
  apply (nan_parent_adds_nothing stable_sort short_url_table 2
           [Some "a.com"; None] [] _ _ 50).
  - exact stable_sort_sorts.
  - right. left. reflexivity.
  - vm_compute. reflexivity.
  - vm_compute. reflexivity.
Defined.

Lemma range_empty (lo hi : Z) : hi <= lo -> Py.range lo hi = [].
Proof.
  intros H. unfold Py.range.
  replace (Z.to_nat (hi - lo)) with 0%nat by lia. reflexivity.
Qed.

Lemma nargsort_nil (srt : sorter) {A : Type} (lt : A -> A -> bool)
    (ascending : bool) :
  sorts srt -> nargsort srt lt ascending [] = [].
Proof.
  intros Hsrt. apply Permutation_nil.
  apply (nargsort_perm _ Hsrt).
Qed.

(** X14.  A table without rows never makes [make_sitemap_graph] fail
    when it has a host column: the row count 0 clamps every depth above
    -1 to -1 (and the message says that -1 layers are available), the
    loop over the layers has nothing to run, and the graph returned holds
    the header and the line that switches to oval nodes. *)
Theorem empty_table_graph (srt : sorter) (n : nat) (layers limit : Z)
    (size : string) :
  sorts srt -> (0 < n)%nat ->
  make_sitemap_graph srt (empty_frame n) layers limit size
  = ((if layers >? -1
      then [VisualizeMain.line
              "There are only -1 layers available to plot, setting layers=-1"]
      else []),
     Ok {| name := "sitemap";
           filename := "sitemap_graph_" +++ str (Z.min layers (-1)) +++ "_layer";
           body := header size ++ [oval_line] |}).
Proof.
  intros Hsrt Hn. unfold make_sitemap_graph.
  change (len (empty_frame n) - 1) with (-1).
  assert (Hb : branch_sizes srt (empty_frame n) 0 (rows (empty_frame n)) = Ok []).
  { unfold branch_sizes. cbn [empty_frame columns rows flat_map].
    replace (0 <? n)%nat with true by (symmetry; apply Nat.ltb_lt; exact Hn).
    cbv zeta. unfold groupby_sum. cbn [fold_left].
    rewrite (nargsort_nil _ _ _ Hsrt). reflexivity. }
  rewrite Hb. destruct (Z.gtb_spec layers (-1)) as [Hgt|Hle].
  - replace (Z.min layers (-1)) with (-1) by lia. reflexivity.
  - replace (Z.min layers (-1)) with layers by lia.
    cbn [io_bind ret lift fold_left app].
    replace (layers =? 0) with false by (symmetry; apply Z.eqb_neq; lia).
    rewrite range_empty by lia. reflexivity.
Qed.

Lemma empty_table_graph_witness :
  make_sitemap_graph stable_sort (empty_frame 3) 3 50 "8,5"
  = ([VisualizeMain.line
        "There are only -1 layers available to plot, setting layers=-1"],
     Ok {| name := "sitemap";
           filename := "sitemap_graph_-1_layer";
           body := header "8,5" ++ [oval_line] |}).
Proof.
  apply (empty_table_graph stable_sort 3 3 50 "8,5").
  - exact stable_sort_sorts.
  - lia.
Defined.

(** X15.  The style is looked at only after the graph has been built,
    and the graph is rendered only after the style has been applied.
    With the style [light] or [dark], [apply_style] returns the built
    graph unchanged, with the title as the label of the graph attributes;
    [main] then ends as the rendering does: when the PDF is written it
    prints the export message last and returns, and when the rendering
    raises, that exception ends [main] and no export message is printed.
    With any other style [main] has printed everything the graph
    construction prints and then fails with [UnboundLocalError], whatever
    the rendering would do. *)
Theorem style_is_checked_last
    (render : Style.StyledGraph -> option Style.render_error)
    (srt : sorter) (df : DataFrame)
    (graph_depth limit : Z) (title style size : string)
    (out : list string) (f : Digraph) :
  make_sitemap_graph srt df graph_depth limit size = (out, Ok f) ->
  (style = "light" \/ style = "dark" ->
   exists g : Style.StyledGraph,
     Style.apply_style f style title = Style.Returned g
     /\ Style.digraph g = f
     /\ Style.lookup "label" (Style.graph_attr g) = Some title
     /\ VisualizeMain.main render srt df graph_depth limit title style size
        = match render g with
          | None =>
              (preamble df graph_depth ++ out
               ++ [VisualizeMain.line
                     (VisualizeMain.exported_message graph_depth)],
               Style.Returned (VisualizeMain.rendered_name f, g))
          | Some e => (preamble df graph_depth ++ out, Style.RenderFailed e)
          end)
  /\ (style <> "light" -> style <> "dark" ->
      VisualizeMain.main render srt df graph_depth limit title style size
      = (preamble df graph_depth ++ out, Style.UnboundLocalError)).
Proof.
  intros H. unfold VisualizeMain.main. rewrite H. unfold Style.apply_style. split.
  - intros [->| ->]; cbn [String.eqb Ascii.eqb Bool.eqb];
      eexists; (split; [reflexivity|]); (split; [reflexivity|]);
      (split; [reflexivity|]); cbn [Style.digraph];
      match goal with
      | |- context [render ?g] => destruct (render g)
      end; reflexivity.
  - intros Hl Hd.
    destruct (String.eqb_spec style "light") as [E|_]; [contradiction|].
    destruct (String.eqb_spec style "dark") as [E|_]; [contradiction|].
    reflexivity.
Qed.

Lemma style_is_checked_last_witness :
  (("dark" : string) = "light" \/ ("dark" : string) = "dark" ->
   exists g : Style.StyledGraph,
     Style.apply_style
       (built (make_sitemap_graph stable_sort shallow_table 0 50 "8,5"))
       "dark" "" = Style.Returned g
     /\ Style.digraph g
        = built (make_sitemap_graph stable_sort shallow_table 0 50 "8,5")
     /\ Style.lookup "label" (Style.graph_attr g) = Some ""
     /\ VisualizeMain.main (fun _ => Some Style.ExecutableNotFound)
          stable_sort shallow_table 0 50 "" "dark" "8,5"
        = match (fun _ : Style.StyledGraph => Some Style.ExecutableNotFound) g with
          | None =>
              (preamble shallow_table 0
               ++ fst (make_sitemap_graph stable_sort shallow_table 0 50 "8,5")
               ++ [VisualizeMain.line (VisualizeMain.exported_message 0)],
               Style.Returned
                 (VisualizeMain.rendered_name
                    (built (make_sitemap_graph stable_sort shallow_table 0 50
                              "8,5")),
                  g))
          | Some e =>
              (preamble shallow_table 0
               ++ fst (make_sitemap_graph stable_sort shallow_table 0 50 "8,5"),
               Style.RenderFailed e)
          end)
  /\ (("dark" : string) <> "light" -> ("dark" : string) <> "dark" ->
      VisualizeMain.main (fun _ => Some Style.ExecutableNotFound)
        stable_sort shallow_table 0 50 "" "dark" "8,5"
      = (preamble shallow_table 0
         ++ fst (make_sitemap_graph stable_sort shallow_table 0 50 "8,5"),
         Style.UnboundLocalError)).
Proof.
  apply (style_is_checked_last (fun _ => Some Style.ExecutableNotFound)
           stable_sort shallow_table 0 50 "" "dark" "8,5").
  vm_compute. reflexivity.
Defined.

Lemma append_length (s t : string) :
  String.length (s +++ t) = (String.length s + String.length t)%nat.
Proof.
  induction s as [|c s IH]; cbn [String.append String.length Nat.add];
    congruence.
Qed.

Lemma append_cancel_r (t : string) :
  forall s1 s2 : string, s1 +++ t = s2 +++ t -> s1 = s2.
Proof.
  induction s1 as [|c s1 IH]; intros [|d s2] H.
  - reflexivity.
  - apply (f_equal String.length) in H.
    cbn [String.append String.length] in H. rewrite append_length in H. lia.
  - apply (f_equal String.length) in H.
    cbn [String.append String.length] in H. rewrite append_length in H. lia.
  - cbn [String.append] in H. injection H as -> H. f_equal. apply IH. exact H.
Qed.

Lemma append_cancel_l (p : string) :
  forall s1 s2 : string, p +++ s1 = p +++ s2 -> s1 = s2.
Proof.
  induction p as [|c p IH]; intros s1 s2 H; cbn [String.append] in H.
  - exact H.
  - injection H as H. apply IH. exact H.
Qed.

(** Two integers print alike only when they are equal. *)
Lemma str_inj (a b : Z) : str a = str b -> a = b.
Proof.
  unfold str. intros H.
  assert (Hn : forall z, Z.to_int z <> Decimal.Pos Decimal.Nil
                         /\ Z.to_int z <> Decimal.Neg Decimal.Nil).
  { intros [|p|p]; cbn; split; try discriminate;
      intros [= E]; exact (DecimalPos.Unsigned.to_uint_nonnil p E). }
  apply (f_equal DecimalString.NilZero.int_of_string) in H.
  rewrite !DecimalString.NilZero.isi in H by apply Hn.
  injection H as H.
  rewrite <- (DecimalZ.of_to a), <- (DecimalZ.of_to b), H. reflexivity.
Qed.

(** X16.  The file that [main] reports is not always the file it wrote.
    The graph is rendered under the depth that [make_sitemap_graph]
    settled on, the smaller of the requested depth and the row count
    less one, while the last message always names the requested depth:
    the two file names are the same exactly when the requested depth was
    not clamped. *)
Theorem exported_name_is_the_requested
    (render : Style.StyledGraph -> option Style.render_error)
    (srt : sorter) (df : DataFrame)
    (graph_depth limit : Z) (title style size : string)
    (out : list string) (path : string) (g : Style.StyledGraph) :
  VisualizeMain.main render srt df graph_depth limit title style size
  = (out, Style.Returned (path, g)) ->
  path = VisualizeMain.exported_name (Z.min graph_depth (len df - 1))
  /\ last out "" = VisualizeMain.line (VisualizeMain.exported_message graph_depth)
  /\ (path = VisualizeMain.exported_name graph_depth
      <-> graph_depth <= len df - 1).
Proof.
  unfold VisualizeMain.main. intros H.
  destruct (make_sitemap_graph srt df graph_depth limit size) as [o [f|e]] eqn:E;
    [|discriminate].
  apply make_sitemap_graph_shape in E.
  destruct E as (_ & _ & _ & _ & F & _).
  unfold Style.apply_style in H.
  assert (Hp : path = VisualizeMain.exported_name (Z.min graph_depth (len df - 1))
               /\ last out "" = VisualizeMain.line
                                  (VisualizeMain.exported_message graph_depth)).
  { destruct (String.eqb style "light"); [|destruct (String.eqb style "dark")];
      try discriminate;
      match type of H with
      | context [render ?g0] => destruct (render g0)
      end; try discriminate;
      injection H as <- <- _;
      (split;
       [ unfold VisualizeMain.rendered_name, VisualizeMain.exported_name;
         cbn [Style.digraph]; rewrite F, !append_assoc; reflexivity
       | exact (last_last (_ :: _ :: o) _ EmptyString) ]). }
  destruct Hp as [Hp Hl]. split; [exact Hp|]. split; [exact Hl|].
  rewrite Hp. unfold VisualizeMain.exported_name. split.
  - intros Heq. apply append_cancel_l, append_cancel_r, str_inj in Heq. lia.
  - intros Hle. replace (Z.min graph_depth (len df - 1)) with graph_depth by lia.
    reflexivity.
Qed.

Lemma exported_name_is_the_requested_witness :
  ("sitemap_graph_1_layer.pdf" : string)
  = VisualizeMain.exported_name (Z.min 3 (len deep_table - 1))
  /\ last (fst (VisualizeMain.main (fun _ => None) stable_sort deep_table 3 50
                  "" "light" "8,5")) ""
     = VisualizeMain.line (VisualizeMain.exported_message 3)
  /\ (("sitemap_graph_1_layer.pdf" : string) = VisualizeMain.exported_name 3
      <-> 3 <= len deep_table - 1).
Proof.
  eapply (exported_name_is_the_requested (fun _ => None) stable_sort deep_table
            3 50 "" "light" "8,5").
  vm_compute. reflexivity.
Defined.

(* ------------------------------------------------------------------ *)
(** ** Hosts that graphviz writes without quotes *)
(* ------------------------------------------------------------------ *)

Lemma append_nil_r (s : string) : s +++ "" = s.
Proof. induction s as [|c s IH]; cbn [String.append]; congruence. Qed.

Lemma list_ascii_of_append (a b : string) :
  list_ascii_of_string (a +++ b)
  = list_ascii_of_string a ++ list_ascii_of_string b.
Proof.
  induction a as [|c a IH]; cbn [String.append list_ascii_of_string app];
    congruence.
Qed.

Lemma prefix_char (d c : ascii) (r : string) :
  String.prefix (String d EmptyString) (String c r) = Ascii.eqb c d.
Proof.
  cbn [String.prefix]. destruct (ascii_dec d c) as [E|E].
  - subst. rewrite Ascii.eqb_refl. destruct r; reflexivity.
  - symmetry. apply Ascii.eqb_neq. congruence.
Qed.

Lemma not_the_char (P : ascii -> bool) (c d : ascii) :
  P c = true -> P d = false -> Ascii.eqb c d = false.
Proof.
  intros Hc Hd. destruct (Ascii.eqb_spec c d) as [->|_]; [congruence|reflexivity].
Qed.

Lemma letter_is_word (c : ascii) : is_letter c = true -> is_word c = true.
Proof. unfold is_word. intros ->. reflexivity. Qed.

Lemma letter_no_digit (c : ascii) : is_letter c = true -> is_digit c = false.
Proof.
  unfold is_letter, is_digit, between. intros H.
  destruct (Ascii.eqb c "_") eqn:E.
  { apply Ascii.eqb_eq in E. rewrite E. reflexivity. }
  rewrite orb_false_r in H. apply orb_true_iff in H.
  rewrite !andb_true_iff, !Nat.leb_le in H.
  apply andb_false_iff. rewrite !Nat.leb_gt. lia.
Qed.

Lemma word_is_plain (c : ascii) : is_word c = true -> plain_char c = true.
Proof.
  intros H. unfold plain_char.
  rewrite (not_the_char is_word c dquote H eq_refl).
  rewrite (not_the_char is_word c backslash H eq_refl). reflexivity.
Qed.

Lemma name_is_words (h : string) :
  is_name h = true -> forallb is_word (list_ascii_of_string h) = true.
Proof.
  destruct h as [|c r]; [discriminate|]. cbn [is_name list_ascii_of_string forallb].
  intros H. apply andb_true_iff in H. destruct H as [Hc Hr].
  rewrite (letter_is_word c Hc), Hr. reflexivity.
Qed.

Lemma words_are_plain (s : string) :
  forallb is_word (list_ascii_of_string s) = true -> plain_text s = true.
Proof.
  unfold plain_text. rewrite !forallb_forall. intros H c Hc.
  apply word_is_plain, H, Hc.
Qed.

Lemma plain_append (a b : string) :
  plain_text a = true -> plain_text b = true -> plain_text (a +++ b) = true.
Proof.
  unfold plain_text. intros Ha Hb.
  rewrite list_ascii_of_append, forallb_app, Ha, Hb. reflexivity.
Qed.

Lemma chop_words (s : string) :
  forallb is_word (list_ascii_of_string s) = true -> chop_newline s = None.
Proof.
  intros H. unfold chop_newline.
  destruct (rev (list_ascii_of_string s)) as [|d l] eqn:E; [reflexivity|].
  assert (Hd : In d (list_ascii_of_string s)).
  { apply in_rev. rewrite E. left. reflexivity. }
  rewrite forallb_forall in H.
  rewrite (not_the_char is_word d newline (H d Hd) eq_refl). reflexivity.
Qed.

Lemma chop_closing (s : string) : chop_newline (s +++ ")") = None.
Proof.
  unfold chop_newline. rewrite list_ascii_of_append, rev_app_distr. reflexivity.
Qed.

(** A name that is no keyword is written as it stands. *)
Lemma quote_name (h : string) :
  is_name h = true -> existsb (String.eqb (lower h)) keywords = false ->
  quote h = h.
Proof.
  intros Hn Hk. unfold quote.
  assert (Hhtml : is_html_string h = false).
  { unfold is_html_string, up_to_end. rewrite (chop_words h (name_is_words h Hn)).
    destruct h as [|c r]; [discriminate|].
    cbn [is_name] in Hn. apply andb_true_iff in Hn. destruct Hn as [Hc _].
    cbn [list_ascii_of_string].
    rewrite (not_the_char is_letter c "<" Hc eq_refl). reflexivity. }
  assert (Hid : is_valid_id h = true).
  { unfold is_valid_id, up_to_end. rewrite Hn. reflexivity. }
  rewrite Hhtml, Hid, Hk. reflexivity.
Qed.

(** The label of a host, the name with the count in brackets after a
    space, goes between quotes. *)
Lemma quote_host_label (h rest : string) :
  is_name h = true ->
  quote (h +++ " (" +++ rest +++ ")")
  = String dquote (escape_quotes false (h +++ " (" +++ rest +++ ")") +++ quote_mark).
Proof.
  intros Hn.
  assert (Hchop : chop_newline (h +++ " (" +++ rest +++ ")") = None).
  { rewrite <- !append_assoc. apply chop_closing. }
  destruct h as [|c r]; [discriminate|].
  cbn [is_name] in Hn. apply andb_true_iff in Hn. destruct Hn as [Hc Hr].
  unfold quote.
  assert (Hhtml : is_html_string (String c r +++ " (" +++ rest +++ ")") = false).
  { unfold is_html_string, up_to_end. rewrite Hchop.
    cbn [String.append list_ascii_of_string].
    rewrite (not_the_char is_letter c "<" Hc eq_refl). reflexivity. }
  assert (Hid : is_valid_id (String c r +++ " (" +++ rest +++ ")") = false).
  { unfold is_valid_id, up_to_end. rewrite Hchop.
    cbn [String.append is_name is_numeral list_ascii_of_string is_unsigned].
    rewrite list_ascii_of_append, forallb_app.
    cbn [String.append list_ascii_of_string forallb].
    change (is_word " ") with false.
    rewrite (not_the_char is_letter c "-" Hc eq_refl).
    rewrite (not_the_char is_letter c "." Hc eq_refl).
    rewrite (letter_no_digit c Hc).
    rewrite !andb_false_r. reflexivity. }
  rewrite Hhtml, Hid. reflexivity.
Qed.

Lemma escape_plain (x : string) :
  plain_text x = true ->
  forall rest, escape_quotes false (x +++ rest) = x +++ escape_quotes false rest.
Proof.
  unfold plain_text.
  induction x as [|c x IH]; intros H rest; [reflexivity|].
  cbn [list_ascii_of_string forallb] in H. apply andb_true_iff in H.
  destruct H as [Hc Hx]. unfold plain_char in Hc.
  apply andb_true_iff in Hc. destruct Hc as [Hq Hb].
  apply negb_true_iff in Hq, Hb.
  cbn [String.append escape_quotes]. rewrite Hq, Hb, (IH Hx). reflexivity.
Qed.

Lemma split_plain_prefix (x y : string) :
  plain_text x = true ->
  Py.split_pieces quote_mark 0 (x +++ y)
  = match Py.split_pieces quote_mark 0 y with
    | p :: ps => (x +++ p) :: ps
    | [] => []
    end.
Proof.
  unfold plain_text.
  induction x as [|c x IH]; intros H.
  - cbn [String.append]. destruct (Py.split_pieces quote_mark 0 y); reflexivity.
  - cbn [list_ascii_of_string forallb] in H. apply andb_true_iff in H.
    destruct H as [Hc Hx]. unfold plain_char in Hc.
    apply andb_true_iff in Hc. destruct Hc as [Hq _]. apply negb_true_iff in Hq.
    cbn [String.append Py.split_pieces]. unfold quote_mark at 1.
    rewrite prefix_char, Hq. fold quote_mark. rewrite (IH Hx).
    destruct (Py.split_pieces quote_mark 0 y) as [|p ps] eqn:E; [|reflexivity].
    exfalso. exact (split_pieces_nonempty _ _ _ E).
Qed.

Lemma split_at_quote (y : string) :
  Py.split_pieces quote_mark 0 (String dquote y)
  = EmptyString :: Py.split_pieces quote_mark 0 y.
Proof.
  cbn [Py.split_pieces]. unfold quote_mark at 1.
  rewrite prefix_char, Ascii.eqb_refl. reflexivity.
Qed.

Lemma contains_prefix (sub s : string) :
  String.prefix sub s = true -> Py.contains sub s = true.
Proof. destruct s; cbn [Py.contains]; intros ->; reflexivity. Qed.

Lemma contains_later (sub a b : string) :
  Py.contains sub b = true -> Py.contains sub (a +++ b) = true.
Proof.
  intros H. induction a as [|c a IH]; [exact H|].
  cbn [String.append Py.contains]. rewrite IH. apply orb_true_r.
Qed.

(** The name that [add_branch] reads back from the line of a host that
    is written without quotes starts with the host and a space: it is
    read from the label. *)
Lemma host_line_name (h : string) (n : Z) :
  is_name h = true -> existsb (String.eqb (lower h)) keywords = false ->
  Py.contains "label" (host_line (h, n)) = true
  /\ exists p : string,
       (a <- Py.split (host_line (h, n)) quote_mark ;; Py.index a 1)
       = Ok ((h +++ " (") +++ p).
Proof.
  intros Hn Hk. unfold host_line, node_line, label_attr. cbn [fst snd].
  rewrite (quote_name h Hn Hk), (quote_host_label h _ Hn). split.
  - cbn [Py.contains]. apply orb_true_iff. right.
    apply contains_later. cbn [String.append Py.contains].
    apply orb_true_iff. right. apply orb_true_iff. right.
    apply orb_true_iff. left. reflexivity.
  - assert (Hplain : plain_text (h +++ " (") = true).
    { apply plain_append; [|reflexivity].
      apply words_are_plain, name_is_words, Hn. }
    assert (Hfront : plain_text (String tab (h +++ " [label=")) = true).
    { apply (plain_append (String tab EmptyString));
        [reflexivity | apply plain_append; [|reflexivity]].
      apply words_are_plain, name_is_words, Hn. }
    match goal with
    | |- context [escape_quotes false ?l +++ quote_mark] =>
        replace l with ((h +++ " (") +++ (format_commas n +++ ")"))
          by (rewrite append_assoc; reflexivity)
    end.
    rewrite (escape_plain _ Hplain).
    match goal with
    | |- context [Py.split ?line quote_mark] =>
        replace line
          with (String tab (h +++ " [label=")
                +++ String dquote
                      ((h +++ " (")
                       +++ (escape_quotes false (format_commas n +++ ")")
                            +++ quote_mark) +++ "]"))
    end.
    2: { cbn [String.append]. rewrite !append_assoc. reflexivity. }
    unfold Py.split, quote_mark at 1. fold quote_mark.
    rewrite (split_plain_prefix _ _ Hfront), split_at_quote.
    rewrite (split_plain_prefix _ _ Hplain).
    destruct (Py.split_pieces quote_mark 0 _) as [|p ps] eqn:E.
    { exfalso. exact (split_pieces_nonempty _ _ _ E). }
    exists p. cbn [Py.bind]. rewrite index_nonneg by lia. reflexivity.
Qed.

Lemma for_each_inv {A S : Type} (P : S -> Prop) (l : list A)
    (step : S -> A -> io S) :
  (forall s x out s', In x l -> P s -> step s x = (out, Ok s') -> P s') ->
  forall s out s', P s -> for_each l step s = (out, Ok s') -> P s'.
Proof.
  induction l as [|x l IH]; intros Hstep s out s' Hs H.
  - cbn in H. injection H as _ <-. exact Hs.
  - cbn [for_each] in H. apply io_bind_ok in H.
    destruct H as (o1 & s1 & o2 & H1 & H2 & _).
    apply (IH (fun s x out s' Hin => Hstep s x out s' (or_intror Hin)) s1 o2 s').
    + exact (Hstep s x o1 s1 (or_introl eq_refl) Hs H1).
    + exact H2.
Qed.

Lemma range_in (lo hi i : Z) : In i (Py.range lo hi) -> lo <= i < hi.
Proof.
  unfold Py.range. intros H. apply in_map_iff in H.
  destruct H as [k [<- Hk]]. apply in_seq in Hk. lia.
Qed.

Lemma drop_duplicates_incl (l : list (list cell)) :
  forall (seen : list (list cell)) (k : list cell),
    In k (drop_duplicates seen l) -> In k l.
Proof.
  induction l as [|x l IH]; intros seen k; cbn [drop_duplicates].
  - intros [].
  - destruct (existsb (tuple_same x) seen).
    + intros H. right. exact (IH _ _ H).
    + intros [->|H]; [left; reflexivity | right; exact (IH _ _ H)].
Qed.

(** A parent whose name is not among the names read back gets nothing. *)
Lemma add_branch_unseen (f f' : Digraph) (names : list string) (vals : list Z)
    (limit : Z) (c : string) (seen : list string) :
  node_names f = Ok seen -> existsb (String.eqb c) seen = false ->
  add_branch f names vals limit c = Ok f' -> f' = f.
Proof.
  unfold add_branch. intros -> Hs. cbn [Py.bind].
  destruct c as [|a c]; [intros [= <-]; reflexivity|].
  rewrite Hs. intros [= <-]. reflexivity.
Qed.

Lemma join_not_label (h : string) (l : list string) (p : string) :
  Py.join "-" (h :: l) <> (h +++ " (") +++ p.
Proof.
  unfold Py.join. rewrite append_assoc. destruct l as [|y l]; cbn [String.concat].
  - intros H. rewrite <- (append_nil_r h) in H at 1.
    apply append_cancel_l in H. discriminate H.
  - intros H. apply append_cancel_l in H. discriminate H.
Qed.

Lemma plain_host_names (h size : string) (n : Z) (f : Digraph) :
  is_name h = true -> existsb (String.eqb (lower h)) keywords = false ->
  filter (Py.contains "label") (header size) = [] ->
  body f = header size ++ [host_line (h, n); oval_line] ->
  exists p : string, node_names f = Ok [(h +++ " (") +++ p].
Proof.
  intros Hn Hk Hs Hb. destruct (host_line_name h n Hn Hk) as [Hc [p Hp]].
  exists p. unfold node_names. rewrite Hb, filter_app, Hs.
  cbn [app filter]. rewrite Hc.
  change (Py.contains "label" oval_line) with false.
  cbn [Py.mapM]. rewrite Hp. reflexivity.
Qed.

Lemma only_element {A : Type} (h : A) (l : list A) :
  NoDup l -> In h l -> (forall x, In x l -> x = h) -> l = [h].
Proof.
  intros Hnd Hin Hall. destruct l as [|a [|b l]].
  - destruct Hin.
  - rewrite (Hall a (or_introl eq_refl)). reflexivity.
  - exfalso. inversion Hnd as [|? ? Hna _]; subst. apply Hna.
    rewrite (Hall a (or_introl eq_refl)),
            <- (Hall b (or_intror (or_introl eq_refl))).
    left. reflexivity.
Qed.

(** X17.  A table whose only host is a plain identifier that is no DOT
    keyword (such as [localhost]) is drawn as that one host and nothing
    else, whatever the depth and the limit.  graphviz writes such a name
    without quotes, so the text between the first two double quotes of
    its line, which [add_branch] takes for the name of the node, is the
    label with the count; no parent is found among the names read back,
    and no node and no edge of a deeper layer is added.  The table is one
    whose counts fit (none negative, together below 2^63), so that the
    count in the label is the sum of 64-bit addition. *)
Theorem plain_host_gets_no_children (srt : sorter) (df : DataFrame)
    (layers limit : Z) (size h : string) (out : list string) (f : Digraph) :
  sorts srt ->
  counts_fit df = true ->
  is_name h = true ->
  existsb (String.eqb (lower h)) keywords = false ->
  filter (Py.contains "label") (header size) = [] ->
  rows df <> [] ->
  (forall r, In r (rows df) -> nth 0 (fst r) None = Some h) ->
  make_sitemap_graph srt df layers limit size = (out, Ok f) ->
  body f
  = header size
    ++ host_line (h, host_total h df)
       :: (if Z.min layers (len df - 1) =? 0 then [] else [oval_line])
  /\ 0 <= host_total h df < 2 ^ 63.
Proof.
  intros Hsrt Hfit Hn Hkw Hsize Hne Hall H.
  split.
  2: { pose proof (segment_total_fits df 0 h (fun _ => true) Hfit) as Hr.
       rewrite filter_all in Hr. exact Hr. }
  unfold make_sitemap_graph in H.
  apply io_bind_ok in H. destruct H as (out1 & a & out2 & Hm & Hk & _).
  assert (Ha : a = Z.min layers (len df - 1)).
  { rewrite <- clamped_depth. destruct (layers >? len df - 1).
    - cbn in Hm. injection Hm as _ <-. reflexivity.
    - cbn in Hm. injection Hm as _ <-. reflexivity. }
  clear Hm. cbv beta zeta in Hk.
  apply io_bind_ok in Hk. destruct Hk as (o1 & hosts & o2 & Hh & Hk & _).
  apply lift_ok in Hh. destruct Hh as [Hh _].
  assert (Hhosts : hosts = [(h, host_total h df)]).
  { destruct (branch_sizes_entries _ _ _ _ _ Hsrt Hh) as (Hnd & Hkeys & Hw & _).
    assert (Hone : map fst hosts = [h]).
    { apply only_element; [exact Hnd | |].
      - apply Hkeys. destruct (rows df) as [|r rest]; [congruence|].
        exists r. split; [left; reflexivity|]. apply Hall. left. reflexivity.
      - intros x Hx. apply Hkeys in Hx. destruct Hx as [r [Hr E]].
        rewrite (Hall r Hr) in E. congruence. }
    destruct hosts as [|[h' n] [|more hosts]]; try discriminate Hone.
    cbn [map fst] in Hone. injection Hone as ->.
    rewrite (Hw h n (or_introl eq_refl)). reflexivity. }
  subst hosts. cbn [fold_left] in Hk.
  rewrite <- Ha. destruct (a =? 0).
  - injection Hk as _ <-. reflexivity.
  - set (P := fun g : Digraph =>
                body g = header size ++ [host_line (h, host_total h df); oval_line]).
    change (P f). refine (for_each_inv P _ _ _ _ _ _ _ Hk); [|reflexivity].
    intros s i o s' Hi Ps Hs.
    apply range_in in Hi.
    apply io_bind_ok in Hs. destruct Hs as (p1 & nodes & p2 & Hnodes & Hs & _).
    apply lift_ok in Hnodes. destruct Hnodes as [Hnodes _].
    refine (for_each_inv P _ _ _ _ _ _ Ps Hs).
    intros s0 [j k] q s0' Hjk Ps0 Hj. cbn [fst snd] in Hj.
    apply io_bind_ok in Hj. destruct Hj as (q1 & data & q2 & _ & Hj & _).
    apply io_bind_ok in Hj. destruct Hj as (q3 & f3 & q4 & Hadd & Hj & _).
    apply lift_ok in Hadd. destruct Hadd as [Hadd _].
    apply io_bind_ok in Hj. destruct Hj as (q5 & u & q6 & _ & Hj & _).
    injection Hj as _ <-.
    destruct (plain_host_names h size _ s0 Hn Hkw Hsize Ps0) as [p Hp].
    rewrite (add_branch_unseen _ _ _ _ _ _ _ Hp) with (2 := Hadd); [exact Ps0|].
    cbn [existsb]. rewrite orb_false_r. apply String.eqb_neq.
    apply in_combine_r in Hjk.
    unfold parent_tuples in Hnodes.
    destruct (Z.to_nat i <=? columns df)%nat; [|discriminate].
    injection Hnodes as <-.
    apply drop_duplicates_incl, in_map_iff in Hjk.
    destruct Hjk as [r [<- Hr]].
    pose proof (Hall r Hr) as Hhost.
    destruct (fst r) as [|c t]; [discriminate|]. cbn [nth] in Hhost. subst c.
    destruct (Z.to_nat i) as [|m] eqn:Ei; [lia|].
    cbn [firstn]. unfold connect_name. cbn [map str_cell].
    apply join_not_label.
Qed.

Lemma plain_host_gets_no_children_witness :
  body (built (make_sitemap_graph stable_sort plain_host_table 1 50 "8,5"))
  = header "8,5"
    ++ host_line ("localhost", host_total "localhost" plain_host_table)
       :: (if Z.min 1 (len plain_host_table - 1) =? 0 then [] else [oval_line])
  /\ 0 <= host_total "localhost" plain_host_table < 2 ^ 63.
Proof.
  apply (plain_host_gets_no_children stable_sort plain_host_table 1 50 "8,5"
           "localhost"
           (fst (make_sitemap_graph stable_sort plain_host_table 1 50 "8,5"))).
  - exact stable_sort_sorts.
  - reflexivity.
  - reflexivity.
  - reflexivity.
  - reflexivity.
  - discriminate.
  - intros r [<-|[<-|[]]]; reflexivity.
  - vm_compute. reflexivity.
Defined.

(* ================================================================== *)
(** * The categorizer at depth 0 and the host of a URL *)
(* ================================================================== *)

Import HostSpec.






